(** * ASRA: the staged artifact pipeline of the research agents

    A shallow embedding of the three agent notebooks
    ([agents/literature_review.ipynb], [agents/hypothesis_generator.ipynb],
    [agents/visualizer.ipynb]) and the properties of the pipeline they form.

    Python values are modelled by [pyval], Python dictionaries by
    insertion-ordered association lists, raised exceptions by an explicit
    [outcome], and the mutable surroundings (files, directories, the logger,
    the external services) by a [world] that every stage threads through. *)

From Stdlib Require Import SpecFloat Sorted.
From stdpp Require Import gmap strings list pretty.

Set Warnings "-register-all".
Open Scope list_scope.

(** ** Python values *)

(** A JSON-shaped Python value.  A [float] is an IEEE 754 value, and
    [PDict] keeps the insertion order of the dictionary, which is the order
    [dict.items()] iterates in and the order the [json] encoder emits. *)
Inductive pyval : Type :=
| PNone
| PBool (b : bool)
| PInt (n : Z)
| PFloat (x : spec_float)
| PStr (s : string)
| PList (l : list pyval)
| PDict (d : list (string * pyval)).

Abbreviation dict := (list (string * pyval)).

(** Instances of Python's [Exception]: the class name and [str(e)]. *)
Record exn : Type := Exn { exn_class : string; exn_msg : string }.

Inductive outcome (A : Type) : Type :=
| Ok (a : A)
| Raise (e : exn).
Arguments Ok {A} a.
Arguments Raise {A} e.

(** [bool(v)]: the test behind [if v:] and [not v]. *)
Definition truthy (v : pyval) : bool :=
  match v with
  | PNone => false
  | PBool b => b
  | PInt n => negb (n =? 0)%Z
  | PFloat x => negb (SFeqb x (S754_zero false))
  | PStr s => negb (String.eqb s "")
  | PList l => match l with [] => false | _ :: _ => true end
  | PDict d => match d with [] => false | _ :: _ => true end
  end.

(** [d[k]] on a dictionary, [None] when the key is missing. *)
Fixpoint dict_get (d : dict) (k : string) : option pyval :=
  match d with
  | [] => None
  | (k', v) :: d' => if String.eqb k' k then Some v else dict_get d' k
  end.

(** [d[k] = v]: an existing key keeps its position and takes the new value,
    a new key goes to the end. *)
Fixpoint dict_set (d : dict) (k : string) (v : pyval) : dict :=
  match d with
  | [] => [(k, v)]
  | (k', v') :: d' =>
      if String.eqb k' k then (k', v) :: d' else (k', v') :: dict_set d' k v
  end.

Definition dict_keys (d : dict) : list string := d.*1.

(** The name [type(v).__name__] used in [TypeError] messages. *)
Definition type_name (v : pyval) : string :=
  match v with
  | PNone => "NoneType"
  | PBool _ => "bool"
  | PInt _ => "int"
  | PFloat _ => "float"
  | PStr _ => "str"
  | PList _ => "list"
  | PDict _ => "dict"
  end.

(** [v[k]] with a string subscript [k]. *)
Definition py_getitem (v : pyval) (k : string) : outcome pyval :=
  match v with
  | PDict d =>
      match dict_get d k with
      | Some x => Ok x
      | None => Raise (Exn "KeyError" ("'" +:+ k +:+ "'"))
      end
  | PList _ =>
      Raise (Exn "TypeError" "list indices must be integers or slices, not str")
  | PStr _ => Raise (Exn "TypeError" "string indices must be integers")
  | _ =>
      Raise (Exn "TypeError"
               ("'" +:+ type_name v +:+ "' object is not subscriptable"))
  end.

(** [len(v)]. *)
Definition py_len (v : pyval) : outcome nat :=
  match v with
  | PStr s => Ok (String.length s)
  | PList l => Ok (length l)
  | PDict d => Ok (length d)
  | _ =>
      Raise (Exn "TypeError"
               ("object of type '" +:+ type_name v +:+ "' has no len()"))
  end.

Definition newline : string := String (Ascii.ascii_of_nat 10) "".

(** [sep.join(parts)] on strings. *)
Fixpoint str_join (sep : string) (parts : list string) : string :=
  match parts with
  | [] => ""
  | [s] => s
  | s :: rest => s +:+ sep +:+ str_join sep rest
  end.

(** The strings of a list of values, if every element is a [str]. *)
Fixpoint all_strs (l : list pyval) : option (list string) :=
  match l with
  | [] => Some []
  | PStr s :: l' =>
      match all_strs l' with Some ss => Some (s :: ss) | None => None end
  | _ :: _ => None
  end.

Fixpoint chars_of (s : string) : list string :=
  match s with
  | EmptyString => []
  | String c s' => String c "" :: chars_of s'
  end.

(** ["\n".join(v)]: [v] is iterated, so a list must hold strings only, a
    string yields its characters and a dictionary its keys. *)
Definition join_lines (v : pyval) : outcome string :=
  match v with
  | PList l =>
      match all_strs l with
      | Some ss => Ok (str_join newline ss)
      | None =>
          Raise (Exn "TypeError" "sequence item: expected str instance")
      end
  | PStr s => Ok (str_join newline (chars_of s))
  | PDict d => Ok (str_join newline (dict_keys d))
  | _ => Raise (Exn "TypeError" "can only join an iterable")
  end.

(** ** Paths *)

(** A [pathlib.Path] as its list of components, [p / name] appends one: a
    name, a paper title or dataset name included, is taken to hold no path
    separator. *)
Abbreviation path := (list string).

Definition path_div (p : path) (name : string) : path := p ++ [name].
Infix "//" := path_div (at level 40, left associativity).

Definition parent (p : path) : path := removelast p.

(** [str(p)]. *)
Definition path_str (p : path) : string := str_join "/" p.

(** Every proper prefix of a path: the directories that must exist for the
    path itself to be creatable. *)
Fixpoint ancestors (p : path) : list path :=
  match p with
  | [] => []
  | c :: p' => [] :: map (cons c) (ancestors p')
  end.

(** ** Strings *)

(** [c.isspace()], for the code points below 256. *)
Definition is_space (c : Ascii.ascii) : bool :=
  let n := Ascii.nat_of_ascii c in
  (((9 <=? n) && (n <=? 13)) || ((28 <=? n) && (n <=? 32))
   || (n =? 133) || (n =? 160))%nat.

Fixpoint lstrip (s : string) : string :=
  match s with
  | EmptyString => EmptyString
  | String c s' => if is_space c then lstrip s' else s
  end.

Fixpoint rstrip (s : string) : string :=
  match s with
  | EmptyString => EmptyString
  | String c s' =>
      match rstrip s' with
      | EmptyString => if is_space c then EmptyString else String c EmptyString
      | r => String c r
      end
  end.

(** [s.strip()]. *)
Definition strip (s : string) : string := rstrip (lstrip s).

(** [s.split(sep)] for a one-character separator: one more piece than there
    are separators, empty pieces included. *)
Fixpoint split_char (sep : Ascii.ascii) (s : string) : list string :=
  match s with
  | EmptyString => [EmptyString]
  | String c s' =>
      if Ascii.eqb c sep then EmptyString :: split_char sep s'
      else
        match split_char sep s' with
        | piece :: pieces => String c piece :: pieces
        | [] => [String c EmptyString]
        end
  end.

(** ** The world the notebooks run in *)

Inductive level : Type := INFO | WARNING | ERROR.

(** A paper as [load_research_papers] yields it: [paper['title']] and
    [paper['content']]. *)
Record paper : Type := Paper { title : string; content : string }.

(** ** What the notebooks take from outside *)

(** The collaborators of the three stages.  [E] is the state of everything
    outside the process: the papers directory, the BERT and Stable
    Diffusion models, the DeepSeek service.  A collaborator that is called
    takes that state and leaves a new one, and it returns a value or
    raises. *)
Class Services (E : Type) : Type := {
  (** [json.loads], [json.dumps] as [save_json] applies it, and the chunks
      that [json.dump(obj, f, indent=2)] hands to [f.write] one by one. *)
  json_loads : string -> option pyval;
  json_dumps : pyval -> string;
  json_iterencode : pyval -> list string;
  (** [str(v)] as an f-string interpolates it. *)
  py_format : pyval -> string;
  (** [utils.config.OUTPUTS_DIR]. *)
  OUTPUTS_DIR : path;
  (** [load_research_papers(RESEARCH_PAPERS_DIR)] of [utils.helpers]. *)
  load_research_papers : E -> outcome (list paper) * E;
  (** [extract_key_insights] as the loop of [analyze_papers] sees it: a
      call that returns some value or raises. *)
  insights_of : string -> E -> outcome pyval * E;
  (** The exchange with the DeepSeek service in [generate_hypothesis]:
      [requests.post], [raise_for_status] and [response.json()], on the
      prompt sent. *)
  deepseek_post : string -> E -> outcome pyval * E;
  (** [StableDiffusionPipeline.from_pretrained(...).to(device)] in the
      constructor of [VisualizationGenerator]. *)
  load_pipeline : E -> outcome unit * E;
  (** [self.pipeline(prompt)], with the bytes [image.save] writes for its
      first image. *)
  render : string -> E -> outcome string * E
}.

(** BERT as the function it computes: [embed max_length s] is the mean of
    the last hidden state for [s] tokenized with that [max_length], and
    [cosine] the [.item()] of [torch.cosine_similarity].  [score_lt] is
    Python's [<] on the scores. *)
Class Ranker : Type := {
  Emb : Type;
  Score : Type;
  embed : nat -> string -> Emb;
  cosine : Emb -> Emb -> Score;
  score_lt : Score -> Score -> bool
}.

Section Pipeline.

Context {E : Type}.

Record world : Type := World {
  files : gmap path string;      (* regular files and their content *)
  dirs : gset path;              (* directories, besides the root [[]] *)
  log : list (level * string);   (* what the [logger] has emitted *)
  ext : E;
  calls : list string            (* arguments of the transform calls made *)
}.

(** A computation that reads and changes the world and ends normally or by
    raising. *)
Definition M (A : Type) : Type := world -> outcome A * world.

Definition ret {A} (a : A) : M A := fun w => (Ok a, w).

Definition bind {A B} (m : M A) (k : A -> M B) : M B :=
  fun w =>
    match m w with
    | (Ok a, w') => k a w'
    | (Raise e, w') => (Raise e, w')
    end.

Definition lift {A} (r : outcome A) : M A := fun w => (r, w).

(** [try: body / except Exception as e: handler e]. *)
Definition try_except {A} (body : M A) (handler : exn -> M A) : M A :=
  fun w =>
    match body w with
    | (Ok a, w') => (Ok a, w')
    | (Raise e, w') => handler e w'
    end.

#[global] Instance M_ret : MRet M := @ret.
#[global] Instance M_bind : MBind M := fun A B k m => bind m k.

Definition with_files (f : gmap path string) (w : world) : world :=
  {| files := f; dirs := dirs w; log := log w; ext := ext w;
     calls := calls w |}.

Definition with_dirs (d : gset path) (w : world) : world :=
  {| files := files w; dirs := d; log := log w; ext := ext w;
     calls := calls w |}.

Definition add_log (lv : level) (msg : string) (w : world) : world :=
  {| files := files w; dirs := dirs w; log := log w ++ [(lv, msg)];
     ext := ext w; calls := calls w |}.

Definition with_ext (e : E) (w : world) : world :=
  {| files := files w; dirs := dirs w; log := log w; ext := e;
     calls := calls w |}.

Definition add_call (x : string) (e : E) (w : world) : world :=
  {| files := files w; dirs := dirs w; log := log w; ext := e;
     calls := calls w ++ [x] |}.

(** [logger.info], [logger.warning], [logger.error]. *)
Definition logger (lv : level) (msg : string) : M unit :=
  fun w => (Ok tt, add_log lv msg w).

(** A call of an external collaborator on the argument [x]; the call is
    recorded in [calls] whatever its outcome. *)
Definition call_ext {A} (f : string -> E -> outcome A * E) (x : string) : M A :=
  fun w => let (r, e') := f x (ext w) in (r, add_call x e' w).

(** An external collaborator that takes no item. *)
Definition run_ext {A} (f : E -> outcome A * E) : M A :=
  fun w => let (r, e') := f (ext w) in (r, with_ext e' w).

(** *** Files and directories *)

Definition is_dir (w : world) (p : path) : bool :=
  bool_decide (p = []) || bool_decide (p ∈ dirs w).

(** An [OSError] of the operating system on the path [p]: [str(e)] is the
    error number and its text, then the path between quotes, as [repr]
    shows a path that holds no quote and nothing to escape. *)
Definition os_error (class errno : string) (p : path) : exn :=
  Exn class (errno +:+ ": '" +:+ path_str p +:+ "'").

Definition file_not_found (p : path) : exn :=
  os_error "FileNotFoundError" "[Errno 2] No such file or directory" p.

Definition file_exists (p : path) : exn :=
  os_error "FileExistsError" "[Errno 17] File exists" p.

Definition is_a_directory (p : path) : exn :=
  os_error "IsADirectoryError" "[Errno 21] Is a directory" p.

(** [p.mkdir(exist_ok=True)] (with [parents=False]). *)
Definition mkdir_exist_ok (p : path) : M unit :=
  fun w =>
    if is_dir w p then (Ok tt, w)
    else if bool_decide (is_Some (files w !! p)) then
      (Raise (file_exists p), w)
    else if is_dir w (parent p) then (Ok tt, with_dirs ({[p]} ∪ dirs w) w)
    else (Raise (file_not_found p), w).

(** [open(p, 'w')]: the file is created, or cut to length zero, at once. *)
Definition open_w (p : path) : M unit :=
  fun w =>
    if is_dir w p then (Raise (is_a_directory p), w)
    else if is_dir w (parent p) then (Ok tt, with_files (<[p := ""]> (files w)) w)
    else (Raise (file_not_found p), w).

(** [f.write(s)] on the file opened at [p]. *)
Definition write_chunk (p : path) (s : string) : M unit :=
  fun w =>
    (Ok tt, with_files (<[p := default "" (files w !! p) +:+ s]> (files w)) w).

(** A write is a sequence of primitive steps, run one after the other. *)
Fixpoint run_steps (steps : list (M unit)) : M unit :=
  match steps with
  | [] => ret tt
  | s :: rest => s;; run_steps rest
  end.

(** A [for] loop that updates one local dictionary: the body takes the
    dictionary as it stands and the next item, in order; an exception of
    the body ends the loop. *)
Fixpoint for_each {A} (body : dict -> A -> M dict) (items : list A)
    (acc : dict) : M dict :=
  match items with
  | [] => ret acc
  | item :: rest => acc' ← body acc item; for_each body rest acc'
  end.

(** *** The Artifact Store helpers of [utils.helpers] *)

Context {services : Services E}.

(** Modelled from the spec: [utils.helpers.load_json] is not among the
    sources.  It fails with [NotFoundError] if the artifact does not exist,
    and with [FormatError] if the content is not a well-formed keyed
    mapping. *)
Definition load_json (p : path) : M dict :=
  fun w =>
    match files w !! p with
    | None => (Raise (Exn "NotFoundError" (path_str p)), w)
    | Some s =>
        match json_loads s with
        | Some (PDict d) => (Ok d, w)
        | _ => (Raise (Exn "FormatError" (path_str p)), w)
        end
    end.

(** Modelled from the spec: [utils.helpers.save_json] is not among the
    sources.  It creates parent directories as needed and replaces any
    prior artifact of the same name by the serialized mapping, all at
    once. *)
Definition save_json (data : dict) (p : path) : M unit :=
  fun w =>
    (Ok tt,
     with_dirs (list_to_set (ancestors p) ∪ dirs w)
       (with_files (<[p := json_dumps (PDict data)]> (files w)) w)).

(** ** Literature review: [extract_key_insights] *)

Context {ranker : Ranker}.

(** The loop over [text.split('.')]: a sentence that is empty once stripped
    is passed over, any other is scored unstripped and recorded stripped. *)
Definition score_sentences (text : string) : list (string * Score) :=
  let embeddings := embed 512 text in
  flat_map
    (fun sentence =>
       if (0 <? String.length (strip sentence))%nat then
         [(strip sentence, cosine embeddings (embed 128 sentence))]
       else [])
    (split_char (Ascii.ascii_of_nat 46) text).

(** [l.sort(key=lambda x: x[1], reverse=True)].  Python's sort is stable,
    also under [reverse=True], and compares keys with [<] alone; what it
    returns for keys that [<] orders weakly is this stable insertion. *)
Fixpoint insert_desc (x : string * Score) (l : list (string * Score))
  : list (string * Score) :=
  match l with
  | [] => [x]
  | y :: l' => if score_lt x.2 y.2 then y :: insert_desc x l' else x :: l
  end.

Definition sort_desc (l : list (string * Score)) : list (string * Score) :=
  foldr insert_desc [] l.

Record insights : Type := Insights {
  key_points : list string;
  importance_scores : list Score
}.

Definition extract_key_insights (text : string) : insights :=
  let sentence_scores := sort_desc (score_sentences text) in
  {| key_points := (take 3 sentence_scores).*1;
     importance_scores := (take 3 sentence_scores).*2 |}.

(** ** Literature review: [analyze_papers] *)

(** The body of [for paper in papers], with its [try] and [except]. *)
Definition analyze_paper (analysis_results : dict) (paper : paper) : M dict :=
  try_except
    (insights ← call_ext insights_of (content paper);
     kp ← lift (py_getitem insights "key_points");
     sc ← lift (py_getitem insights "importance_scores");
     logger INFO ("Successfully analyzed paper: " +:+ title paper);;
     ret (dict_set analysis_results (title paper)
            (PDict [("key_insights", kp); ("importance_scores", sc)])))
    (fun e =>
       logger ERROR
         ("Error analyzing paper " +:+ title paper +:+ ": " +:+ exn_msg e);;
       ret analysis_results).

Definition analyze_loop (papers : list paper) (analysis_results : dict)
  : M dict :=
  for_each analyze_paper papers analysis_results.

Definition literature_path : path :=
  OUTPUTS_DIR // "literature_analysis.json".

Definition analyze_papers : M dict :=
  logger INFO "Starting paper analysis";;
  papers ← run_ext load_research_papers;
  match papers with
  | [] =>
      logger WARNING "No papers found in research directory";;
      ret []
  | _ :: _ =>
      analysis_results ← analyze_loop papers [];
      let output_path := literature_path in
      save_json analysis_results output_path;;
      logger INFO ("Saved analysis results to " +:+ path_str output_path);;
      ret analysis_results
  end.

(** ** Hypothesis generator *)

Definition indent8 : string := "        ".

(** The f-string [prompt] of [DeepSeekAPI.generate_hypothesis]. *)
Definition prompt_of (context : string) : string :=
  newline +:+ indent8
  +:+ "Based on the following research context, generate a novel and testable scientific hypothesis:"
  +:+ newline +:+ indent8
  +:+ newline +:+ indent8 +:+ "Context:"
  +:+ newline +:+ indent8 +:+ context
  +:+ newline +:+ indent8
  +:+ newline +:+ indent8 +:+ "Please provide:"
  +:+ newline +:+ indent8 +:+ "1. A clear hypothesis statement"
  +:+ newline +:+ indent8 +:+ "2. The rationale behind it"
  +:+ newline +:+ indent8
  +:+ "3. Potential experimental approaches to test it"
  +:+ newline +:+ indent8.

(** [DeepSeekAPI.generate_hypothesis]: any exception of the exchange is
    logged and turned into [None]. *)
Definition generate_hypothesis (context : string) : M pyval :=
  try_except
    (call_ext deepseek_post (prompt_of context))
    (fun e =>
       logger ERROR ("Error in DeepSeek API call: " +:+ exn_msg e);;
       ret PNone).

(** The body of [for paper_title, analysis in literature_analysis.items()]. *)
Definition hypothesis_for (hypotheses : dict) (item : string * pyval)
  : M dict :=
  let '(paper_title, analysis) := item in
  key_insights ← lift (py_getitem analysis "key_insights");
  context ← lift (join_lines key_insights);
  result ← generate_hypothesis context;
  if truthy result then
    logger INFO ("Generated hypothesis for paper: " +:+ paper_title);;
    ret (dict_set hypotheses paper_title
           (PDict [("context", PStr context);
                   ("generated_hypothesis", result)]))
  else ret hypotheses.

Definition hypotheses_loop (items : dict) (hypotheses : dict) : M dict :=
  for_each hypothesis_for items hypotheses.

Definition hypotheses_path : path :=
  OUTPUTS_DIR // "generated_hypotheses.json".

Definition generate_hypotheses : M dict :=
  logger INFO "Starting hypothesis generation";;
  loaded ← try_except
             (let analysis_path := literature_path in
              literature_analysis ← load_json analysis_path;
              ret (Some literature_analysis))
             (fun e =>
                logger ERROR
                  ("Error loading literature analysis: " +:+ exn_msg e);;
                ret None);
  match loaded with
  | None => ret []
  | Some literature_analysis =>
      hypotheses ← hypotheses_loop literature_analysis [];
      let output_path := hypotheses_path in
      save_json hypotheses output_path;;
      logger INFO
        ("Saved generated hypotheses to " +:+ path_str output_path);;
      ret hypotheses
  end.

(** ** Visualizer *)

(** [VisualizationGenerator.generate_visualization]: the path on success,
    [None] after any exception, which is logged. *)
Definition generate_visualization (prompt : string) (output_path : path)
  : M (option path) :=
  try_except
    (image ← call_ext render prompt;
     open_w output_path;;
     write_chunk output_path image;;
     ret (Some output_path))
    (fun e =>
       logger ERROR ("Error generating visualization: " +:+ exn_msg e);;
       ret None).

Definition vis_dir : path := OUTPUTS_DIR // "visualizations".

Definition experimental_path : path :=
  OUTPUTS_DIR // "experimental_analysis.json".

(** The body of [for title, data in hypotheses.items()]. *)
Definition visualize_hypothesis (visualization_results : dict)
    (item : string * pyval) : M dict :=
  let '(title, data) := item in
  hypothesis ← lift (py_getitem data "generated_hypothesis");
  let prompt :=
    "Scientific visualization of hypothesis: " +:+ py_format hypothesis in
  let output_path := vis_dir // ("hypothesis_" +:+ title +:+ ".png") in
  made ← generate_visualization prompt output_path;
  if bool_decide (is_Some made) then
    ret (dict_set visualization_results ("hypothesis_" +:+ title)
           (PStr (path_str output_path)))
  else ret visualization_results.

(** The body of [for dataset, results in analysis.items()]. *)
Definition visualize_results (visualization_results : dict)
    (item : string * pyval) : M dict :=
  let '(dataset, results) := item in
  feature_importance ← lift (py_getitem results "feature_importance");
  n ← lift (py_len feature_importance);
  let prompt :=
    "Scientific data visualization showing relationship between "
    +:+ pretty n +:+ " features" in
  let output_path := vis_dir // ("results_" +:+ dataset +:+ ".png") in
  made ← generate_visualization prompt output_path;
  if bool_decide (is_Some made) then
    ret (dict_set visualization_results ("results_" +:+ dataset)
           (PStr (path_str output_path)))
  else ret visualization_results.

(** [with open(p, 'w') as f: json.dump(obj, f, indent=2)] as the steps it
    takes: the file is opened, which empties it, and the encoder's chunks
    are written in turn. *)
Definition json_dump_steps (obj : pyval) (p : path) : list (M unit) :=
  open_w p :: map (write_chunk p) (json_iterencode obj).

Definition metadata_path : path := vis_dir // "visualization_metadata.json".

Definition generate_visualizations : M dict :=
  logger INFO "Starting visualization generation";;
  mkdir_exist_ok vis_dir;;
  loaded ← try_except
             (hypotheses ← load_json hypotheses_path;
              analysis ← load_json experimental_path;
              ret (Some (hypotheses, analysis)))
             (fun e =>
                logger ERROR ("Error loading results: " +:+ exn_msg e);;
                ret None);
  match loaded with
  | None => ret []
  | Some (hypotheses, analysis) =>
      run_ext load_pipeline;;
      visualization_results ← for_each visualize_hypothesis hypotheses [];
      visualization_results ←
        for_each visualize_results analysis visualization_results;
      run_steps (json_dump_steps (PDict visualization_results) metadata_path);;
      logger INFO
        ("Saved visualization metadata to " +:+ path_str metadata_path);;
      ret visualization_results
  end.

(** The same write cut short: only the first [n] steps take place. *)
Definition interrupted_dump (n : nat) (obj : pyval) (p : path) : M unit :=
  run_steps (take n (json_dump_steps obj p)).

(** ** What a run is observed by *)

(** The loop bodies above, with the dictionary they update factored out:
    a step yields the entry to store, or [None] for an item passed over. *)
Fixpoint collect {A} (step : A -> M (option (string * pyval)))
    (items : list A) : M (list (string * pyval)) :=
  match items with
  | [] => ret []
  | x :: rest =>
      r ← step x;
      kvs ← collect step rest;
      ret (match r with Some kv => kv :: kvs | None => kvs end)
  end.

Definition store (acc : dict) (r : option (string * pyval)) : dict :=
  match r with Some (k, v) => dict_set acc k v | None => acc end.

Definition store_all (acc : dict) (kvs : list (string * pyval)) : dict :=
  foldl (fun d kv => dict_set d kv.1 kv.2) acc kvs.

(** What [analyze_paper] makes of the value or exception that
    [extract_key_insights] ends with: the payload to store, or the
    exception that reaches the [except] clause. *)
Definition paper_payload (r : outcome pyval) : outcome pyval :=
  match r with
  | Ok insights =>
      match py_getitem insights "key_points" with
      | Ok kp =>
          match py_getitem insights "importance_scores" with
          | Ok sc =>
              Ok (PDict [("key_insights", kp); ("importance_scores", sc)])
          | Raise e => Raise e
          end
      | Raise e => Raise e
      end
  | Raise e => Raise e
  end.

Definition success_line (p : paper) : level * string :=
  (INFO, "Successfully analyzed paper: " +:+ title p).

Definition failure_line (p : paper) (e : exn) : level * string :=
  (ERROR, "Error analyzing paper " +:+ title p +:+ ": " +:+ exn_msg e).

Definition paper_step (p : paper) : M (option (string * pyval)) :=
  fun w =>
    let (r, e') := insights_of (content p) (ext w) in
    match paper_payload r with
    | Ok payload =>
        (Ok (Some (title p, payload)),
         add_log INFO (success_line p).2 (add_call (content p) e' w))
    | Raise e =>
        (Ok None,
         add_log ERROR (failure_line p e).2 (add_call (content p) e' w))
    end.

(** The papers of a run, each with what [extract_key_insights] ended with
    on it, and the state the services are left in: the calls are made on
    the papers in order, from the state [e]. *)
Fixpoint paper_reports (papers : list paper) (e : E)
  : list (paper * outcome pyval) * E :=
  match papers with
  | [] => ([], e)
  | p :: rest =>
      let (r, e1) := insights_of (content p) e in
      let (reports, e2) := paper_reports rest e1 in
      ((p, r) :: reports, e2)
  end.

Definition report_entry (rep : paper * outcome pyval)
  : option (string * pyval) :=
  match paper_payload rep.2 with
  | Ok payload => Some (title rep.1, payload)
  | Raise _ => None
  end.

(** The successful papers of a run, each with the payload stored for it,
    in the order of the papers. *)
Definition stored_entries (papers : list paper) (e : E) : dict :=
  omap report_entry (paper_reports papers e).1.

Definition report_line (rep : paper * outcome pyval) : level * string :=
  match paper_payload rep.2 with
  | Ok _ => success_line rep.1
  | Raise e => failure_line rep.1 e
  end.

(** An item is processed when its key is in the output mapping, and
    skipped when its failure is in the log and its key is not in the
    mapping. *)
Definition processed (results : dict) (p : paper) : bool :=
  bool_decide (title p ∈ dict_keys results).

Definition failure_logged (lg : list (level * string)) (p : paper) : bool :=
  existsb
    (fun entry =>
       match entry.1 with
       | ERROR =>
           String.prefix ("Error analyzing paper " +:+ title p +:+ ": ")
             entry.2
       | _ => false
       end)
    lg.

Definition skipped (lg : list (level * string)) (results : dict) (p : paper)
  : bool :=
  failure_logged lg p && negb (processed results p).

Definition processed_count (results : dict) (papers : list paper) : nat :=
  length (filter (fun p => processed results p = true) papers).

Definition skipped_count (lg : list (level * string)) (results : dict)
    (papers : list paper) : nat :=
  length (filter (fun p => skipped lg results p = true) papers).

(** The context [generate_hypotheses] prepares from the payload of one
    paper, or the exception raised on the way. *)
Definition context_of (analysis : pyval) : outcome string :=
  match py_getitem analysis "key_insights" with
  | Ok key_insights => join_lines key_insights
  | Raise e => Raise e
  end.

Definition hypothesis_entry (paper_title context : string) (result : pyval)
  : string * pyval :=
  (paper_title,
   PDict [("context", PStr context); ("generated_hypothesis", result)]).

(** What [generate_hypothesis] returns for an outcome of the exchange. *)
Definition reply_value (r : outcome pyval) : pyval :=
  match r with Ok v => v | Raise _ => PNone end.

Definition reply_lines (paper_title : string) (r : outcome pyval)
  : list (level * string) :=
  match r with
  | Ok v =>
      if truthy v then
        [(INFO, "Generated hypothesis for paper: " +:+ paper_title)]
      else []
  | Raise e => [(ERROR, "Error in DeepSeek API call: " +:+ exn_msg e)]
  end.

Definition hypothesis_step (item : string * pyval)
  : M (option (string * pyval)) :=
  fun w =>
    match context_of item.2 with
    | Raise e => (Raise e, w)
    | Ok context =>
        let (r, e') := deepseek_post (prompt_of context) (ext w) in
        (Ok (if truthy (reply_value r) then
               Some (hypothesis_entry item.1 context (reply_value r))
             else None),
         {| files := files w; dirs := dirs w;
            log := log w ++ reply_lines item.1 r; ext := e';
            calls := calls w ++ [prompt_of context] |})
    end.

(** An input artifact is well formed when a context can be prepared from
    every payload. *)
Definition well_formed (items : dict) : Prop :=
  Forall (fun item => ∃ context, context_of item.2 = Ok context) items.

Definition context_or_empty (analysis : pyval) : string :=
  match context_of analysis with Ok context => context | Raise _ => "" end.

(** The items of a run of the hypothesis loop, each with its context and
    what the exchange with the service ended with. *)
Fixpoint hypothesis_reports (items : dict) (e : E)
  : list (string * string * outcome pyval) * E :=
  match items with
  | [] => ([], e)
  | (paper_title, analysis) :: rest =>
      let context := context_or_empty analysis in
      let (r, e1) := deepseek_post (prompt_of context) e in
      let (reports, e2) := hypothesis_reports rest e1 in
      ((paper_title, context, r) :: reports, e2)
  end.

Definition hreport_entry (rep : string * string * outcome pyval)
  : option (string * pyval) :=
  if truthy (reply_value rep.2) then
    Some (hypothesis_entry rep.1.1 rep.1.2 (reply_value rep.2))
  else None.

Definition hreport_lines (rep : string * string * outcome pyval)
  : list (level * string) :=
  reply_lines rep.1.1 rep.2.

Definition starting (w : world) : world :=
  add_log INFO "Starting hypothesis generation" w.

(** The prompts of the two loops of [generate_visualizations], or the
    exception raised while one is built. *)
Definition hypothesis_prompt (data : pyval) : outcome string :=
  match py_getitem data "generated_hypothesis" with
  | Ok hypothesis =>
      Ok ("Scientific visualization of hypothesis: " +:+ py_format hypothesis)
  | Raise e => Raise e
  end.

Definition results_prompt (results : pyval) : outcome string :=
  match py_getitem results "feature_importance" with
  | Ok feature_importance =>
      match py_len feature_importance with
      | Ok n =>
          Ok ("Scientific data visualization showing relationship between "
              +:+ pretty n +:+ " features")
      | Raise e => Raise e
      end
  | Raise e => Raise e
  end.

Definition image_path (prefix name : string) : path :=
  vis_dir // (prefix +:+ name +:+ ".png").

Definition vis_step (prefix : string) (prompt_for : pyval -> outcome string)
    (item : string * pyval) : M (option (string * pyval)) :=
  fun w =>
    match prompt_for item.2 with
    | Raise e => (Raise e, w)
    | Ok prompt =>
        match generate_visualization prompt (image_path prefix item.1) w with
        | (Ok made, w') =>
            (Ok (if bool_decide (is_Some made) then
                   Some (prefix +:+ item.1,
                         PStr (path_str (image_path prefix item.1)))
                 else None),
             w')
        | (Raise e, w') => (Raise e, w')
        end
    end.

(** The chunks of a write put together. *)
Definition concat_chunks (chunks : list string) : string :=
  foldr String.append "" chunks.

(** A transform fails or returns empty when it raises or its value is
    falsy. *)
Definition fails_or_empty (r : outcome pyval) : Prop :=
  truthy (reply_value r) = false.

(** The sentences of a text that [extract_key_insights] scores: the pieces
    between full stops that are not empty once stripped. *)
Definition sentences (text : string) : list string :=
  filter (fun sentence => (0 <? String.length (strip sentence))%nat = true)
    (split_char (Ascii.ascii_of_nat 46) text).

(** Scores in non-increasing order: no score is below a later one. *)
Definition non_increasing (scores : list Score) : Prop :=
  StronglySorted (fun a b => score_lt a b = false) scores.

(** The character that ends a sentence. *)
Definition full_stop : Ascii.ascii := Ascii.ascii_of_nat 46.

(** Scores neither of which is below the other. *)
Definition tied (a b : Score) : bool :=
  negb (score_lt a b) && negb (score_lt b a).




Definition vis_entry (prefix : string) (item : string * pyval)
  : string * pyval :=
  (prefix +:+ item.1, PStr (path_str (image_path prefix item.1))).


(** Where an entry of the hypothesis mapping comes from. *)
Definition entry_source (items : dict) (kv : string * pyval) : Prop :=
  ∃ analysis key_insights context reply e e',
    (kv.1, analysis) ∈ items
    ∧ py_getitem analysis "key_insights" = Ok key_insights
    ∧ join_lines key_insights = Ok context
    ∧ deepseek_post (prompt_of context) e = (Ok reply, e')
    ∧ truthy reply = true
    ∧ kv.2 = PDict [("context", PStr context);
                    ("generated_hypothesis", reply)].

(** The files after a list of whole-file writes, oldest first. *)
Definition apply_writes (writes : list (path * string))
    (f : gmap path string) : gmap path string :=
  foldl (fun f' write => <[write.1 := write.2]> f') f writes.

(** Writes that all go to files directly in the visualization
    directory. *)
Definition under_vis_dir (writes : list (path * string)) : Prop :=
  ∀ q : path, q ∈ writes.*1 → ∃ name, q = vis_dir // name.

(** The dictionary that [extract_key_insights] returns, with [score_value]
    for the Python value of a score. *)
Definition insights_value (score_value : Score -> pyval) (r : insights)
  : pyval :=
  PDict [("key_points", PList (PStr <$> key_points r));
         ("importance_scores", PList (score_value <$> importance_scores r))].

(** The payload [analyze_papers] stores for a paper on which
    [extract_key_insights] has returned. *)
Definition analysis_entry (score_value : Score -> pyval) (p : paper)
  : string * pyval :=
  let r := extract_key_insights (content p) in
  (title p,
   PDict [("key_insights", PList (PStr <$> key_points r));
          ("importance_scores",
           PList (score_value <$> importance_scores r))]).

(** ** The summaries the notebooks print *)

(** A closing cell runs its stage and prints a summary.  What it prints is
    kept as the list of the texts given to [print], beside the way the
    cell ends. *)

(** The loop of the last cell of [hypothesis_generator.ipynb]. *)
Fixpoint print_hypotheses (results : dict) : list string * outcome unit :=
  match results with
  | [] => ([], Ok tt)
  | (title, data) :: rest =>
      let heading :=
        [newline +:+ "Paper: " +:+ title; "Generated Hypothesis:"] in
      match py_getitem data "generated_hypothesis" with
      | Raise e => (heading, Raise e)
      | Ok hypothesis =>
          let (lines, r) := print_hypotheses rest in
          (heading ++ py_format hypothesis :: lines, r)
      end
  end.

Definition hypothesis_generator_main (w : world)
  : (list string * outcome unit) * world :=
  match generate_hypotheses w with
  | (Ok results, w') =>
      let (lines, r) := print_hypotheses results in
      ((("Generated hypotheses for " +:+ pretty (length results)
         +:+ " papers") :: lines, r), w')
  | (Raise e, w') => (([], Raise e), w')
  end.

(** The loop of the last cell of [visualizer.ipynb]. *)
Definition print_visualizations (results : dict) : list string :=
  flat_map
    (fun item : string * pyval =>
       [newline +:+ item.1 +:+ ":"; "Saved to: " +:+ py_format item.2])
    results.

Definition visualizer_main (w : world)
  : (list string * outcome unit) * world :=
  match generate_visualizations w with
  | (Ok results, w') =>
      ((("Generated " +:+ pretty (length results) +:+ " visualizations")
        :: print_visualizations results, Ok tt), w')
  | (Raise e, w') => (([], Raise e), w')
  end.

(** The three lines printed for an entry of the hypothesis mapping. *)
Definition hypothesis_lines (item : string * pyval) : list string :=
  match py_getitem item.2 "generated_hypothesis" with
  | Ok hypothesis =>
      [newline +:+ "Paper: " +:+ item.1; "Generated Hypothesis:";
       py_format hypothesis]
  | Raise _ => []
  end.

End Pipeline.

Arguments world E : clear implicits.
Arguments M E A : clear implicits.
Arguments insights : clear implicits.

(** * A sample installation *)

(** Two papers, of which the second makes the model fail; a service that
    fails on one context; three documents the parser knows.  The state of
    the services counts the calls made. *)

Definition sample_dir : path := ["data"; "outputs"].

(** The floats [1.0] and [0.5]. *)
Definition float_one : spec_float :=
  S754_finite false 4503599627370496 (-52).
Definition float_half : spec_float :=
  S754_finite false 4503599627370496 (-53).

Definition sample_paper_list : list paper :=
  [Paper "PaperA" "Alpha. Beta"; Paper "PaperB" "bad"].

Definition sample_papers (e : nat) : outcome (list paper) * nat :=
  (Ok sample_paper_list, e).

Definition sample_insights (text : string) (e : nat) : outcome pyval * nat :=
  if String.eqb text "bad" then (Raise (Exn "RuntimeError" "model failed"), S e)
  else
    (Ok (PDict [("key_points", PList [PStr "Alpha"; PStr "Beta"]);
                ("importance_scores", PList [PFloat float_one; PFloat float_half])]),
     S e).

Definition sample_analysis : dict :=
  [("PaperA", PDict [("key_insights", PList [PStr "Alpha"; PStr "Beta"]);
                     ("importance_scores", PList [PFloat float_one; PFloat float_half])]);
   ("PaperB", PDict [("key_insights", PList [PStr "Gamma"]);
                     ("importance_scores", PList [PFloat float_one])])].

Definition sample_reply : pyval := PDict [("id", PStr "r1")].

Definition sample_post (prompt : string) (e : nat) : outcome pyval * nat :=
  if String.eqb prompt (prompt_of "Gamma") then
    (Raise (Exn "HTTPError" "503"), S e)
  else (Ok sample_reply, S e).


Definition sample_post_empty (prompt : string) (e : nat)
  : outcome pyval * nat :=
  (Ok (PDict []), S e).

Definition sample_hypotheses : dict :=
  [("P", PDict [("context", PStr "c"); ("generated_hypothesis", sample_reply)])].

Definition sample_loads (s : string) : option pyval :=
  if String.eqb s "literature" then Some (PDict sample_analysis)
  else if String.eqb s "hypotheses" then Some (PDict sample_hypotheses)
  else if String.eqb s "experiments" then Some (PDict [])
  else None.

(** The encoder, exact on the empty mapping. *)
Definition sample_dumps (v : pyval) : string :=
  match v with PDict [] => "{}" | _ => "{...}" end.

Definition sample_iterencode (v : pyval) : list string :=
  match v with PDict [] => ["{}"] | _ => ["{"; "..."; "}"] end.

Definition sample_services_with (post : string -> nat -> outcome pyval * nat)
  : Services nat :=
  {| json_loads := sample_loads;
     json_dumps := sample_dumps;
     json_iterencode := sample_iterencode;
     py_format := fun _ => "reply";
     OUTPUTS_DIR := sample_dir;
     load_research_papers := sample_papers;
     insights_of := sample_insights;
     deepseek_post := post;
     load_pipeline := fun e => (Ok tt, e);
     render := fun _ e => (Ok "PNG", S e) |}.

Definition sample_services : Services nat := sample_services_with sample_post.

(** Scores as natural numbers: a sentence scores its length. *)
Definition sample_ranker : Ranker :=
  {| Emb := nat; Score := nat;
     embed := fun _ s => String.length s;
     cosine := fun _ b => b;
     score_lt := Nat.ltb |}.

Definition empty_world : world nat := World ∅ ∅ [] 0 [].

Definition sample_dirs : gset path := {[ ["data"]; sample_dir ]}.

(** The outputs directory after the literature stage. *)
Definition literature_world : world nat :=
  World {[ sample_dir // "literature_analysis.json" := "literature" ]}
    sample_dirs [] 0 [].

(** The outputs directory before the visualization stage, with metadata of
    an earlier run in place. *)
Definition sample_vis_dir : path := sample_dir // "visualizations".

Definition sample_metadata_path : path :=
  sample_vis_dir // "visualization_metadata.json".

Definition visualization_world : world nat :=
  World
    {[ sample_dir // "generated_hypotheses.json" := "hypotheses";
       sample_dir // "experimental_analysis.json" := "experiments";
       sample_metadata_path := "previous metadata" ]}
    ({[ sample_vis_dir ]} ∪ sample_dirs) [] 0 [].


(** ** Further installations *)

(** The mapping the literature stage returns on the sample papers. *)
Definition sample_literature : dict :=
  [("PaperA", PDict [("key_insights", PList [PStr "Alpha"; PStr "Beta"]);
                     ("importance_scores", PList [PFloat float_one; PFloat float_half])])].

(** An analysis whose second payload has no [key_insights], hypotheses
    whose second entry has no [generated_hypothesis], and the analysis of
    one dataset with two features. *)
Definition malformed_analysis : dict :=
  [("PaperA", PDict [("key_insights", PList [PStr "Alpha"])]);
   ("PaperC", PDict [])].

Definition malformed_hypotheses : dict :=
  [("P", PDict [("generated_hypothesis", sample_reply)]); ("Q", PDict [])].

Definition sample_datasets : dict :=
  [("D", PDict [("feature_importance",
                 PDict [("f1", PFloat float_one); ("f2", PFloat float_half)])])].

(** Datasets of which the second has no [feature_importance]. *)
Definition malformed_datasets : dict :=
  sample_datasets ++ [("E", PDict [])].

(** A parser that also knows these documents, and what the encoder emits
    for the sample literature. *)
Definition more_loads (s : string) : option pyval :=
  if String.eqb s "{...}" then Some (PDict sample_literature)
  else if String.eqb s "malformed literature" then
    Some (PDict malformed_analysis)
  else if String.eqb s "malformed hypotheses" then
    Some (PDict malformed_hypotheses)
  else if String.eqb s "datasets" then Some (PDict sample_datasets)
  else if String.eqb s "malformed datasets" then
    Some (PDict malformed_datasets)
  else sample_loads s.

(** [str] is the identity on strings. *)
Definition sample_format (v : pyval) : string :=
  match v with PStr s => s | _ => "reply" end.

Definition sample_services_of (papers : nat -> outcome (list paper) * nat)
    (pipeline : nat -> outcome unit * nat)
    (draw : string -> nat -> outcome string * nat) : Services nat :=
  {| json_loads := more_loads;
     json_dumps := sample_dumps;
     json_iterencode := sample_iterencode;
     py_format := sample_format;
     OUTPUTS_DIR := sample_dir;
     load_research_papers := papers;
     insights_of := sample_insights;
     deepseek_post := sample_post;
     load_pipeline := pipeline;
     render := draw |}.

Definition sample_pipeline (e : nat) : outcome unit * nat := (Ok tt, e).

Definition sample_render (prompt : string) (e : nat) : outcome string * nat :=
  (Ok "PNG", S e).

Definition working_services : Services nat :=
  sample_services_of sample_papers sample_pipeline sample_render.

(** Installations in which the papers directory cannot be read, the image
    model cannot be loaded, and the image model fails on every prompt. *)
Definition no_papers (e : nat) : outcome (list paper) * nat :=
  (Raise (Exn "PermissionError" "research_papers"), e).

Definition no_papers_services : Services nat :=
  sample_services_of no_papers sample_pipeline sample_render.

Definition no_pipeline (e : nat) : outcome unit * nat :=
  (Raise (Exn "OSError" "model not found"), e).

Definition no_model_services : Services nat :=
  sample_services_of sample_papers no_pipeline sample_render.

Definition no_render (prompt : string) (e : nat) : outcome string * nat :=
  (Raise (Exn "RuntimeError" "out of memory"), S e).

Definition no_image_services : Services nat :=
  sample_services_of sample_papers sample_pipeline no_render.

(** The outputs directory, empty, as the literature stage finds it. *)
Definition outputs_world : world nat := World ∅ sample_dirs [] 0 [].

Definition malformed_literature_world : world nat :=
  World {[ sample_dir // "literature_analysis.json" := "malformed literature" ]}
    sample_dirs [] 0 [].

Definition visualization_world_of (hypotheses analysis : string)
  : world nat :=
  World
    {[ sample_dir // "generated_hypotheses.json" := hypotheses;
       sample_dir // "experimental_analysis.json" := analysis;
       sample_metadata_path := "previous metadata" ]}
    ({[ sample_vis_dir ]} ∪ sample_dirs) [] 0 [].

Definition datasets_world : world nat :=
  visualization_world_of "hypotheses" "datasets".

Definition malformed_visualization_world : world nat :=
  visualization_world_of "malformed hypotheses" "datasets".

Definition malformed_datasets_world : world nat :=
  visualization_world_of "hypotheses" "malformed datasets".

(** An installation in which the transform is [extract_key_insights]
    itself, over the sample ranker, and one of the two papers has no
    sentence. *)
Definition sample_score_value (n : nat) : pyval := PInt (Z.of_nat n).

Definition blank_paper_list : list paper :=
  [Paper "PaperA" "Alpha. Be"; Paper "Blank" " . "].

Definition extracting_services : Services nat :=
  {| json_loads := more_loads;
     json_dumps := sample_dumps;
     json_iterencode := sample_iterencode;
     py_format := sample_format;
     OUTPUTS_DIR := sample_dir;
     load_research_papers := fun e => (Ok blank_paper_list, e);
     insights_of := fun text e =>
       (Ok (insights_value (ranker := sample_ranker) sample_score_value
              (extract_key_insights (ranker := sample_ranker) text)),
        S e);
     deepseek_post := sample_post;
     load_pipeline := sample_pipeline;
     render := sample_render |}.

(** An installation whose parser reads back what the encoder emits for the
    hypotheses generated from the sample analysis, and the outputs
    directory with that analysis and the datasets in place. *)
Definition sample_generated : dict :=
  [hypothesis_entry "PaperA" (str_join newline ["Alpha"; "Beta"])
     sample_reply].

Definition chained_loads (s : string) : option pyval :=
  if String.eqb s "{...}" then Some (PDict sample_generated)
  else more_loads s.

Definition chained_services : Services nat :=
  {| json_loads := chained_loads;
     json_dumps := sample_dumps;
     json_iterencode := sample_iterencode;
     py_format := sample_format;
     OUTPUTS_DIR := sample_dir;
     load_research_papers := sample_papers;
     insights_of := sample_insights;
     deepseek_post := sample_post;
     load_pipeline := sample_pipeline;
     render := sample_render |}.

Definition chained_world : world nat :=
  World
    {[ sample_dir // "literature_analysis.json" := "literature";
       sample_dir // "experimental_analysis.json" := "datasets" ]}
    sample_dirs [] 0 [].

(** Two papers under one title, both of which the extractor handles. *)
Definition twin_paper_list : list paper :=
  [Paper "T" "Alpha. Be"; Paper "T" "Gamma"].

Definition twin_services : Services nat :=
  {| json_loads := more_loads;
     json_dumps := sample_dumps;
     json_iterencode := sample_iterencode;
     py_format := sample_format;
     OUTPUTS_DIR := sample_dir;
     load_research_papers := fun e => (Ok twin_paper_list, e);
     insights_of := fun text e =>
       (Ok (insights_value (ranker := sample_ranker) sample_score_value
              (extract_key_insights (ranker := sample_ranker) text)),
        S e);
     deepseek_post := sample_post;
     load_pipeline := sample_pipeline;
     render := sample_render |}.

(** The sample papers and the sample analysis the other way round, the
    failing item first; and an analysis whose first payload has no
    [key_insights]. *)
Definition late_paper_list : list paper :=
  [Paper "PaperB" "bad"; Paper "PaperA" "Alpha. Beta"].

Definition late_analysis : dict :=
  [("PaperB", PDict [("key_insights", PList [PStr "Gamma"]);
                     ("importance_scores", PList [PFloat float_one])]);
   ("PaperA", PDict [("key_insights", PList [PStr "Alpha"; PStr "Beta"]);
                     ("importance_scores", PList [PFloat float_one; PFloat float_half])])].

Definition unusable_analysis : dict :=
  [("Bad", PDict []);
   ("PaperA", PDict [("key_insights", PList [PStr "Alpha"; PStr "Beta"]);
                     ("importance_scores", PList [PFloat float_one; PFloat float_half])])].

(** The outputs directory before the visualization stage when the
    experimental analysis has not been made. *)
Definition no_experiments_world : world nat :=
  World
    {[ sample_dir // "generated_hypotheses.json" := "hypotheses";
       sample_metadata_path := "previous metadata" ]}
    ({[ sample_vis_dir ]} ∪ sample_dirs) [] 0 [].
(** * Properties *)

Section Properties.

Context {E : Type} {services : Services E} {ranker : Ranker}.

Implicit Types w : world E.

Set Default Proof Using "Type".

(** ** The monad and the dictionaries *)

Ltac unfold_M :=
  unfold mbind, M_bind, bind, mret, M_ret, ret, lift, try_except, logger,
    call_ext, run_ext.

Lemma dict_keys_set (d : dict) (k : string) (v : pyval) :
  dict_keys (dict_set d k v) =
  if bool_decide (k ∈ dict_keys d) then dict_keys d else dict_keys d ++ [k].
Proof.
  unfold dict_keys. induction d as [|[k' v'] d IH]; cbn [dict_set fmap list_fmap fst].
  - by rewrite bool_decide_eq_false_2 by apply not_elem_of_nil.
  - destruct (String.eqb_spec k' k) as [->|Hne]; cbn [fmap list_fmap fst].
    + by rewrite bool_decide_eq_true_2 by apply list_elem_of_here.
    + rewrite IH. repeat case_bool_decide; try done.
      * exfalso. eauto using list_elem_of_further.
      * exfalso. match goal with H : _ ∈ _ :: _ |- _ =>
          apply elem_of_cons in H as [?|?] end; congruence.
Qed.

Lemma elem_of_dict_keys_set (d : dict) (k : string) (v : pyval) (k' : string) :
  k' ∈ dict_keys (dict_set d k v) ↔ k' = k ∨ k' ∈ dict_keys d.
Proof.
  rewrite dict_keys_set. case_bool_decide as Hin.
  - split; [by right | intros [->|?]; done].
  - rewrite elem_of_app, list_elem_of_singleton. apply or_comm.
Qed.

Lemma elem_of_store_all (acc : dict) (kvs : dict) (k : string) :
  k ∈ dict_keys (store_all acc kvs) ↔ k ∈ dict_keys acc ∨ k ∈ kvs.*1.
Proof.
  unfold store_all. revert acc.
  induction kvs as [|[k' v'] kvs IH]; intros acc; simpl.
  - rewrite elem_of_nil. split; [by left | by intros [?|[]]].
  - rewrite IH, elem_of_dict_keys_set, elem_of_cons.
    split; [intros [[->|?]|?] | intros [?|[->|?]]]; eauto.
Qed.

Lemma dict_set_fresh (acc : dict) (k : string) (v : pyval) :
  k ∉ dict_keys acc → dict_set acc k v = acc ++ [(k, v)].
Proof.
  unfold dict_keys. induction acc as [|[k' v'] acc IH]; intros Hk.
  - done.
  - cbn [dict_set]. destruct (String.eqb_spec k' k) as [->|Hne].
    + exfalso. apply Hk. apply list_elem_of_here.
    + cbn [app]. f_equal. apply IH. intros Hin. apply Hk.
      by apply list_elem_of_further.
Qed.

(** With pairwise distinct keys nothing is overwritten: the entries are
    appended in order. *)
Lemma store_all_fresh (acc : dict) (kvs : dict) :
  NoDup (dict_keys acc ++ kvs.*1) → store_all acc kvs = acc ++ kvs.
Proof.
  unfold store_all. revert acc.
  induction kvs as [|[k v] kvs IH]; intros acc Hnd.
  - by rewrite app_nil_r.
  - cbn [foldl fst snd]. rewrite dict_set_fresh.
    + rewrite IH; [by rewrite <- app_assoc |].
      unfold dict_keys in Hnd |- *. rewrite fmap_app, <- app_assoc. done.
    + apply NoDup_app in Hnd as (_ & Hdis & _).
      intros Hin. apply (Hdis k Hin). apply list_elem_of_here.
Qed.

Lemma for_each_collect {A} (body : dict -> A -> M E dict)
    (step : A -> M E (option (string * pyval))) :
  (∀ acc x w,
     body acc x w =
     match step x w with
     | (Ok r, w') => (Ok (store acc r), w')
     | (Raise e, w') => (Raise e, w')
     end) →
  ∀ items acc w,
    for_each body items acc w =
    match collect step items w with
    | (Ok kvs, w') => (Ok (store_all acc kvs), w')
    | (Raise e, w') => (Raise e, w')
    end.
Proof.
  intros Hbody items. induction items as [|x items IH]; intros acc w.
  - done.
  - cbn [for_each collect]. unfold_M. rewrite Hbody.
    destruct (step x w) as [[r|e] w1]; [|done].
    rewrite IH. destruct (collect step items w1) as [[kvs|e] w2]; [|done].
    destruct r as [[k v]|]; done.
Qed.

(** ** Literature review *)

Lemma world_eta (w : world E) :
  {| files := files w; dirs := dirs w; log := log w; ext := ext w;
     calls := calls w |} = w.
Proof. by destruct w. Qed.

Lemma analyze_paper_step acc p w :
  analyze_paper acc p w =
  match paper_step p w with
  | (Ok r, w') => (Ok (store acc r), w')
  | (Raise e, w') => (Raise e, w')
  end.
Proof.
  unfold analyze_paper, paper_step, paper_payload. unfold_M.
  destruct (insights_of (content p) (ext w)) as [[v|e] e']; [|done].
  destruct (py_getitem v "key_points"); [|done].
  destruct (py_getitem v "importance_scores"); done.
Qed.

Lemma collect_papers papers w :
  collect paper_step papers w =
  (Ok (omap report_entry (paper_reports papers (ext w)).1),
   {| files := files w; dirs := dirs w;
      log := log w ++ map report_line (paper_reports papers (ext w)).1;
      ext := (paper_reports papers (ext w)).2;
      calls := calls w ++ map content papers |}).
Proof.
  revert w. induction papers as [|p papers IH]; intros w.
  - cbn. by rewrite !app_nil_r, world_eta.
  - cbn [collect paper_reports]. unfold_M. unfold paper_step at 1.
    destruct (insights_of (content p) (ext w)) as [r e1].
    destruct (paper_reports papers e1) as [reports e2] eqn:Hrep.
    destruct (paper_payload r) as [payload|e] eqn:Hpay; rewrite IH; cbn;
      rewrite Hrep; unfold report_entry at 2, report_line at 2; cbn;
      rewrite Hpay, <- !app_assoc; done.
Qed.

Lemma analyze_loop_spec papers acc w :
  analyze_loop papers acc w =
  (Ok (store_all acc (omap report_entry (paper_reports papers (ext w)).1)),
   {| files := files w; dirs := dirs w;
      log := log w ++ map report_line (paper_reports papers (ext w)).1;
      ext := (paper_reports papers (ext w)).2;
      calls := calls w ++ map content papers |}).
Proof.
  unfold analyze_loop.
  rewrite (for_each_collect _ _ analyze_paper_step), collect_papers. done.
Qed.

Lemma paper_reports_fst papers e : (paper_reports papers e).1.*1 = papers.
Proof.
  revert e. induction papers as [|p papers IH]; intros e; [done |].
  cbn [paper_reports]. destruct (insights_of (content p) e) as [r e1].
  specialize (IH e1). destruct (paper_reports papers e1). cbn in IH |- *.
  by rewrite IH.
Qed.

(** Subscripting a falsy value raises: no falsy value is a dictionary with
    the key. *)
Lemma falsy_getitem v k : truthy v = false → ∃ e, py_getitem v k = Raise e.
Proof.
  destruct v as [| | | | |l|d]; cbn; intros Hv; try by eexists.
  destruct d; [by eexists | done].
Qed.

Lemma falsy_payload v : truthy v = false → ∃ e, paper_payload (Ok v) = Raise e.
Proof.
  intros Hv. destruct (falsy_getitem v "key_points" Hv) as [e He].
  exists e. unfold paper_payload. by rewrite He.
Qed.

(** ** Hypothesis generator *)

Lemma hypothesis_for_step acc item w :
  hypothesis_for acc item w =
  match hypothesis_step item w with
  | (Ok r, w') => (Ok (store acc r), w')
  | (Raise e, w') => (Raise e, w')
  end.
Proof.
  destruct item as [paper_title analysis].
  unfold hypothesis_for, hypothesis_step, generate_hypothesis, context_of.
  unfold_M. cbn [fst snd].
  destruct (py_getitem analysis "key_insights") as [ki|e]; [|done].
  destruct (join_lines ki) as [context|e]; [|done].
  destruct (deepseek_post (prompt_of context) (ext w)) as [[v|e] e1];
    cbn [reply_value reply_lines truthy].
  - destruct (truthy v); cbn; [done |]. by rewrite app_nil_r.
  - done.
Qed.

Lemma collect_hypotheses items w :
  well_formed items →
  collect hypothesis_step items w =
  (Ok (omap hreport_entry (hypothesis_reports items (ext w)).1),
   {| files := files w; dirs := dirs w;
      log := log w ++ flat_map hreport_lines (hypothesis_reports items (ext w)).1;
      ext := (hypothesis_reports items (ext w)).2;
      calls := calls w ++
               map (fun item => prompt_of (context_or_empty item.2)) items |}).
Proof.
  intros Hwf. revert w.
  induction Hwf as [|[paper_title analysis] items [context Hctx] _ IH];
    intros w.
  - cbn. by rewrite !app_nil_r, world_eta.
  - cbn [collect hypothesis_reports]. unfold_M.
    unfold hypothesis_step at 1, context_or_empty. cbn [fst snd] in Hctx |- *.
    rewrite Hctx.
    destruct (deepseek_post (prompt_of context) (ext w)) as [r e1].
    rewrite IH. cbn [ext].
    destruct (hypothesis_reports items e1) as [reports e2].
    unfold hreport_entry, hreport_lines, context_or_empty. cbn.
    rewrite Hctx, <- !app_assoc.
    by destruct (truthy (reply_value r)).
Qed.

Lemma hypotheses_loop_spec items acc w :
  well_formed items →
  hypotheses_loop items acc w =
  (Ok (store_all acc (omap hreport_entry (hypothesis_reports items (ext w)).1)),
   {| files := files w; dirs := dirs w;
      log := log w ++ flat_map hreport_lines (hypothesis_reports items (ext w)).1;
      ext := (hypothesis_reports items (ext w)).2;
      calls := calls w ++
               map (fun item => prompt_of (context_or_empty item.2)) items |}).
Proof.
  intros Hwf. unfold hypotheses_loop.
  rewrite (for_each_collect _ _ hypothesis_for_step), collect_hypotheses; done.
Qed.

(** A loop whose steps leave some part of the world alone leaves it alone,
    also when it ends by raising. *)
Lemma collect_frame {A B} (proj : world E → B)
    (step : A → M E (option (string * pyval))) :
  (∀ x w, proj (step x w).2 = proj w) →
  ∀ items w, proj (collect step items w).2 = proj w.
Proof.
  intros Hstep items. induction items as [|x items IH]; intros w; [done |].
  cbn [collect]. unfold_M. specialize (Hstep x w).
  destruct (step x w) as [[r|e] w1]; [|done]. cbn [snd] in Hstep.
  specialize (IH w1). destruct (collect step items w1) as [[kvs|e] w2];
    cbn [snd] in IH |- *; congruence.
Qed.

Lemma for_each_frame {A B} (proj : world E → B) (body : dict → A → M E dict)
    (step : A → M E (option (string * pyval))) :
  (∀ acc x w,
     body acc x w =
     match step x w with
     | (Ok r, w') => (Ok (store acc r), w')
     | (Raise e, w') => (Raise e, w')
     end) →
  (∀ x w, proj (step x w).2 = proj w) →
  ∀ items acc w, proj (for_each body items acc w).2 = proj w.
Proof.
  intros Hbody Hstep items acc w. rewrite (for_each_collect _ _ Hbody).
  rewrite <- (collect_frame proj step Hstep items w).
  by destruct (collect step items w) as [[kvs|e] w'].
Qed.

Lemma hypothesis_step_files item w :
  files (hypothesis_step item w).2 = files w.
Proof.
  unfold hypothesis_step. destruct (context_of item.2); [|done].
  by destruct (deepseek_post _ _).
Qed.

Lemma hypothesis_reports_keys items e :
  (hypothesis_reports items e).1.*1.*1 = dict_keys items.
Proof.
  revert e. induction items as [|[k a] items IH]; intros e; [done |].
  cbn [hypothesis_reports].
  destruct (deepseek_post _ e) as [r e1]. specialize (IH e1).
  destruct (hypothesis_reports items e1). cbn in IH |- *. by rewrite IH.
Qed.

(** A loop over a list in two parts: the second part runs from where the
    first ends, unless the first raises. *)
Lemma collect_app {A} (step : A → M E (option (string * pyval)))
    (l1 l2 : list A) w :
  collect step (l1 ++ l2) w =
  match collect step l1 w with
  | (Ok kvs1, w1) =>
      match collect step l2 w1 with
      | (Ok kvs2, w2) => (Ok (kvs1 ++ kvs2), w2)
      | (Raise e, w2) => (Raise e, w2)
      end
  | (Raise e, w1) => (Raise e, w1)
  end.
Proof.
  revert w. induction l1 as [|x l1 IH]; intros w.
  - cbn. by destruct (collect step l2 w) as [[kvs|e] w2].
  - cbn [app collect]. unfold_M.
    destruct (step x w) as [[r|e] w1]; [|done]. rewrite IH.
    destruct (collect step l1 w1) as [[kvs1|e] w2]; [|done].
    destruct (collect step l2 w2) as [[kvs2|e] w3]; [|done].
    by destruct r.
Qed.

Lemma hypothesis_step_malformed (item : string * pyval) err w :
  context_of item.2 = Raise err → hypothesis_step item w = (Raise err, w).
Proof. intros Hbad. unfold hypothesis_step. by rewrite Hbad. Qed.

(** ** Failure isolation *)

Lemma elem_of_omap_keys {A} (f : A → option (string * pyval)) (l : list A)
    (k : string) :
  k ∈ (omap f l).*1 ↔ ∃ x v, x ∈ l ∧ f x = Some (k, v).
Proof.
  rewrite list_elem_of_fmap. split.
  - intros [[k' v] [-> Hin]]. apply list_elem_of_omap in Hin as [x [Hx Hf]].
    by exists x, v.
  - intros [x [v [Hx Hf]]]. exists (k, v). split; [done |].
    apply list_elem_of_omap. by exists x.
Qed.

Lemma analyze_loop_isolated papers w :
  let reports := (paper_reports papers (ext w)).1 in
  let run := analyze_loop papers [] w in
  run.1 = Ok (store_all [] (omap report_entry reports))
  ∧ calls run.2 = calls w ++ map content papers
  ∧ reports.*1 = papers
  ∧ ∀ p r e, (p, r) ∈ reports → paper_payload r = Raise e →
      failure_line p e ∈ log run.2
      ∧ ((∀ p' r', (p', r') ∈ reports → title p' = title p →
            ∃ e', paper_payload r' = Raise e') →
         ∀ results, run.1 = Ok results → title p ∉ dict_keys results).
Proof.
  intros reports run. subst run. rewrite analyze_loop_spec. cbn [fst snd calls log].
  fold reports. split_and!; [done | done | apply paper_reports_fst |].
  intros p r e Hin Hfail. split.
  - apply elem_of_app. right. apply list_elem_of_fmap.
    exists (p, r). split; [|done]. unfold report_line. cbn. by rewrite Hfail.
  - intros Hothers results [= <-] Hkey.
    apply elem_of_store_all in Hkey as [Hkey|Hkey];
      [by apply elem_of_nil in Hkey |].
    apply elem_of_omap_keys in Hkey as ([p' r'] & v & Hin' & Hentry).
    unfold report_entry in Hentry. cbn in Hentry.
    destruct (paper_payload r') as [payload|e'] eqn:Hpay; [|done].
    injection Hentry as Htitle _.
    destruct (Hothers p' r' Hin' Htitle) as [e' He']. congruence.
Qed.

Lemma hypotheses_loop_isolated items w :
  well_formed items →
  let reports := (hypothesis_reports items (ext w)).1 in
  let run := hypotheses_loop items [] w in
  run.1 = Ok (store_all [] (omap hreport_entry reports))
  ∧ calls run.2 =
    calls w ++ map (fun item => prompt_of (context_or_empty item.2)) items
  ∧ reports.*1.*1 = dict_keys items
  ∧ ∀ k c e, (k, c, Raise e) ∈ reports →
      (ERROR, "Error in DeepSeek API call: " +:+ exn_msg e) ∈ log run.2
      ∧ ((∀ c' r', (k, c', r') ∈ reports → truthy (reply_value r') = false) →
         ∀ results, run.1 = Ok results → k ∉ dict_keys results).
Proof.
  intros Hwf reports run. subst run. rewrite hypotheses_loop_spec by done.
  cbn [fst snd calls log]. fold reports.
  split_and!; [done | done | apply hypothesis_reports_keys |].
  intros k c e Hin. split.
  - apply elem_of_app. right. apply list_elem_of_In, in_flat_map.
    exists (k, c, Raise e). split; [by apply list_elem_of_In |]. by left.
  - intros Hothers results [= <-] Hkey.
    apply elem_of_store_all in Hkey as [Hkey|Hkey];
      [by apply elem_of_nil in Hkey |].
    apply elem_of_omap_keys in Hkey as ([[k' c'] r'] & v & Hin' & Hentry).
    unfold hreport_entry, hypothesis_entry in Hentry. cbn in Hentry.
    destruct (truthy (reply_value r')) eqn:Htr; [|done].
    injection Hentry as -> _. by rewrite (Hothers c' r' Hin') in Htr.
Qed.

(** A payload from which no context can be prepared ends the loop of
    [generate_hypotheses] with the exception of the subscript or join: the
    items before it have been sent, the items after it are not. *)
Lemma hypotheses_loop_aborts (pre post : dict) (k : string)
    (analysis : pyval) err w :
  well_formed pre → context_of analysis = Raise err →
  (hypotheses_loop (pre ++ (k, analysis) :: post) [] w).1 = Raise err
  ∧ calls (hypotheses_loop (pre ++ (k, analysis) :: post) [] w).2
    = calls w ++ map (fun item => prompt_of (context_or_empty item.2)) pre.
Proof.
  intros Hpre Hbad. unfold hypotheses_loop.
  rewrite (for_each_collect _ _ hypothesis_for_step), collect_app.
  rewrite (collect_hypotheses pre _ Hpre). cbn [collect]. unfold_M.
  rewrite (hypothesis_step_malformed (k, analysis) err _ Hbad). done.
Qed.

(** C1, as the code has it.  In the loop of [analyze_papers] an error
    raised on one paper aborts nothing: the loop ends normally, the
    transform has been called on every paper in order, and the mapping
    holds exactly the entries of the papers that succeeded.  A failing
    paper leaves an [ERROR] line in the log, and its key is not in the
    mapping unless another paper with that key succeeded.  In the loop of
    [generate_hypotheses] the same holds of the errors of the exchange with
    the service, on an input from every payload of which a context can be
    prepared.  The subscript and the join that prepare the context are
    outside any [try]: at the first payload on which they raise, the
    exception leaves the loop, and the items after it are not attempted. *)
Theorem failure_isolation papers items w :
  (let reports := (paper_reports papers (ext w)).1 in
   let run := analyze_loop papers [] w in
   run.1 = Ok (store_all [] (omap report_entry reports))
   ∧ calls run.2 = calls w ++ map content papers
   ∧ reports.*1 = papers
   ∧ ∀ p r e, (p, r) ∈ reports → paper_payload r = Raise e →
       failure_line p e ∈ log run.2
       ∧ ((∀ p' r', (p', r') ∈ reports → title p' = title p →
             ∃ e', paper_payload r' = Raise e') →
          ∀ results, run.1 = Ok results → title p ∉ dict_keys results))
  ∧
  (well_formed items →
   let reports := (hypothesis_reports items (ext w)).1 in
   let run := hypotheses_loop items [] w in
   run.1 = Ok (store_all [] (omap hreport_entry reports))
   ∧ calls run.2 =
     calls w ++ map (fun item => prompt_of (context_or_empty item.2)) items
   ∧ reports.*1.*1 = dict_keys items
   ∧ ∀ k c e, (k, c, Raise e) ∈ reports →
       (ERROR, "Error in DeepSeek API call: " +:+ exn_msg e) ∈ log run.2
       ∧ ((∀ c' r', (k, c', r') ∈ reports → truthy (reply_value r') = false) →
          ∀ results, run.1 = Ok results → k ∉ dict_keys results))
  ∧
  (∀ (pre post : dict) (k : string) (analysis : pyval) err,
     items = pre ++ (k, analysis) :: post →
     well_formed pre → context_of analysis = Raise err →
     let run := hypotheses_loop items [] w in
     run.1 = Raise err
     ∧ calls run.2 =
       calls w ++ map (fun item => prompt_of (context_or_empty item.2)) pre).
Proof.
  split; [apply analyze_loop_isolated |].
  split; [intros Hwf; by apply hypotheses_loop_isolated |].
  intros pre post k analysis err -> Hpre Hbad. cbv zeta.
  by apply hypotheses_loop_aborts.
Qed.

(** ** The literature stage as a whole *)

Lemma analyze_papers_empty w e' :
  load_research_papers (ext w) = (Ok [], e') →
  analyze_papers w =
  (Ok [],
   {| files := files w; dirs := dirs w;
      log := log w ++ [(INFO, "Starting paper analysis");
                       (WARNING, "No papers found in research directory")];
      ext := e'; calls := calls w |}).
Proof.
  intros Hload. unfold analyze_papers. unfold_M. unfold add_log, with_ext.
  cbn. rewrite Hload. cbn. by rewrite <- app_assoc.
Qed.

Lemma analyze_papers_run w papers e' :
  load_research_papers (ext w) = (Ok papers, e') →
  papers ≠ [] →
  let reports := (paper_reports papers e').1 in
  let results := store_all [] (omap report_entry reports) in
  analyze_papers w =
  (Ok results,
   {| files := <[literature_path := json_dumps (PDict results)]> (files w);
      dirs := list_to_set (ancestors literature_path) ∪ dirs w;
      log := log w ++ [(INFO, "Starting paper analysis")]
             ++ map report_line reports
             ++ [(INFO, "Saved analysis results to "
                        +:+ path_str literature_path)];
      ext := (paper_reports papers e').2;
      calls := calls w ++ map content papers |}).
Proof.
  intros Hload Hne reports results. unfold analyze_papers. unfold_M.
  unfold add_log, with_ext. cbn. rewrite Hload.
  destruct papers as [|p papers]; [done |].
  rewrite analyze_loop_spec. unfold save_json, with_dirs, with_files.
  cbn. subst results reports. cbn. rewrite <- !app_assoc. reflexivity.
Qed.

(** ** Conservation *)

Lemma string_app_cons c (a b : string) :
  String c a +:+ b = String c (a +:+ b).
Proof. reflexivity. Qed.

Lemma string_app_nil (b : string) : "" +:+ b = b.
Proof. reflexivity. Qed.

Lemma prefix_app (a b : string) : String.prefix a (a +:+ b) = true.
Proof.
  induction a as [|c a IH].
  - rewrite string_app_nil. by destruct b.
  - rewrite string_app_cons. simpl.
    destruct (Ascii.ascii_dec c c); [apply IH | congruence].
Qed.

Lemma string_app_assoc (a b c : string) : (a +:+ b) +:+ c = a +:+ b +:+ c.
Proof.
  induction a as [|x a IH]; [done |].
  rewrite !string_app_cons. by rewrite IH.
Qed.

Lemma failure_logged_line lg p e :
  failure_line p e ∈ lg → failure_logged lg p = true.
Proof.
  intros Hin. unfold failure_logged. apply existsb_exists.
  exists (failure_line p e). split; [by apply list_elem_of_In |].
  unfold failure_line. cbn [fst snd].
  rewrite <- (string_app_assoc (title p) ": " (exn_msg e)).
  rewrite <- (string_app_assoc _ (title p +:+ ": ") (exn_msg e)).
  apply prefix_app.
Qed.

Lemma count_partition {A} (P Q : A → bool) (l : list A) :
  (∀ x, x ∈ l → P x = negb (Q x)) →
  length (filter (fun x => P x = true) l)
  + length (filter (fun x => Q x = true) l) = length l.
Proof.
  induction l as [|x l IH]; intros Hpq; [done |].
  rewrite !filter_cons.
  specialize (Hpq x (list_elem_of_here _ _)) as Hx.
  assert (IH' := IH (fun y Hy => Hpq y (list_elem_of_further _ _ _ Hy))).
  destruct (P x), (Q x); try done; repeat case_decide; try done;
    cbn [length]; lia.
Qed.

Lemma reports_processed_or_logged papers e lg :
  let reports := (paper_reports papers e).1 in
  let results := store_all [] (omap report_entry reports) in
  (∀ rep, rep ∈ reports → report_line rep ∈ lg) →
  ∀ p, p ∈ papers →
    processed results p = true ∨ failure_logged lg p = true.
Proof.
  intros reports results Hlg p Hp.
  rewrite <- (paper_reports_fst papers e) in Hp.
  apply list_elem_of_fmap in Hp as ([p' r] & -> & Hin). cbn.
  specialize (Hlg _ Hin). unfold report_line in Hlg. cbn in Hlg.
  destruct (paper_payload r) as [payload|ex] eqn:Hpay.
  - left. unfold processed. apply bool_decide_eq_true.
    apply elem_of_store_all. right. apply elem_of_omap_keys.
    exists (p', r), payload. split; [done |].
    unfold report_entry. cbn. by rewrite Hpay.
  - right. by apply (failure_logged_line lg p' ex).
Qed.

Lemma report_keys_titles papers e (k : string) :
  k ∈ (omap report_entry (paper_reports papers e).1).*1 →
  k ∈ title <$> papers.
Proof.
  intros ([p r] & v & Hin & Hentry)%elem_of_omap_keys.
  unfold report_entry in Hentry. cbn in Hentry.
  destruct (paper_payload r); [|done]. injection Hentry as <- _.
  apply list_elem_of_fmap. exists p. split; [done |].
  rewrite <- (paper_reports_fst papers e). apply list_elem_of_fmap.
  by exists (p, r).
Qed.

Lemma report_keys_NoDup papers e :
  NoDup (title <$> papers) →
  NoDup (omap report_entry (paper_reports papers e).1).*1.
Proof.
  revert e. induction papers as [|p papers IH]; intros e Hnd;
    [constructor |].
  rewrite fmap_cons in Hnd. apply NoDup_cons in Hnd as [Hp Hnd].
  pose proof (report_keys_titles papers) as Hsub.
  cbn [paper_reports]. destruct (insights_of (content p) e) as [r e1].
  specialize (IH e1 Hnd). specialize (Hsub e1).
  destruct (paper_reports papers e1) as [reports e2]. cbn [fst] in IH, Hsub |- *.
  cbn [omap list_omap]. fold (omap report_entry reports).
  unfold report_entry at 1. cbn [fst snd].
  destruct (paper_payload r); [|done].
  rewrite fmap_cons. apply NoDup_cons. split; [|done].
  intros Hin. by apply Hp, Hsub.
Qed.

(** With pairwise distinct titles the processed papers are as many as the
    entries of the mapping. *)
Lemma processed_count_entries papers e (known : list string) :
  NoDup (title <$> papers) →
  (∀ p, p ∈ papers → title p ∉ known) →
  length
    (filter
       (fun p =>
          title p
          ∈ known ++ (omap report_entry (paper_reports papers e).1).*1)
       papers)
  = length (omap report_entry (paper_reports papers e).1).
Proof.
  revert e known. induction papers as [|p papers IH]; intros e known Hnd Hk;
    [done |].
  rewrite fmap_cons in Hnd. apply NoDup_cons in Hnd as [Hp Hnd].
  pose proof (report_keys_titles papers) as Hsub.
  cbn [paper_reports]. destruct (insights_of (content p) e) as [r e1].
  specialize (IH e1). specialize (Hsub e1).
  destruct (paper_reports papers e1) as [reports e2]. cbn [fst] in IH, Hsub |- *.
  destruct (paper_payload r) as [payload|ex] eqn:Hpay.
  - assert (Hkvs : omap report_entry ((p, r) :: reports)
                   = (title p, payload) :: omap report_entry reports).
    { cbn [omap list_omap]. unfold report_entry at 1. cbn [fst snd].
      by rewrite Hpay. }
    rewrite Hkvs, filter_cons.
    rewrite decide_True
      by (apply elem_of_app; right; rewrite fmap_cons; apply list_elem_of_here).
    cbn [length]. f_equal.
    rewrite <- (IH (known ++ [title p]) Hnd).
    + f_equal. apply list_filter_iff. intros q.
      by rewrite fmap_cons, cons_middle, app_assoc.
    + intros q Hq [Hin|Hin%list_elem_of_singleton]%elem_of_app.
      * by apply (Hk q (list_elem_of_further _ _ _ Hq)).
      * apply Hp. rewrite <- Hin. by apply list_elem_of_fmap_2.
  - assert (Hkvs : omap report_entry ((p, r) :: reports)
                   = omap report_entry reports).
    { cbn [omap list_omap]. unfold report_entry at 1. cbn [fst snd].
      by rewrite Hpay. }
    rewrite Hkvs, filter_cons. rewrite decide_False.
    + apply IH; [done |]. intros q Hq.
      by apply Hk, list_elem_of_further.
    + intros [Hin|Hin]%elem_of_app.
      * by apply (Hk p (list_elem_of_here _ _)).
      * by apply Hp, Hsub.
Qed.

(** C3 (conservation).  After [analyze_papers] every paper of the input is
    either processed, its title being a key of the mapping, or skipped,
    its failure being in the log and its title not a key; and the number
    of processed papers plus the number of skipped ones is the number of
    papers.  With pairwise distinct titles the processed papers are as
    many as the entries of the mapping. *)
Theorem conservation_law w papers e'
    (Hload : load_research_papers (ext w) = (Ok papers, e')) :
  ∃ results,
    (analyze_papers w).1 = Ok results
    ∧ (∀ p, p ∈ papers →
         processed results p = negb (skipped (log (analyze_papers w).2) results p))
    ∧ processed_count results papers
      + skipped_count (log (analyze_papers w).2) results papers
      = length papers
    ∧ (NoDup (title <$> papers) →
       processed_count results papers = length results).
Proof.
  destruct papers as [|p0 papers'] eqn:Hpapers.
  - rewrite (analyze_papers_empty w e' Hload). exists []. cbn.
    split_and!; [done | by intros p ?%elem_of_nil | done | done].
  - rewrite <- Hpapers in Hload |- *.
    assert (Hne : papers ≠ []) by (by rewrite Hpapers).
    rewrite (analyze_papers_run w papers e' Hload Hne). cbn [fst snd log].
    set (reports := (paper_reports papers e').1).
    set (results := store_all [] (omap report_entry reports)).
    set (lg := log w ++ _).
    assert (Hcover : ∀ p, p ∈ papers →
              processed results p = negb (skipped lg results p)).
    { intros p Hp.
      destruct (reports_processed_or_logged papers e' lg) with (p := p)
        as [Hproc|Hlog]; [| done | |].
      - intros rep Hrep. subst lg. rewrite !elem_of_app. right. right. left.
        apply list_elem_of_fmap. by exists rep.
      - unfold skipped. fold reports results in Hproc. rewrite Hproc.
        by rewrite andb_false_r.
      - unfold skipped. rewrite Hlog. cbn. by rewrite negb_involutive. }
    exists results. split_and!; [done | done | by apply count_partition |].
    intros Hnd.
    pose proof (report_keys_NoDup papers e' Hnd) as Hkeys.
    assert (Hres : results = omap report_entry reports).
    { subst results. rewrite store_all_fresh; [done | exact Hkeys]. }
    rewrite Hres. subst reports.
    rewrite <- (processed_count_entries papers e' [] Hnd)
      by (intros p ? ?%elem_of_nil; done).
    unfold processed_count. f_equal. apply list_filter_iff. intros p.
    unfold processed, dict_keys. cbn [app]. apply bool_decide_eq_true.
Qed.

(** ** The hypothesis stage as a whole *)

Lemma load_json_world p w : (load_json p w).2 = w.
Proof.
  unfold load_json. destruct (files w !! p) as [s|]; [|done].
  destruct (json_loads s) as [[| | | | | |d]|]; done.
Qed.

Lemma load_json_files p w w' :
  files w' !! p = files w !! p → (load_json p w').1 = (load_json p w).1.
Proof.
  intros Hf. unfold load_json. rewrite Hf.
  destruct (files w !! p) as [s|]; [|done].
  destruct (json_loads s) as [[| | | | | |d]|]; done.
Qed.

Lemma load_json_absent p w :
  files w !! p = None →
  load_json p w = (Raise (Exn "NotFoundError" (path_str p)), w).
Proof. intros Hp. unfold load_json. by rewrite Hp. Qed.

Lemma generate_hypotheses_failed_load w e :
  (load_json literature_path w).1 = Raise e →
  generate_hypotheses w =
  (Ok [],
   add_log ERROR ("Error loading literature analysis: " +:+ exn_msg e)
     (starting w)).
Proof.
  intros Hload. unfold generate_hypotheses. unfold_M.
  pose proof (load_json_world literature_path (starting w)) as Hw.
  pose proof (load_json_files literature_path w (starting w) eq_refl) as Hr.
  fold (starting w).
  destruct (load_json literature_path (starting w)) as [r w1].
  cbn [fst snd] in Hw, Hr. subst w1. rewrite Hload in Hr. by subst r.
Qed.

Lemma generate_hypotheses_loaded w items :
  (load_json literature_path w).1 = Ok items →
  generate_hypotheses w =
  match hypotheses_loop items [] (starting w) with
  | (Ok hypotheses, w1) =>
      (Ok hypotheses,
       add_log INFO
         ("Saved generated hypotheses to " +:+ path_str hypotheses_path)
         (with_dirs (list_to_set (ancestors hypotheses_path) ∪ dirs w1)
            (with_files
               (<[hypotheses_path := json_dumps (PDict hypotheses)]> (files w1))
               w1)))
  | (Raise e, w1) => (Raise e, w1)
  end.
Proof.
  intros Hload. unfold generate_hypotheses. unfold_M.
  pose proof (load_json_world literature_path (starting w)) as Hw.
  pose proof (load_json_files literature_path w (starting w) eq_refl) as Hr.
  fold (starting w).
  destruct (load_json literature_path (starting w)) as [r w1].
  cbn [fst snd] in Hw, Hr. subst w1. rewrite Hload in Hr. subst r.
  destruct (hypotheses_loop items [] (starting w)) as [[h|e] w1]; done.
Qed.

Lemma hypotheses_loop_files items acc w :
  files (hypotheses_loop items acc w).2 = files w.
Proof.
  apply (for_each_frame files _ _ hypothesis_for_step hypothesis_step_files).
Qed.

(** The output artifact of the hypothesis stage after a run that returned
    [hypotheses] from a loaded input: the serialized mapping. *)
Lemma generate_hypotheses_output w items hypotheses :
  (load_json literature_path w).1 = Ok items →
  (generate_hypotheses w).1 = Ok hypotheses →
  (hypotheses_loop items [] (starting w)).1 = Ok hypotheses
  ∧ files (generate_hypotheses w).2
    = <[hypotheses_path := json_dumps (PDict hypotheses)]> (files w).
Proof.
  intros Hload. rewrite (generate_hypotheses_loaded w items Hload).
  pose proof (hypotheses_loop_files items [] (starting w)) as Hf.
  destruct (hypotheses_loop items [] (starting w)) as [[h|e] w1]; [|done].
  cbn in Hf |- *. intros [= ->]. by rewrite Hf.
Qed.

(** ** Visualizer *)

Lemma visualize_hypothesis_step acc item w :
  visualize_hypothesis acc item w =
  match vis_step "hypothesis_" hypothesis_prompt item w with
  | (Ok r, w') => (Ok (store acc r), w')
  | (Raise e, w') => (Raise e, w')
  end.
Proof.
  destruct item as [title data].
  unfold visualize_hypothesis, vis_step, hypothesis_prompt, image_path.
  unfold mbind, M_bind, bind, lift, mret, M_ret, ret. cbn [fst snd].
  destruct (py_getitem data "generated_hypothesis") as [h|e]; [|done].
  destruct (generate_visualization _ _ w) as [[made|e] w']; [|done].
  by destruct (bool_decide (is_Some made)).
Qed.

Lemma visualize_results_step acc item w :
  visualize_results acc item w =
  match vis_step "results_" results_prompt item w with
  | (Ok r, w') => (Ok (store acc r), w')
  | (Raise e, w') => (Raise e, w')
  end.
Proof.
  destruct item as [dataset results].
  unfold visualize_results, vis_step, results_prompt, image_path.
  unfold mbind, M_bind, bind, lift, mret, M_ret, ret. cbn [fst snd].
  destruct (py_getitem results "feature_importance") as [fi|e]; [|done].
  destruct (py_len fi) as [n|e]; [|done].
  destruct (generate_visualization _ _ w) as [[made|e] w']; [|done].
  by destruct (bool_decide (is_Some made)).
Qed.

(** [generate_visualization] in closed form: it never raises, and the only
    file it can touch is the image. *)
Lemma generate_visualization_spec prompt p w :
  generate_visualization prompt p w =
  let (r, e1) := render prompt (ext w) in
  let w1 := add_call prompt e1 w in
  let failed msg :=
    (Ok None, add_log ERROR ("Error generating visualization: " +:+ msg) w1) in
  match r with
  | Raise e => failed (exn_msg e)
  | Ok image =>
      if is_dir w p then failed (exn_msg (is_a_directory p))
      else if is_dir w (parent p) then
        (Ok (Some p), with_files (<[p := image]> (files w)) w1)
      else failed (exn_msg (file_not_found p))
  end.
Proof.
  unfold generate_visualization, open_w, write_chunk. unfold_M.
  destruct (render prompt (ext w)) as [[image|e] e1]; [|done].
  change (is_dir (add_call prompt e1 w) p) with (is_dir w p).
  change (is_dir (add_call prompt e1 w) (parent p)) with (is_dir w (parent p)).
  destruct (is_dir w p); [done |].
  destruct (is_dir w (parent p)); [|done].
  unfold with_files. cbn.
  by rewrite lookup_insert_eq, insert_insert_eq.
Qed.


Lemma mkdir_add_log p lv msg (w : world E) :
  mkdir_exist_ok p (add_log lv msg w) =
  ((mkdir_exist_ok p w).1, add_log lv msg (mkdir_exist_ok p w).2).
Proof.
  unfold mkdir_exist_ok.
  change (is_dir (add_log lv msg w) p) with (is_dir w p).
  change (is_dir (add_log lv msg w) (parent p)) with (is_dir w (parent p)).
  change (files (add_log lv msg w)) with (files w).
  destruct (is_dir w p); [done |].
  destruct (bool_decide (is_Some (files w !! p))); [done |].
  destruct (is_dir w (parent p)); done.
Qed.

Lemma mkdir_files p w : files (mkdir_exist_ok p w).2 = files w.
Proof.
  unfold mkdir_exist_ok. destruct (is_dir w p); [done |].
  destruct (bool_decide (is_Some (files w !! p))); [done |].
  destruct (is_dir w (parent p)); done.
Qed.

Lemma mkdir_ext_calls p w :
  ext (mkdir_exist_ok p w).2 = ext w ∧ calls (mkdir_exist_ok p w).2 = calls w
  ∧ log (mkdir_exist_ok p w).2 = log w.
Proof.
  unfold mkdir_exist_ok. destruct (is_dir w p); [done |].
  destruct (bool_decide (is_Some (files w !! p))); [done |].
  destruct (is_dir w (parent p)); done.
Qed.

(** The world in which [generate_visualizations] loads its inputs, when
    the directory could be made. *)
Lemma generate_visualizations_start w :
  generate_visualizations w =
  let w0 := add_log INFO "Starting visualization generation"
              (mkdir_exist_ok vis_dir w).2 in
  match (mkdir_exist_ok vis_dir w).1 with
  | Raise e => (Raise e, w0)
  | Ok _ =>
      match (load_json hypotheses_path w).1,
            (load_json experimental_path w).1 with
      | Ok hypotheses, Ok analysis =>
          match run_ext load_pipeline w0 with
          | (Raise e, w1) => (Raise e, w1)
          | (Ok _, w1) =>
              match for_each visualize_hypothesis hypotheses [] w1 with
              | (Raise e, w2) => (Raise e, w2)
              | (Ok results1, w2) =>
                  match for_each visualize_results analysis results1 w2 with
                  | (Raise e, w3) => (Raise e, w3)
                  | (Ok results, w3) =>
                      match run_steps
                              (json_dump_steps (PDict results) metadata_path)
                              w3 with
                      | (Raise e, w4) => (Raise e, w4)
                      | (Ok _, w4) =>
                          (Ok results,
                           add_log INFO
                             ("Saved visualization metadata to "
                              +:+ path_str metadata_path) w4)
                      end
                  end
              end
          end
      | Raise e, _ | Ok _, Raise e =>
          (Ok [], add_log ERROR ("Error loading results: " +:+ exn_msg e) w0)
      end
  end.
Proof.
  unfold generate_visualizations.
  unfold mbind, M_bind, bind, mret, M_ret, ret, try_except.
  unfold logger at 1. rewrite mkdir_add_log.
  destruct (mkdir_exist_ok vis_dir w) as [[[]|e] wm] eqn:Hmk; cbn [fst snd];
    [|done].
  set (w0 := add_log INFO _ wm).
  assert (Hfiles : files w0 = files w).
  { subst w0. cbn. by rewrite <- (mkdir_files vis_dir w), Hmk. }
  pose proof (load_json_world hypotheses_path w0) as Hw1.
  pose proof (load_json_world experimental_path w0) as Hw2.
  rewrite <- (load_json_files hypotheses_path w w0) by (by rewrite Hfiles).
  rewrite <- (load_json_files experimental_path w w0) by (by rewrite Hfiles).
  destruct (load_json hypotheses_path w0) as [[hyps|e] wa];
    cbn [fst snd] in Hw1 |- *;
    subst wa; [|done].
  destruct (load_json experimental_path w0) as [[ana|e] wb];
    cbn [fst snd] in Hw2 |- *; subst wb; [|done].
  destruct (run_ext load_pipeline w0) as [[[]|e] w1]; [|done].
  destruct (for_each visualize_hypothesis hyps [] w1) as [[r1|e] w2]; [|done].
  destruct (for_each visualize_results ana r1 w2) as [[r2|e] w3]; [|done].
  destruct (run_steps _ w3) as [[[]|e] w4]; done.
Qed.

(** ** Missing inputs *)

Lemma load_json_raise_absent p w :
  files w !! p = None → ∃ e, (load_json p w).1 = Raise e.
Proof. intros Hp. rewrite (load_json_absent p w Hp). by eexists. Qed.

(** C2, as the code has it.  A stage whose primary input is absent writes
    no artifact and calls no transform; it does not fail: the literature
    and hypothesis stages log the fact, a warning for the one and the error
    of the load for the other, after their starting line, and return the
    empty mapping; and so does the visualization stage once its directory
    exists.  With [experimental_analysis.json] absent the visualization
    stage leaves every file, [visualization_metadata.json] included, as it
    was. *)
Theorem missing_input_writes_nothing w :
  (∀ e', load_research_papers (ext w) = (Ok [], e') →
     (analyze_papers w).1 = Ok []
     ∧ files (analyze_papers w).2 = files w
     ∧ calls (analyze_papers w).2 = calls w
     ∧ log (analyze_papers w).2
       = log w ++ [(INFO, "Starting paper analysis");
                   (WARNING, "No papers found in research directory")])
  ∧ (files w !! literature_path = None →
     (generate_hypotheses w).1 = Ok []
     ∧ files (generate_hypotheses w).2 = files w
     ∧ calls (generate_hypotheses w).2 = calls w
     ∧ ∃ msg,
         log (generate_hypotheses w).2
         = log w ++ [(INFO, "Starting hypothesis generation");
                     (ERROR, "Error loading literature analysis: "
                             +:+ msg)])
  ∧ (files w !! hypotheses_path = None
     ∨ files w !! experimental_path = None →
     files (generate_visualizations w).2 = files w
     ∧ files (generate_visualizations w).2 !! metadata_path
       = files w !! metadata_path
     ∧ calls (generate_visualizations w).2 = calls w
     ∧ ((mkdir_exist_ok vis_dir w).1 = Ok tt →
        (generate_visualizations w).1 = Ok []
        ∧ ∃ msg,
            log (generate_visualizations w).2
            = log w ++ [(INFO, "Starting visualization generation");
                        (ERROR, "Error loading results: " +:+ msg)])).
Proof.
  split_and!.
  - intros e' Hload. by rewrite (analyze_papers_empty w e' Hload).
  - intros [e He]%load_json_raise_absent.
    rewrite (generate_hypotheses_failed_load w e He).
    split_and!; [done | done | done |]. exists (exn_msg e).
    cbn [snd log add_log starting]. by rewrite <- app_assoc.
  - intros Habsent.
    assert (Hload : ∃ e,
              (load_json hypotheses_path w).1 = Raise e
              ∨ (∃ hypotheses, (load_json hypotheses_path w).1 = Ok hypotheses)
                ∧ (load_json experimental_path w).1 = Raise e).
    { destruct Habsent as [[e He]%load_json_raise_absent
                          |[e He]%load_json_raise_absent].
      - exists e. by left.
      - destruct (load_json hypotheses_path w).1 as [hypotheses|e'] eqn:Hh.
        + exists e. right. split; [by eexists | done].
        + exists e'. by left. }
    destruct Hload as [e Hload].
    rewrite generate_visualizations_start. cbn zeta.
    destruct (mkdir_ext_calls vis_dir w) as (_ & Hcalls & Hlog).
    pose proof (mkdir_files vis_dir w) as Hfiles.
    destruct (mkdir_exist_ok vis_dir w) as [[[]|e0] wm];
      cbn [fst snd] in Hcalls, Hfiles, Hlog |- *.
    + assert (Hout :
          match (load_json hypotheses_path w).1,
                (load_json experimental_path w).1 with
          | Ok hypotheses, Ok analysis => False
          | Raise e1, _ | Ok _, Raise e1 => e1 = e
          end).
      { destruct Hload as [->|[[hypotheses ->] ->]]; done. }
      destruct (load_json hypotheses_path w).1 as [hypotheses|e1];
        [destruct (load_json experimental_path w).1 as [analysis|e1];
         [done |] |];
        subst e1; cbn [fst snd files calls log add_log];
        (split_and!; [done | by rewrite Hfiles | done |]);
        intros _; (split; [done |]); exists (exn_msg e);
        by rewrite Hlog, <- app_assoc.
    + cbn [files calls add_log]. split_and!; [done | by rewrite Hfiles | done |].
      done.
Qed.

(** ** The empty artifact *)

Lemma all_fail_papers papers e :
  (∀ x e0, fails_or_empty (insights_of x e0).1) →
  omap report_entry (paper_reports papers e).1 = [].
Proof.
  intros Hfail. revert e.
  induction papers as [|p papers IH]; intros e; [done |].
  cbn [paper_reports]. specialize (Hfail (content p) e).
  destruct (insights_of (content p) e) as [r e1]. specialize (IH e1).
  destruct (paper_reports papers e1) as [reports e2].
  cbn [fst snd] in Hfail, IH |- *.
  cbn [omap list_omap]. fold (omap report_entry reports). rewrite IH.
  unfold report_entry. cbn [fst snd]. unfold fails_or_empty in Hfail.
  destruct r as [v|ex]; [|done].
  by destruct (falsy_payload v Hfail) as [ex ->].
Qed.

Lemma all_fail_hypotheses items e :
  (∀ x e0, fails_or_empty (deepseek_post x e0).1) →
  omap hreport_entry (hypothesis_reports items e).1 = [].
Proof.
  intros Hfail. revert e.
  induction items as [|[k a] items IH]; intros e; [done |].
  cbn [hypothesis_reports].
  specialize (Hfail (prompt_of (context_or_empty a)) e).
  destruct (deepseek_post _ e) as [r e1]. specialize (IH e1).
  destruct (hypothesis_reports items e1) as [reports e2].
  cbn [fst snd] in Hfail, IH |- *.
  cbn [omap list_omap]. fold (omap hreport_entry reports). rewrite IH.
  unfold hreport_entry. cbn [fst snd]. unfold fails_or_empty in Hfail.
  by rewrite Hfail.
Qed.

(** C6 (the empty artifact).  With its input present, a stage whose
    transform raises or returns a falsy value on every item still ends
    normally and writes its artifact, the serialized empty mapping: the
    literature stage when there are papers, the hypothesis stage when
    [literature_analysis.json] holds a well-formed mapping. *)
Theorem empty_output_artifact w :
  (∀ papers e',
     load_research_papers (ext w) = (Ok papers, e') → papers ≠ [] →
     (∀ x e, fails_or_empty (insights_of x e).1) →
     (analyze_papers w).1 = Ok []
     ∧ files (analyze_papers w).2 !! literature_path
       = Some (json_dumps (PDict [])))
  ∧ (∀ items,
       (load_json literature_path w).1 = Ok items → well_formed items →
       (∀ x e, fails_or_empty (deepseek_post x e).1) →
       (generate_hypotheses w).1 = Ok []
       ∧ files (generate_hypotheses w).2 !! hypotheses_path
         = Some (json_dumps (PDict []))).
Proof.
  split.
  - intros papers e' Hload Hne Hfail.
    rewrite (analyze_papers_run w papers e' Hload Hne). cbn [fst snd files].
    rewrite (all_fail_papers papers e' Hfail). cbn.
    by rewrite lookup_insert_eq.
  - intros items Hload Hwf Hfail.
    rewrite (generate_hypotheses_loaded w items Hload).
    rewrite hypotheses_loop_spec by done.
    rewrite (all_fail_hypotheses items _ Hfail). cbn.
    by rewrite lookup_insert_eq.
Qed.

(** ** What the hypothesis artifact holds *)

Lemma elem_of_dict_set (d : dict) (k : string) (v : pyval) (kv : string * pyval) :
  kv ∈ dict_set d k v → kv = (k, v) ∨ kv ∈ d.
Proof.
  induction d as [|[k' v'] d IH]; cbn [dict_set].
  - intros ->%list_elem_of_singleton. by left.
  - destruct (String.eqb_spec k' k) as [->|Hne].
    + intros [->|Hin]%elem_of_cons; [by left |].
      right. by apply list_elem_of_further.
    + intros [->|Hin]%elem_of_cons; [right; apply list_elem_of_here |].
      destruct (IH Hin) as [->|Hin']; [by left |].
      right. by apply list_elem_of_further.
Qed.

Lemma elem_of_store_all_entry (acc kvs : dict) (kv : string * pyval) :
  kv ∈ store_all acc kvs → kv ∈ acc ∨ kv ∈ kvs.
Proof.
  unfold store_all. revert acc.
  induction kvs as [|[k v] kvs IH]; intros acc; cbn [foldl fst snd].
  - by left.
  - intros [Hin|Hin]%IH.
    + apply elem_of_dict_set in Hin as [->|Hin]; [|by left].
      right. apply list_elem_of_here.
    + right. by apply list_elem_of_further.
Qed.

Lemma entry_source_further items item kv :
  entry_source items kv → entry_source (item :: items) kv.
Proof.
  intros (a & ki & c & r & e & e' & Hin & ?). exists a, ki, c, r, e, e'.
  split; [by apply list_elem_of_further | done].
Qed.

Lemma collect_hypotheses_entries items w kvs :
  (collect hypothesis_step items w).1 = Ok kvs →
  ∀ kv, kv ∈ kvs → entry_source items kv.
Proof.
  revert w kvs. induction items as [|[k a] items IH]; intros w kvs.
  - cbn. intros [= <-] kv Hkv. by apply elem_of_nil in Hkv.
  - cbn [collect]. unfold mbind, M_bind, bind, mret, M_ret, ret.
    unfold hypothesis_step at 1, context_of. cbn [fst snd].
    destruct (py_getitem a "key_insights") as [ki|ex] eqn:Hki; [|done].
    destruct (join_lines ki) as [c|ex] eqn:Hc; [|done].
    destruct (deepseek_post (prompt_of c) (ext w)) as [r e1] eqn:Hpost.
    match goal with |- context [collect hypothesis_step items ?w1] =>
      specialize (IH w1);
      destruct (collect hypothesis_step items w1) as [[kvs'|ex] w2]
    end; [|done].
    cbn [fst]. intros [= <-] kv Hkv.
    destruct (truthy (reply_value r)) eqn:Htr.
    + apply elem_of_cons in Hkv as [->|Hkv].
      * destruct r as [reply|ex]; [|done]. cbn in Htr.
        exists a, ki, c, reply, (ext w), e1. cbn.
        split_and!; try done. apply list_elem_of_here.
      * apply entry_source_further. by apply (IH kvs').
    + apply entry_source_further. by apply (IH kvs').
Qed.

(** C10 (context and reply).  After a run of [generate_hypotheses] on a
    loaded input the artifact is the serialized mapping returned, and each
    of its entries belongs to an item of the input with the same key: its
    [context] is the newline-join of that item's [key_insights], and its
    [generated_hypothesis] is the value the service replied with, stored as
    it came.  Any truthy reply is stored so, whatever its shape. *)
Theorem context_and_reply_persisted w items hypotheses
    (Hload : (load_json literature_path w).1 = Ok items)
    (Hrun : (generate_hypotheses w).1 = Ok hypotheses) :
  files (generate_hypotheses w).2 !! hypotheses_path
  = Some (json_dumps (PDict hypotheses))
  ∧ (∀ kv, kv ∈ hypotheses → entry_source items kv)
  ∧ (∀ acc k analysis context reply e' w',
       context_of analysis = Ok context →
       deepseek_post (prompt_of context) (ext w') = (Ok reply, e') →
       truthy reply = true →
       (hypothesis_for acc (k, analysis) w').1
       = Ok (dict_set acc k
               (PDict [("context", PStr context);
                       ("generated_hypothesis", reply)]))).
Proof.
  destruct (generate_hypotheses_output w items hypotheses Hload Hrun)
    as [Hloop Hfiles].
  split_and!.
  - by rewrite Hfiles, lookup_insert_eq.
  - intros kv Hkv. unfold hypotheses_loop in Hloop.
    rewrite (for_each_collect _ _ hypothesis_for_step) in Hloop.
    destruct (collect hypothesis_step items (starting w)) as [[kvs|ex] w1]
      eqn:Hcollect; [|done].
    cbn in Hloop. injection Hloop as <-.
    apply elem_of_store_all_entry in Hkv as [Hkv|Hkv];
      [by apply elem_of_nil in Hkv |].
    apply (collect_hypotheses_entries items (starting w) kvs); [|done].
    by rewrite Hcollect.
  - intros acc k analysis context reply e' w' Hctx Hpost Htr.
    rewrite hypothesis_for_step. unfold hypothesis_step. cbn [fst snd].
    rewrite Hctx, Hpost. cbn. by rewrite Htr.
Qed.

(** ** Falsy results *)

Lemma NoDup_fmap_unique {A B} (f : A → B) (l : list A) (x y : A) :
  NoDup (f <$> l) → x ∈ l → y ∈ l → f x = f y → x = y.
Proof.
  induction l as [|a l IH]; intros Hnd Hx Hy Hf.
  - by apply elem_of_nil in Hx.
  - rewrite fmap_cons in Hnd. apply NoDup_cons in Hnd as [Ha Hnd].
    apply elem_of_cons in Hx as [->|Hx];
      apply elem_of_cons in Hy as [->|Hy]; [done | | | by apply IH].
    + exfalso. apply Ha. rewrite Hf. by apply list_elem_of_fmap_2.
    + exfalso. apply Ha. rewrite <- Hf. by apply list_elem_of_fmap_2.
Qed.

Lemma fails_or_empty_payload r :
  fails_or_empty r → ∃ e, paper_payload r = Raise e.
Proof.
  destruct r as [v|e]; [apply falsy_payload | by exists e].
Qed.

Lemma skipped_paper_key papers w p r results :
  NoDup (title <$> papers) →
  (p, r) ∈ (paper_reports papers (ext w)).1 → fails_or_empty r →
  (analyze_loop papers [] w).1 = Ok results →
  title p ∉ dict_keys results.
Proof.
  intros Hnd Hin [e He]%fails_or_empty_payload Hrun.
  destruct (analyze_loop_isolated papers w) as (_ & _ & Hfst & Hfail).
  destruct (Hfail p r e Hin He) as [_ Hkey]. apply Hkey; [|done].
  intros p' r' Hin' Htitle.
  assert ((p', r') = (p, r)) as [= -> ->]; [|by exists e].
  apply (NoDup_fmap_unique (fun rep => title rep.1)
           (paper_reports papers (ext w)).1); try done.
  rewrite <- Hfst in Hnd. by rewrite <- list_fmap_compose in Hnd.
Qed.

Lemma skipped_hypothesis_key items w k c r hypotheses :
  well_formed items → NoDup (dict_keys items) →
  (k, c, r) ∈ (hypothesis_reports items (ext w)).1 → fails_or_empty r →
  (hypotheses_loop items [] w).1 = Ok hypotheses →
  k ∉ dict_keys hypotheses.
Proof.
  intros Hwf Hnd Hin Hfail Hrun. rewrite hypotheses_loop_spec in Hrun by done.
  cbn in Hrun. injection Hrun as <-. intros Hkey.
  apply elem_of_store_all in Hkey as [Hkey|Hkey];
    [by apply elem_of_nil in Hkey |].
  apply elem_of_omap_keys in Hkey as ([[k' c'] r'] & v & Hin' & Hentry).
  unfold hreport_entry, hypothesis_entry in Hentry. cbn in Hentry.
  destruct (truthy (reply_value r')) eqn:Htr; [|done].
  injection Hentry as -> _.
  assert ((k, c', r') = (k, c, r)) as [= -> ->];
    [|unfold fails_or_empty in Hfail; congruence].
  apply (NoDup_fmap_unique (fun rep => rep.1.1)
           (hypothesis_reports items (ext w)).1); try done.
  rewrite <- (hypothesis_reports_keys items (ext w)) in Hnd.
  by rewrite <- list_fmap_compose in Hnd.
Qed.

(** C5 (falsy results).  In every stage an item whose transform returns a
    falsy value is passed over like one whose transform raised: the loop
    body ends normally and leaves the mapping as it was ([fails_or_empty]
    covers both cases), in [analyze_papers] with the same [ERROR] line as
    for any exception.  In the visualizer the falsy value is the [None] of
    [generate_visualization].  Over a whole loop with distinct keys the key
    of such an item is therefore not in the output. *)
Theorem falsy_result_is_skipped acc w :
  (∀ p r e',
     insights_of (content p) (ext w) = (r, e') → fails_or_empty r →
     ∃ e, analyze_paper acc p w
          = (Ok acc,
             add_log ERROR (failure_line p e).2 (add_call (content p) e' w)))
  ∧ (∀ k analysis context r e',
       context_of analysis = Ok context →
       deepseek_post (prompt_of context) (ext w) = (r, e') →
       fails_or_empty r →
       (hypothesis_for acc (k, analysis) w).1 = Ok acc)
  ∧ (∀ title data prompt,
       hypothesis_prompt data = Ok prompt →
       (generate_visualization prompt (image_path "hypothesis_" title) w).1
       = Ok None →
       (visualize_hypothesis acc (title, data) w).1 = Ok acc)
  ∧ (∀ dataset results prompt,
       results_prompt results = Ok prompt →
       (generate_visualization prompt (image_path "results_" dataset) w).1
       = Ok None →
       (visualize_results acc (dataset, results) w).1 = Ok acc)
  ∧ (∀ papers p r results,
       NoDup (title <$> papers) →
       (p, r) ∈ (paper_reports papers (ext w)).1 → fails_or_empty r →
       (analyze_loop papers [] w).1 = Ok results →
       title p ∉ dict_keys results)
  ∧ (∀ items k c r hypotheses,
       well_formed items → NoDup (dict_keys items) →
       (k, c, r) ∈ (hypothesis_reports items (ext w)).1 → fails_or_empty r →
       (hypotheses_loop items [] w).1 = Ok hypotheses →
       k ∉ dict_keys hypotheses).
Proof.
  split_and!.
  - intros p r e' Hcall [e He]%fails_or_empty_payload. exists e.
    rewrite analyze_paper_step. unfold paper_step. by rewrite Hcall, He.
  - intros k analysis context r e' Hctx Hpost Hfail.
    rewrite hypothesis_for_step. unfold hypothesis_step. cbn [fst snd].
    rewrite Hctx, Hpost. unfold fails_or_empty in Hfail. by rewrite Hfail.
  - intros title data prompt Hprompt Hnone.
    rewrite visualize_hypothesis_step. unfold vis_step. cbn [fst snd].
    rewrite Hprompt.
    destruct (generate_visualization _ _ w) as [[made|e] w1]; [|done].
    cbn in Hnone. by injection Hnone as ->.
  - intros dataset results prompt Hprompt Hnone.
    rewrite visualize_results_step. unfold vis_step. cbn [fst snd].
    rewrite Hprompt.
    destruct (generate_visualization _ _ w) as [[made|e] w1]; [|done].
    cbn in Hnone. by injection Hnone as ->.
  - intros papers p r results. apply skipped_paper_key.
  - intros items k c r hypotheses. apply skipped_hypothesis_key.
Qed.

(** ** Writing the metadata *)

Lemma write_chunks p chunks w s :
  files w !! p = Some s →
  run_steps (map (write_chunk p) chunks) w =
  (Ok tt, with_files (<[p := s +:+ concat_chunks chunks]> (files w)) w).
Proof.
  revert w s. induction chunks as [|c chunks IH]; intros w s Hs.
  - cbn. unfold mret, M_ret, ret, with_files.
    replace (s +:+ "") with s.
    + rewrite insert_id by done. by rewrite world_eta.
    + clear. induction s as [|x s IH]; [done |].
      rewrite string_app_cons. by rewrite <- IH.
  - cbn [map run_steps]. unfold mbind, M_bind, bind. unfold write_chunk at 1.
    rewrite Hs. cbn [default].
    rewrite (IH _ (s +:+ c)) by (cbn; by rewrite lookup_insert_eq).
    unfold with_files. cbn. rewrite insert_insert_eq.
    by rewrite string_app_assoc.
Qed.

Lemma open_w_ok p w :
  is_dir w p = false → is_dir w (parent p) = true →
  open_w p w = (Ok tt, with_files (<[p := ""]> (files w)) w).
Proof. intros Hp Hparent. unfold open_w. by rewrite Hp, Hparent. Qed.

Lemma dump_prefix p obj n w :
  is_dir w p = false → is_dir w (parent p) = true →
  interrupted_dump (S n) obj p w =
  (Ok tt,
   with_files
     (<[p := concat_chunks (take n (json_iterencode obj))]> (files w)) w).
Proof.
  intros Hp Hparent. unfold interrupted_dump, json_dump_steps.
  cbn [take run_steps]. unfold mbind, M_bind, bind.
  rewrite (open_w_ok p w Hp Hparent). rewrite <- fmap_take.
  rewrite (write_chunks p _ _ "") by (cbn; by rewrite lookup_insert_eq).
  unfold with_files. cbn. by rewrite insert_insert_eq.
Qed.

Lemma dump_complete p obj w :
  is_dir w p = false → is_dir w (parent p) = true →
  run_steps (json_dump_steps obj p) w =
  (Ok tt,
   with_files (<[p := concat_chunks (json_iterencode obj)]> (files w)) w).
Proof.
  intros Hp Hparent.
  pose proof (dump_prefix p obj (length (json_iterencode obj)) w Hp Hparent)
    as Hdump.
  unfold interrupted_dump in Hdump.
  rewrite take_ge in Hdump by (unfold json_dump_steps; cbn; rewrite length_map; lia).
  by rewrite firstn_all in Hdump.
Qed.

(** C7, as the code has it.  Where the metadata file can be opened, the
    write of [generate_visualizations] replaces the whole prior content by
    the encoding of the new mapping and leaves every other file alone.  It
    is not all-or-nothing: the file is emptied when it is opened and filled
    chunk by chunk, so a write cut short after the opening and [n] chunks
    leaves a readable file that holds those [n] chunks only, nothing of the
    prior content. *)
Theorem write_replaces_in_place obj p w
    (Hfile : is_dir w p = false) (Hparent : is_dir w (parent p) = true) :
  let written := (run_steps (json_dump_steps obj p) w).2 in
  (run_steps (json_dump_steps obj p) w).1 = Ok tt
  ∧ files written !! p = Some (concat_chunks (json_iterencode obj))
  ∧ (∀ q, q ≠ p → files written !! q = files w !! q)
  ∧ ∀ n, files (interrupted_dump (S n) obj p w).2 !! p
         = Some (concat_chunks (take n (json_iterencode obj))).
Proof.
  cbn zeta. rewrite (dump_complete p obj w Hfile Hparent).
  split_and!; [done | cbn; by rewrite lookup_insert_eq | |].
  - intros q Hq. cbn. by rewrite lookup_insert_ne.
  - intros n. rewrite (dump_prefix p obj n w Hfile Hparent). cbn.
    by rewrite lookup_insert_eq.
Qed.

(** ** Key insights *)

Section Ranking.

(** Python's [<] orders the scores weakly: it is asymmetric, and "not
    below" is transitive.  This holds of floats other than NaN. *)
Hypothesis score_lt_asym :
  ∀ a b, score_lt a b = true → score_lt b a = false.
Hypothesis score_ge_trans :
  ∀ a b c, score_lt a b = false → score_lt b c = false → score_lt a c = false.

Abbreviation ge_pair :=
  (fun a b : string * Score => score_lt a.2 b.2 = false).

Lemma insert_desc_perm x l : insert_desc x l ≡ₚ x :: l.
Proof.
  induction l as [|y l IH]; [done |]. cbn [insert_desc].
  destruct (score_lt x.2 y.2); [|done].
  rewrite IH. apply Permutation_swap.
Qed.

Lemma sort_desc_perm l : sort_desc l ≡ₚ l.
Proof.
  induction l as [|x l IH]; [done |].
  cbn [sort_desc foldr]. fold (sort_desc l).
  by rewrite insert_desc_perm, IH.
Qed.

Lemma insert_desc_sorted x l :
  StronglySorted ge_pair l → StronglySorted ge_pair (insert_desc x l).
Proof using score_lt_asym score_ge_trans.
  induction 1 as [|y l Hl IH Hy]; cbn [insert_desc].
  - repeat constructor.
  - destruct (score_lt x.2 y.2) eqn:Hxy.
    + constructor; [done |].
      rewrite insert_desc_perm. constructor; [by apply score_lt_asym | done].
    + constructor; [by constructor |].
      constructor; [done |].
      eapply Forall_impl; [exact Hy |]. intros z Hz. cbn in Hz |- *.
      by apply (score_ge_trans _ y.2).
Qed.

Lemma sort_desc_sorted l : StronglySorted ge_pair (sort_desc l).
Proof using score_lt_asym score_ge_trans.
  induction l as [|x l IH]; [constructor |].
  cbn [sort_desc foldr]. fold (sort_desc l). by apply insert_desc_sorted.
Qed.

Lemma StronglySorted_take {A} (R : A → A → Prop) n (l : list A) :
  StronglySorted R l → StronglySorted R (take n l).
Proof.
  intros Hl. revert n. induction Hl as [|x l Hl IH Hx]; intros [|n];
    cbn [take]; try constructor; [apply IH | by apply Forall_take].
Qed.

Lemma StronglySorted_fmap {A B} (R : B → B → Prop) (f : A → B) (l : list A) :
  StronglySorted (fun a b => R (f a) (f b)) l → StronglySorted R (f <$> l).
Proof.
  induction 1 as [|x l Hl IH Hx]; cbn; constructor; [done |].
  by apply Forall_fmap.
Qed.

Lemma StronglySorted_split {A} (R : A → A → Prop) n (l : list A) :
  StronglySorted R l → ∀ x y, x ∈ take n l → y ∈ drop n l → R x y.
Proof.
  intros Hl. revert n. induction Hl as [|a l Hl IH Ha]; intros n x y.
  - rewrite take_nil. by intros ?%elem_of_nil.
  - destruct n as [|n]; cbn [take drop]; [by intros ?%elem_of_nil |].
    intros [->|Hx]%elem_of_cons Hy; [|by apply (IH n)].
    apply (Forall_drop _ n) in Ha.
    by eapply Forall_forall in Ha.
Qed.

Lemma score_sentences_length text :
  length (score_sentences text) = length (sentences text).
Proof.
  unfold score_sentences, sentences. cbv zeta.
  induction (split_char (Ascii.ascii_of_nat 46) text) as [|s l IH]; [done |].
  cbn [flat_map]. rewrite length_app, IH, filter_cons.
  destruct (0 <? String.length (strip s))%nat eqn:Hs.
  - by rewrite decide_True by done.
  - by rewrite decide_False by done.
Qed.

(** C9 (key insights).  [extract_key_insights] returns as many key points
    as scores, the lesser of three and the number of sentences of the text
    that are not empty once stripped (so at most three, and three when
    there are at least three such sentences); the scores are in
    non-increasing order; and the sentences returned are highest-scoring
    ones: with the ones left out they make up all the scored sentences,
    and none of them scores below one left out. *)
Theorem key_insights_selection text :
  let result := extract_key_insights text in
  length (key_points result) = length (importance_scores result)
  ∧ length (key_points result) = min 3 (length (sentences text))
  ∧ length (key_points result) ≤ 3
  ∧ (3 ≤ length (sentences text) → length (key_points result) = 3)
  ∧ non_increasing (importance_scores result)
  ∧ ∃ left_out,
      zip (key_points result) (importance_scores result) ++ left_out
      ≡ₚ score_sentences text
      ∧ ∀ x y, x ∈ importance_scores result → y ∈ left_out.*2 →
          score_lt x y = false.
Proof using score_lt_asym score_ge_trans.
  cbn zeta. unfold extract_key_insights. cbn [key_points importance_scores].
  set (sorted := sort_desc (score_sentences text)).
  assert (Hlen : length (take 3 sorted) = min 3 (length (sentences text))).
  { rewrite length_take. subst sorted.
    by rewrite (Permutation_length (sort_desc_perm _)), score_sentences_length. }
  rewrite !length_fmap, Hlen.
  split_and!; [done | done | lia | lia | |].
  - apply StronglySorted_fmap, StronglySorted_take, sort_desc_sorted.
  - exists (drop 3 sorted). split.
    + rewrite zip_fst_snd, take_drop. apply sort_desc_perm.
    + intros x y [a [-> Ha]]%list_elem_of_fmap [b [-> Hb]]%list_elem_of_fmap.
      by apply (StronglySorted_split ge_pair 3 sorted (sort_desc_sorted _)).
Qed.

End Ranking.

(** ** Keys from input to output *)


Lemma parent_div p name : parent (p // name) = p.
Proof. apply removelast_last. Qed.


Lemma vis_entry_keys prefix (items : dict) :
  (vis_entry prefix <$> items).*1 = String.append prefix <$> dict_keys items.
Proof.
  unfold dict_keys. induction items as [|[k v] items IH]; [done |].
  cbn. by rewrite IH.
Qed.

Lemma vis_keys_NoDup (hypotheses analysis : dict) :
  NoDup (dict_keys hypotheses) → NoDup (dict_keys analysis) →
  NoDup ((vis_entry "hypothesis_" <$> hypotheses).*1
         ++ (vis_entry "results_" <$> analysis).*1).
Proof.
  intros Hh Ha. rewrite !vis_entry_keys. apply NoDup_app. split_and!.
  - by apply (NoDup_fmap_2 _).
  - intros k [x [-> _]]%list_elem_of_fmap [y [Hk _]]%list_elem_of_fmap.
    discriminate.
  - by apply (NoDup_fmap_2 _).
Qed.


Lemma path_div_ne (p : path) name : p // name ≠ p.
Proof.
  intros H. apply (f_equal length) in H. unfold path_div in H.
  rewrite length_app in H. cbn in H. lia.
Qed.





(** ** Running a stage again *)

Lemma for_each_fst {A} (body : dict → A → M E dict)
    (step : A → M E (option (string * pyval))) :
  (∀ acc x w,
     body acc x w =
     match step x w with
     | (Ok r, w') => (Ok (store acc r), w')
     | (Raise e, w') => (Raise e, w')
     end) →
  ∀ items acc w,
    (for_each body items acc w).1 =
    match (collect step items w).1 with
    | Ok kvs => Ok (store_all acc kvs)
    | Raise e => Raise e
    end.
Proof.
  intros Hbody items acc w. rewrite (for_each_collect _ _ Hbody).
  by destruct (collect step items w) as [[kvs|e] w'].
Qed.

Lemma path_div_inj (p : path) (a b : string) : p // a = p // b → a = b.
Proof. unfold path_div. intros H%app_inv_head. by injection H. Qed.

Lemma literature_not_hypotheses : literature_path ≠ hypotheses_path.
Proof. intros H%path_div_inj. discriminate. Qed.

Section Deterministic.

(** The transforms and the ingestion are deterministic: what they return
    does not depend on the state of the services. *)
Hypothesis deepseek_det :
  ∀ x e1 e2, (deepseek_post x e1).1 = (deepseek_post x e2).1.
Hypothesis insights_det :
  ∀ x e1 e2, (insights_of x e1).1 = (insights_of x e2).1.
Hypothesis papers_det :
  ∀ e1 e2, (load_research_papers e1).1 = (load_research_papers e2).1.
Hypothesis render_det : ∀ x e1 e2, (render x e1).1 = (render x e2).1.
Hypothesis pipeline_det :
  ∀ e1 e2, (load_pipeline e1).1 = (load_pipeline e2).1.

Lemma collect_hypotheses_det items w1 w2 :
  (collect hypothesis_step items w1).1 = (collect hypothesis_step items w2).1.
Proof using deepseek_det.
  revert w1 w2. induction items as [|[k a] items IH]; intros w1 w2; [done |].
  cbn [collect]. unfold mbind, M_bind, bind, mret, M_ret, ret.
  unfold hypothesis_step at 1 3. cbn [fst snd].
  destruct (context_of a) as [c|e]; [|done].
  pose proof (deepseek_det (prompt_of c) (ext w1) (ext w2)) as Hr.
  destruct (deepseek_post (prompt_of c) (ext w1)) as [r1 e1].
  destruct (deepseek_post (prompt_of c) (ext w2)) as [r2 e2].
  cbn [fst] in Hr. subst r2.
  set (wa := {| files := files w1; dirs := _; log := _; ext := _; calls := _ |}).
  set (wb := {| files := files w2; dirs := _; log := _; ext := _; calls := _ |}).
  specialize (IH wa wb).
  destruct (collect hypothesis_step items wa) as [[kvs1|ex1] wa'];
    destruct (collect hypothesis_step items wb) as [[kvs2|ex2] wb'];
    cbn [fst] in IH |- *; by simplify_eq.
Qed.

Lemma generate_hypotheses_det w w' :
  files w' !! literature_path = files w !! literature_path →
  (generate_hypotheses w').1 = (generate_hypotheses w).1.
Proof using deepseek_det.
  intros Hin.
  pose proof (load_json_files literature_path w w' Hin) as Hload.
  destruct (load_json literature_path w).1 as [items|e] eqn:Hw.
  - rewrite (generate_hypotheses_loaded w items Hw).
    rewrite (generate_hypotheses_loaded w' items Hload).
    pose proof (for_each_fst _ _ hypothesis_for_step items [] (starting w))
      as H1.
    pose proof (for_each_fst _ _ hypothesis_for_step items [] (starting w'))
      as H2.
    rewrite (collect_hypotheses_det items (starting w') (starting w)) in H2.
    fold (hypotheses_loop items [] (starting w)) in H1.
    fold (hypotheses_loop items [] (starting w')) in H2.
    destruct (hypotheses_loop items [] (starting w)) as [[h1|e1] wa];
      destruct (hypotheses_loop items [] (starting w')) as [[h2|e2] wb];
      cbn [fst] in H1, H2 |- *; congruence.
  - rewrite (generate_hypotheses_failed_load w e Hw).
    by rewrite (generate_hypotheses_failed_load w' e Hload).
Qed.

(** The files after a run: the artifact is replaced when the input was
    loaded and the loop ended normally, and nothing changes otherwise. *)
Lemma generate_hypotheses_files w :
  files (generate_hypotheses w).2 =
  match (load_json literature_path w).1, (generate_hypotheses w).1 with
  | Ok _, Ok hypotheses =>
      <[hypotheses_path := json_dumps (PDict hypotheses)]> (files w)
  | _, _ => files w
  end.
Proof.
  destruct (load_json literature_path w).1 as [items|e] eqn:Hw.
  - rewrite (generate_hypotheses_loaded w items Hw).
    pose proof (hypotheses_loop_files items [] (starting w)) as Hf.
    destruct (hypotheses_loop items [] (starting w)) as [[h|e] w1];
      cbn in Hf |- *; by rewrite Hf.
  - by rewrite (generate_hypotheses_failed_load w e Hw).
Qed.

Lemma paper_reports_det papers e1 e2 :
  (paper_reports papers e1).1 = (paper_reports papers e2).1.
Proof using insights_det.
  revert e1 e2. induction papers as [|p papers IH]; intros e1 e2; [done |].
  cbn [paper_reports].
  pose proof (insights_det (content p) e1 e2) as Hr.
  destruct (insights_of (content p) e1) as [r1 e1'].
  destruct (insights_of (content p) e2) as [r2 e2'].
  cbn [fst] in Hr. subst r2. specialize (IH e1' e2').
  destruct (paper_reports papers e1'), (paper_reports papers e2').
  cbn [fst] in IH |- *. by rewrite IH.
Qed.

Lemma analyze_papers_outcome w :
  let papers := (load_research_papers (ext w)).1 in
  let e' := (load_research_papers (ext w)).2 in
  match papers with
  | Raise e => (analyze_papers w).1 = Raise e ∧ files (analyze_papers w).2 = files w
  | Ok [] => (analyze_papers w).1 = Ok [] ∧ files (analyze_papers w).2 = files w
  | Ok papers =>
      let results :=
        store_all [] (omap report_entry (paper_reports papers e').1) in
      (analyze_papers w).1 = Ok results
      ∧ files (analyze_papers w).2
        = <[literature_path := json_dumps (PDict results)]> (files w)
  end.
Proof.
  cbn zeta. destruct (load_research_papers (ext w)) as [[papers|e] e'] eqn:Hl;
    cbn [fst snd].
  - destruct papers as [|p papers].
    + by rewrite (analyze_papers_empty w e' Hl).
    + by rewrite (analyze_papers_run w (p :: papers) e' Hl).
  - unfold analyze_papers. unfold_M. unfold add_log, with_ext. cbn.
    by rewrite Hl.
Qed.

(** ** Running the visualizer again *)

Lemma apply_writes_snoc (writes : list (path * string)) (p : path)
    (s : string) (f : gmap path string) :
  apply_writes (writes ++ [(p, s)]) f = <[p := s]> (apply_writes writes f).
Proof. unfold apply_writes. by rewrite foldl_app. Qed.

Lemma apply_writes_app (ws1 ws2 : list (path * string))
    (f : gmap path string) :
  apply_writes (ws1 ++ ws2) f = apply_writes ws2 (apply_writes ws1 f).
Proof. unfold apply_writes. by rewrite foldl_app. Qed.

Lemma lookup_apply_writes_other (writes : list (path * string))
    (f : gmap path string) (q : path) :
  q ∉ writes.*1 → apply_writes writes f !! q = f !! q.
Proof.
  induction writes as [|[p s] writes IH] using rev_ind; intros Hq; [done |].
  rewrite apply_writes_snoc. rewrite fmap_app in Hq. cbn in Hq.
  rewrite lookup_insert_ne.
  - apply IH. intros Hin. apply Hq, elem_of_app. by left.
  - intros ->. apply Hq, elem_of_app. right. apply list_elem_of_here.
Qed.

Lemma lookup_apply_writes_written (writes : list (path * string))
    (f g : gmap path string) (q : path) :
  q ∈ writes.*1 → apply_writes writes f !! q = apply_writes writes g !! q.
Proof.
  induction writes as [|[p s] writes IH] using rev_ind; intros Hq.
  - by apply elem_of_nil in Hq.
  - rewrite !apply_writes_snoc. destruct (decide (p = q)) as [->|Hne].
    + by rewrite !lookup_insert_eq.
    + rewrite !lookup_insert_ne by done. apply IH.
      rewrite fmap_app in Hq. apply elem_of_app in Hq as [Hq|Hq]; [done |].
      cbn in Hq. apply list_elem_of_singleton in Hq. congruence.
Qed.

(** Writing the same files with the same content once more changes
    nothing. *)
Lemma apply_writes_twice (writes : list (path * string))
    (f : gmap path string) :
  apply_writes writes (apply_writes writes f) = apply_writes writes f.
Proof.
  apply map_eq. intros q. destruct (decide (q ∈ writes.*1)) as [Hq|Hq].
  - by apply lookup_apply_writes_written.
  - by rewrite lookup_apply_writes_other.
Qed.

Lemma under_vis_dir_app (ws1 ws2 : list (path * string)) :
  under_vis_dir ws1 → under_vis_dir ws2 → under_vis_dir (ws1 ++ ws2).
Proof.
  intros H1 H2 q. rewrite fmap_app. intros [?|?]%elem_of_app; eauto.
Qed.

Lemma under_vis_dir_nil : under_vis_dir [].
Proof. by intros q ?%elem_of_nil. Qed.

Lemma under_vis_dir_one (name s : string) :
  under_vis_dir [(vis_dir // name, s)].
Proof. intros q ->%list_elem_of_singleton. by exists name. Qed.

Lemma outputs_not_under_vis_dir (writes : list (path * string))
    (name : string) :
  under_vis_dir writes → OUTPUTS_DIR // name ∉ writes.*1.
Proof.
  intros Hw Hin. destruct (Hw _ Hin) as [name' Heq].
  apply (f_equal length) in Heq. unfold vis_dir, path_div in Heq.
  rewrite !length_app in Heq. cbn in Heq. lia.
Qed.

Lemma vis_dir_not_under_vis_dir (writes : list (path * string)) :
  under_vis_dir writes → vis_dir ∉ writes.*1.
Proof.
  intros Hw Hin. destruct (Hw _ Hin) as [name Heq].
  symmetry in Heq. by apply path_div_ne in Heq.
Qed.

Lemma outcome_world_eta {A} (x : outcome A * world E) :
  match x with
  | (Ok a, w') => (Ok a, w')
  | (Raise e, w') => (Raise e, w')
  end = x.
Proof. by destruct x as [[a|e] w']. Qed.

(** Two runs of a visualization loop from worlds with the same directories
    end alike and write the same files. *)
Lemma collect_vis_related prefix prompt_for items w1 w2 :
  dirs w1 = dirs w2 →
  ∃ writes,
    (collect (vis_step prefix prompt_for) items w1).1
    = (collect (vis_step prefix prompt_for) items w2).1
    ∧ files (collect (vis_step prefix prompt_for) items w1).2
      = apply_writes writes (files w1)
    ∧ files (collect (vis_step prefix prompt_for) items w2).2
      = apply_writes writes (files w2)
    ∧ dirs (collect (vis_step prefix prompt_for) items w1).2 = dirs w1
    ∧ dirs (collect (vis_step prefix prompt_for) items w2).2 = dirs w2
    ∧ under_vis_dir writes.
Proof using render_det.
  revert w1 w2. induction items as [|[name payload] items IH];
    intros w1 w2 Hdirs.
  - exists []. split_and!; try done. apply under_vis_dir_nil.
  - cbn [collect]. unfold mbind, M_bind, bind, mret, M_ret, ret.
    unfold vis_step at 1 3 5 7 9 11. cbn [fst snd].
    destruct (prompt_for payload) as [prompt|e];
      [|exists []; split_and!; try done; apply under_vis_dir_nil].
    rewrite !generate_visualization_spec.
    pose proof (render_det prompt (ext w1) (ext w2)) as Hr.
    destruct (render prompt (ext w1)) as [r e1].
    destruct (render prompt (ext w2)) as [r2 e2].
    cbn [fst] in Hr. subst r2. cbv zeta.
    assert (Hd : ∀ q, is_dir w1 q = is_dir w2 q)
      by (intros q; unfold is_dir; by rewrite Hdirs).
    rewrite <- !Hd.
    destruct r as [image|e];
      [destruct (is_dir w1 (image_path prefix name));
       [|destruct (is_dir w1 (parent (image_path prefix name)))] |].
    2:{ (* the image is written *)
      set (wa := with_files _ (add_call prompt e1 w1)).
      set (wb := with_files _ (add_call prompt e2 w2)).
      destruct (IH wa wb Hdirs) as (ws & H1 & H2 & H3 & H4 & H5 & H6).
      exists ((image_path prefix name, image) :: ws).
      rewrite bool_decide_eq_true_2 by by eexists.
      destruct (collect (vis_step prefix prompt_for) items wa) as [[?|?] ?];
        destruct (collect (vis_step prefix prompt_for) items wb) as [[?|?] ?];
        cbn [fst snd] in H1, H2, H3, H4, H5 |- *; simplify_eq;
        (split_and!; try done;
         apply (under_vis_dir_app [_]); [apply under_vis_dir_one | done]). }
    (* no image: the item is passed over *)
    all: rewrite bool_decide_eq_false_2 by (by intros [? ?]).
    all: rewrite !outcome_world_eta.
    all: exact (IH (add_log _ _ (add_call prompt e1 w1))
                   (add_log _ _ (add_call prompt e2 w2)) Hdirs).
Qed.

(** The write of the metadata, from worlds with the same directories. *)
Lemma dump_related obj p w1 w2 :
  dirs w1 = dirs w2 →
  ∃ writes,
    (run_steps (json_dump_steps obj p) w1).1
    = (run_steps (json_dump_steps obj p) w2).1
    ∧ files (run_steps (json_dump_steps obj p) w1).2
      = apply_writes writes (files w1)
    ∧ files (run_steps (json_dump_steps obj p) w2).2
      = apply_writes writes (files w2)
    ∧ (writes = [] ∨ ∃ s, writes = [(p, s)]).
Proof.
  intros Hdirs.
  assert (Hd : ∀ q, is_dir w1 q = is_dir w2 q)
    by (intros q; unfold is_dir; by rewrite Hdirs).
  destruct (is_dir w1 p) eqn:Hp;
    [|destruct (is_dir w1 (parent p)) eqn:Hparent].
  - exists []. unfold json_dump_steps. cbn [run_steps].
    unfold mbind, M_bind, bind, open_w. rewrite <- !Hd, Hp.
    split_and!; try done. by left.
  - exists [(p, concat_chunks (json_iterencode obj))].
    rewrite (dump_complete p obj w1) by done.
    rewrite (dump_complete p obj w2) by (by rewrite <- Hd).
    split_and!; try done. right. by eexists.
  - exists []. unfold json_dump_steps. cbn [run_steps].
    unfold mbind, M_bind, bind, open_w. rewrite <- !Hd, Hp, Hparent.
    split_and!; try done. by left.
Qed.

Lemma generate_visualizations_related w w' :
  (mkdir_exist_ok vis_dir w').1 = (mkdir_exist_ok vis_dir w).1 →
  dirs (mkdir_exist_ok vis_dir w').2 = dirs (mkdir_exist_ok vis_dir w).2 →
  (load_json hypotheses_path w').1 = (load_json hypotheses_path w).1 →
  (load_json experimental_path w').1 = (load_json experimental_path w).1 →
  ∃ writes,
    (generate_visualizations w').1 = (generate_visualizations w).1
    ∧ files (generate_visualizations w).2 = apply_writes writes (files w)
    ∧ files (generate_visualizations w').2 = apply_writes writes (files w')
    ∧ dirs (generate_visualizations w).2 = dirs (mkdir_exist_ok vis_dir w).2
    ∧ under_vis_dir writes.
Proof using render_det pipeline_det.
  intros Hmk Hdirs Hh He. rewrite !generate_visualizations_start. cbv zeta.
  rewrite Hmk, Hh, He.
  pose proof (mkdir_files vis_dir w) as Hf.
  pose proof (mkdir_files vis_dir w') as Hf'.
  set (wm := (mkdir_exist_ok vis_dir w).2) in *.
  set (wm' := (mkdir_exist_ok vis_dir w').2) in *.
  assert (Hnone : ∀ lv msg lv' msg' (r : outcome dict),
    ∃ writes,
      (r, add_log lv' msg' (add_log lv msg wm')).1
      = (r, add_log lv' msg' (add_log lv msg wm)).1
      ∧ files (r, add_log lv' msg' (add_log lv msg wm)).2
        = apply_writes writes (files w)
      ∧ files (r, add_log lv' msg' (add_log lv msg wm')).2
        = apply_writes writes (files w')
      ∧ dirs (r, add_log lv' msg' (add_log lv msg wm)).2 = dirs wm
      ∧ under_vis_dir writes).
  { intros. exists []. split_and!; try done. apply under_vis_dir_nil. }
  destruct (mkdir_exist_ok vis_dir w).1 as [[]|e].
  2:{ exists []. split_and!; try done. apply under_vis_dir_nil. }
  destruct (load_json hypotheses_path w).1 as [hypotheses|e];
    [|apply Hnone].
  destruct (load_json experimental_path w).1 as [analysis|e];
    [|apply Hnone].
  set (w0 := add_log _ _ wm). set (w0' := add_log _ _ wm').
  unfold run_ext.
  pose proof (pipeline_det (ext w0) (ext w0')) as Hpipe.
  destruct (load_pipeline (ext w0)) as [r e0].
  destruct (load_pipeline (ext w0')) as [r' e0'].
  cbn [fst] in Hpipe. subst r'.
  destruct r as [[]|e].
  2:{ exists []. split_and!; try done. apply under_vis_dir_nil. }
  set (w1 := with_ext e0 w0). set (w1' := with_ext e0' w0').
  assert (Hd1 : dirs w1 = dirs w1') by (symmetry; exact Hdirs).
  assert (Hfw : files w1 = files w) by exact Hf.
  assert (Hfw' : files w1' = files w') by exact Hf'.
  assert (Hdw : dirs w1 = dirs wm) by reflexivity.
  clearbody w1 w1'. clear Hnone.
  rewrite !(for_each_collect _ _ visualize_hypothesis_step).
  destruct (collect_vis_related "hypothesis_" hypothesis_prompt hypotheses
              w1 w1' Hd1) as (ws1 & Hr1 & Hf1 & Hf1' & Hda & Hda' & Hu1).
  rewrite Hfw in Hf1. rewrite Hfw' in Hf1'.
  destruct (collect (vis_step "hypothesis_" hypothesis_prompt) hypotheses w1)
    as [[kvs1|e] w2];
    destruct (collect (vis_step "hypothesis_" hypothesis_prompt) hypotheses
                w1') as [[kvs1'|e'] w2'];
    cbn [fst snd] in Hr1, Hf1, Hf1', Hda, Hda'; try discriminate Hr1.
  2:{ exists ws1. cbn [fst snd]. split_and!; try done. congruence. }
  injection Hr1 as <-.
  rewrite !(for_each_collect _ _ visualize_results_step).
  assert (Hd2 : dirs w2 = dirs w2') by congruence.
  destruct (collect_vis_related "results_" results_prompt analysis
              w2 w2' Hd2) as (ws2 & Hr2 & Hf2 & Hf2' & Hdb & Hdb' & Hu2).
  rewrite Hf1 in Hf2. rewrite Hf1' in Hf2'.
  rewrite <- apply_writes_app in Hf2, Hf2'.
  destruct (collect (vis_step "results_" results_prompt) analysis w2)
    as [[kvs2|e] w3];
    destruct (collect (vis_step "results_" results_prompt) analysis w2')
      as [[kvs2'|e'] w3'];
    cbn [fst snd] in Hr2, Hf2, Hf2', Hdb, Hdb'; try discriminate Hr2.
  2:{ exists (ws1 ++ ws2). cbn [fst snd].
      split_and!; try done; [congruence | by apply under_vis_dir_app]. }
  injection Hr2 as <-.
  assert (Hd3 : dirs w3 = dirs w3') by congruence.
  set (results := store_all (store_all [] kvs1) kvs2).
  destruct (dump_related (PDict results) metadata_path w3 w3' Hd3)
    as (ws3 & Hr3 & Hf3 & Hf3' & Hws3).
  rewrite Hf2 in Hf3. rewrite Hf2' in Hf3'.
  rewrite <- apply_writes_app in Hf3, Hf3'.
  assert (Hd4 : dirs (run_steps (json_dump_steps (PDict results)
                                   metadata_path) w3).2 = dirs w3).
  { unfold json_dump_steps. cbn [run_steps]. unfold mbind, M_bind, bind.
    unfold open_w at 1.
    destruct (is_dir w3 metadata_path); [done |].
    destruct (is_dir w3 (parent metadata_path)) eqn:Hparent; [|done].
    pose proof (write_chunks metadata_path (json_iterencode (PDict results))
                  (with_files (<[metadata_path := ""]> (files w3)) w3) "")
      as Hwr.
    rewrite Hwr by (cbn; by rewrite lookup_insert_eq). done. }
  assert (Hu3 : under_vis_dir ((ws1 ++ ws2) ++ ws3)).
  { apply under_vis_dir_app; [by apply under_vis_dir_app |].
    destruct Hws3 as [->|[s ->]];
      [apply under_vis_dir_nil | apply under_vis_dir_one]. }
  exists ((ws1 ++ ws2) ++ ws3).
  destruct (run_steps (json_dump_steps (PDict results) metadata_path) w3)
    as [[[]|e] w4];
    destruct (run_steps (json_dump_steps (PDict results) metadata_path) w3')
      as [[[]|e'] w4'];
    cbn [fst snd] in Hr3, Hf3, Hf3', Hd4 |- *; try discriminate Hr3;
    (split_and!; try done; cbn [dirs add_log]; congruence).
Qed.

Lemma mkdir_again p w w' :
  dirs w' = dirs (mkdir_exist_ok p w).2 →
  files w' !! p = files w !! p →
  (mkdir_exist_ok p w').1 = (mkdir_exist_ok p w).1
  ∧ dirs (mkdir_exist_ok p w').2 = dirs (mkdir_exist_ok p w).2.
Proof.
  unfold mkdir_exist_ok, is_dir. intros Hdirs Hfile. rewrite Hfile.
  destruct (bool_decide (p = [])) eqn:Hroot; cbn [orb] in Hdirs |- *;
    [done |].
  destruct (bool_decide (p ∈ dirs w)) eqn:Hdir; cbn [snd] in Hdirs.
  { rewrite Hdirs, Hdir. done. }
  destruct (bool_decide (is_Some (files w !! p))); cbn [snd] in Hdirs.
  { rewrite Hdirs, Hdir. done. }
  destruct (bool_decide (parent p = []) || bool_decide (parent p ∈ dirs w))
    eqn:Hparent; cbn [snd] in Hdirs.
  - cbn [dirs with_dirs] in Hdirs. rewrite Hdirs.
    rewrite bool_decide_eq_true_2; [done |].
    apply elem_of_union. left. by apply elem_of_singleton.
  - rewrite Hdirs, Hdir, Hparent. done.
Qed.

(** The visualization stage run again on what its first run left. *)
Lemma generate_visualizations_again w :
  let first := generate_visualizations w in
  let second := generate_visualizations first.2 in
  second.1 = first.1 ∧ files second.2 = files first.2.
Proof using render_det pipeline_det.
  cbv zeta.
  destruct (generate_visualizations_related w w) as
    (ws & _ & Hf & _ & Hdirs & Hu); try done.
  set (w' := (generate_visualizations w).2) in *.
  assert (Hsame : ∀ name,
            files w' !! (OUTPUTS_DIR // name) = files w !! (OUTPUTS_DIR // name)).
  { intros name. rewrite Hf. apply lookup_apply_writes_other.
    by apply outputs_not_under_vis_dir. }
  assert (Hvis : files w' !! vis_dir = files w !! vis_dir).
  { rewrite Hf. apply lookup_apply_writes_other.
    by apply vis_dir_not_under_vis_dir. }
  destruct (mkdir_again vis_dir w w' Hdirs Hvis) as [Hmk Hmkd].
  destruct (generate_visualizations_related w w') as
    (ws' & Hr & Hf1 & Hf2 & _ & _); try done.
  - apply load_json_files, Hsame.
  - apply load_json_files, Hsame.
  - split; [done |]. rewrite Hf2. fold w' in Hf1. rewrite Hf1.
    apply apply_writes_twice.
Qed.

(** C8 (idempotence).  With deterministic collaborators, each of the three
    stages run again on what its first run left behind returns the same
    mapping and leaves every file, its output artifact included, byte for
    byte as the first run left it; and the hypothesis stage started from
    any other state with the same [literature_analysis.json] returns that
    mapping too. *)
Theorem rerun_is_idempotent w :
  (let first := generate_hypotheses w in
   let second := generate_hypotheses first.2 in
   second.1 = first.1 ∧ files second.2 = files first.2)
  ∧ (let first := analyze_papers w in
     let second := analyze_papers first.2 in
     second.1 = first.1 ∧ files second.2 = files first.2)
  ∧ (let first := generate_visualizations w in
     let second := generate_visualizations first.2 in
     second.1 = first.1 ∧ files second.2 = files first.2)
  ∧ (∀ w', files w' !! literature_path = files w !! literature_path →
       (generate_hypotheses w').1 = (generate_hypotheses w).1).
Proof using deepseek_det insights_det papers_det render_det pipeline_det.
  split_and!.
  - cbn zeta. set (w1 := (generate_hypotheses w).2).
    assert (Hin : files w1 !! literature_path = files w !! literature_path).
    { subst w1. rewrite generate_hypotheses_files.
      destruct (load_json literature_path w).1; [|done].
      destruct (generate_hypotheses w).1; [|done].
      rewrite lookup_insert_ne; [done |].
      intros H. by apply literature_not_hypotheses. }
    pose proof (generate_hypotheses_det w w1 Hin) as Hsame.
    split; [done |].
    rewrite (generate_hypotheses_files w1), Hsame.
    rewrite (load_json_files literature_path w w1 Hin).
    destruct (load_json literature_path w).1 eqn:Hload; [|done].
    destruct (generate_hypotheses w).1 eqn:Hrun; [|done].
    subst w1. rewrite (generate_hypotheses_files w), Hload, Hrun.
    by rewrite insert_insert_eq.
  - cbn zeta. set (w1 := (analyze_papers w).2).
    pose proof (analyze_papers_outcome w) as H1.
    pose proof (analyze_papers_outcome w1) as H2. cbn zeta in H1, H2.
    pose proof (papers_det (ext w1) (ext w)) as Hp. rewrite Hp in H2.
    destruct (load_research_papers (ext w)).1 as [[|p papers]|e].
    + destruct H1 as [-> _], H2 as [-> ?]. done.
    + destruct H1 as [-> Hf1], H2 as [-> Hf2].
      rewrite (paper_reports_det _ _ (load_research_papers (ext w)).2).
      split; [done |]. rewrite Hf2. subst w1. rewrite Hf1.
      rewrite (paper_reports_det _ _ (load_research_papers (ext w)).2).
      by rewrite insert_insert_eq.
    + destruct H1 as [-> _], H2 as [-> ?]. done.
  - apply generate_visualizations_again.
  - intros w' Hin. by apply generate_hypotheses_det.
Qed.

End Deterministic.

(** ** Sentences, key points and their order *)

Lemma split_char_nonempty sep s : split_char sep s ≠ [].
Proof.
  destruct s as [|c s]; cbn [split_char]; [done |].
  destruct (Ascii.eqb c sep); [done |]. by destruct (split_char sep s).
Qed.

Lemma str_join_cons sep (s : string) (p : string) (rest : list string) :
  str_join sep (s :: p :: rest) = s +:+ sep +:+ str_join sep (p :: rest).
Proof. done. Qed.

(** [sep.join(s.split(sep))] is [s]. *)
Lemma split_char_join sep s :
  str_join (String sep "") (split_char sep s) = s.
Proof.
  induction s as [|c s IH]; [done |]. cbn [split_char].
  pose proof (split_char_nonempty sep s) as Hne.
  destruct (Ascii.eqb_spec c sep) as [->|Hc].
  - destruct (split_char sep s) as [|p rest]; [done |].
    rewrite str_join_cons, IH. done.
  - destruct (split_char sep s) as [|p rest]; [done |].
    destruct rest as [|q rest].
    + cbn in IH |- *. by rewrite IH.
    + rewrite str_join_cons in IH |- *. rewrite string_app_cons. by rewrite IH.
Qed.

Lemma split_char_no_sep sep s (piece : string) :
  piece ∈ split_char sep s → sep ∉ String.list_ascii_of_string piece.
Proof.
  revert piece. induction s as [|c s IH]; intros piece; cbn [split_char].
  - intros ->%list_elem_of_singleton. apply not_elem_of_nil.
  - destruct (Ascii.eqb_spec c sep) as [->|Hc].
    + intros [->|Hin]%elem_of_cons; [apply not_elem_of_nil | by apply IH].
    + pose proof (split_char_nonempty sep s) as Hne.
      destruct (split_char sep s) as [|p rest]; [done |].
      intros [->|Hin]%elem_of_cons.
      * cbn. intros [?|Hin]%elem_of_cons; [congruence |].
        revert Hin. apply IH, list_elem_of_here.
      * by apply IH, list_elem_of_further.
Qed.

Lemma lstrip_chars s (c : Ascii.ascii) :
  c ∈ String.list_ascii_of_string (lstrip s) →
  c ∈ String.list_ascii_of_string s.
Proof.
  induction s as [|a s IH]; [done |]. cbn [lstrip].
  destruct (is_space a); [|done].
  intros Hc. cbn. by apply list_elem_of_further, IH.
Qed.

Lemma rstrip_chars s (c : Ascii.ascii) :
  c ∈ String.list_ascii_of_string (rstrip s) →
  c ∈ String.list_ascii_of_string s.
Proof.
  induction s as [|a s IH]; [done |]. cbn [rstrip].
  destruct (rstrip s) as [|b r].
  - destruct (is_space a); cbn; [by intros ?%elem_of_nil |].
    intros [->|?%elem_of_nil]%elem_of_cons; [apply list_elem_of_here | done].
  - cbn. intros [->|Hc]%elem_of_cons; [apply list_elem_of_here |].
    by apply list_elem_of_further, IH.
Qed.

Lemma rstrip_idemp s : rstrip (rstrip s) = rstrip s.
Proof.
  induction s as [|a s IH]; [done |]. cbn [rstrip].
  destruct (rstrip s) as [|b r] eqn:Hr.
  - destruct (is_space a) eqn:Ha; [done |]. cbn. by rewrite Ha.
  - cbn [rstrip] in IH |- *. by rewrite IH.
Qed.

Lemma lstrip_head s :
  match lstrip s with
  | EmptyString => True
  | String c _ => is_space c = false
  end.
Proof.
  induction s as [|a s IH]; [done |]. cbn [lstrip].
  destruct (is_space a) eqn:Ha; [done |]. done.
Qed.

Lemma rstrip_head c s :
  is_space c = false → ∃ r, rstrip (String c s) = String c r.
Proof.
  intros Hc. cbn [rstrip]. destruct (rstrip s) as [|b r].
  - rewrite Hc. by eexists.
  - by eexists.
Qed.

Lemma lstrip_strip s : lstrip (strip s) = strip s.
Proof.
  unfold strip. pose proof (lstrip_head s) as Hh.
  destruct (lstrip s) as [|c t]; [done |].
  destruct (rstrip_head c t Hh) as [r ->]. cbn [lstrip]. by rewrite Hh.
Qed.

Lemma rstrip_strip s : rstrip (strip s) = strip s.
Proof. apply rstrip_idemp. Qed.

Lemma strip_chars s (c : Ascii.ascii) :
  c ∈ String.list_ascii_of_string (strip s) →
  c ∈ String.list_ascii_of_string s.
Proof. intros Hc. by apply lstrip_chars, rstrip_chars. Qed.

(** Where a scored sentence comes from. *)
Lemma elem_of_score_sentences text (kp : string) (sc : Score) :
  (kp, sc) ∈ score_sentences text →
  ∃ piece : string,
    piece ∈ split_char full_stop text
    ∧ kp = strip piece ∧ kp ≠ ""
    ∧ sc = cosine (embed 512 text) (embed 128 piece).
Proof.
  unfold score_sentences. cbv zeta.
  rewrite list_elem_of_In, in_flat_map.
  intros (piece & Hpiece & Hin). exists piece.
  split; [by apply list_elem_of_In |].
  destruct (0 <? String.length (strip piece))%nat eqn:Hlen; [|done].
  destruct Hin as [[= <- <-]|[]]. split_and!; [done | | done].
  intros Hempty. rewrite Hempty in Hlen. done.
Qed.

Lemma score_sentences_fst text :
  (score_sentences text).*1 = strip <$> sentences text.
Proof.
  unfold score_sentences, sentences. cbv zeta.
  induction (split_char (Ascii.ascii_of_nat 46) text) as [|s l IH]; [done |].
  cbn [flat_map]. rewrite fmap_app, IH, filter_cons.
  destruct (0 <? String.length (strip s))%nat eqn:Hs.
  - by rewrite decide_True by done.
  - by rewrite decide_False by done.
Qed.

(** Sorting leaves a list alone that is in non-increasing order already. *)
Lemma sort_desc_sorted_id (l : list (string * Score)) :
  StronglySorted (fun a b => score_lt a.2 b.2 = false) l → sort_desc l = l.
Proof.
  induction 1 as [|x l Hl IH Hx]; [done |].
  cbn [sort_desc foldr]. fold (sort_desc l). rewrite IH.
  destruct l as [|y l']; [done |]. cbn [insert_desc].
  apply Forall_cons in Hx as [Hxy _]. by rewrite Hxy.
Qed.

Lemma StronglySorted_of_fmap {A B} (R : B → B → Prop) (f : A → B)
    (l : list A) :
  StronglySorted R (f <$> l) → StronglySorted (fun a b => R (f a) (f b)) l.
Proof.
  induction l as [|x l IH]; cbn; intros Hl; [constructor |].
  apply StronglySorted_inv in Hl as [Hl Hx]. constructor; [by apply IH |].
  rewrite Forall_fmap in Hx. exact Hx.
Qed.

(** X1.  Every key point that [extract_key_insights] returns, with its
    score, comes from one of the pieces that the full stops cut the text
    into, and these pieces joined by full stops are the text.  The key
    point is the piece stripped: it is not empty, holds no full stop and
    neither starts nor ends with white space.  Its score is the similarity
    of the whole text to the piece as it stands in the text, not
    stripped. *)
Theorem key_points_from_text text (kp : string) (sc : Score) :
  let result := extract_key_insights text in
  (kp, sc) ∈ zip (key_points result) (importance_scores result) →
  str_join "." (split_char full_stop text) = text
  ∧ ∃ piece : string,
      piece ∈ split_char full_stop text
      ∧ kp = strip piece
      ∧ sc = cosine (embed 512 text) (embed 128 piece)
      ∧ kp ≠ ""
      ∧ (full_stop ∉ String.list_ascii_of_string kp)
      ∧ lstrip kp = kp ∧ rstrip kp = kp.
Proof.
  cbv zeta. unfold extract_key_insights. cbn [key_points importance_scores].
  rewrite zip_fst_snd. intros Hin.
  split; [apply (split_char_join full_stop) |].
  apply (subseteq_take 3) in Hin. rewrite sort_desc_perm in Hin.
  destruct (elem_of_score_sentences _ _ _ Hin)
    as (piece & Hpiece & -> & Hne & ->).
  exists piece. split_and!; try done.
  - intros Hdot%strip_chars. by apply (split_char_no_sep _ _ _ Hpiece).
  - apply lstrip_strip.
  - apply rstrip_strip.
Qed.

(** X2.  When no sentence of the text scores below a later one, so also
    when all scores tie, the sort moves nothing: the key points are the
    first three sentences that are not blank, stripped, in the order of
    the text. *)
Theorem sorted_text_keeps_order text :
  non_increasing (score_sentences text).*2 →
  let result := extract_key_insights text in
  key_points result = take 3 (strip <$> sentences text)
  ∧ importance_scores result = take 3 (score_sentences text).*2.
Proof.
  intros Hsorted. cbv zeta. unfold extract_key_insights.
  cbn [key_points importance_scores].
  rewrite sort_desc_sorted_id
    by exact (StronglySorted_of_fmap (fun a b => score_lt a b = false) snd
                _ Hsorted).
  by rewrite !fmap_take, score_sentences_fst.
Qed.

Section Stability.

Hypothesis score_ge_trans :
  ∀ a b c, score_lt a b = false → score_lt b c = false → score_lt a c = false.

Lemma tied_not_below (c a b : Score) :
  tied a c = true → tied b c = true → score_lt a b = false.
Proof using score_ge_trans.
  unfold tied. intros [Hac _]%andb_true_iff [_ Hcb]%andb_true_iff.
  apply negb_true_iff in Hac, Hcb. by apply (score_ge_trans a c b).
Qed.

Lemma filter_insert_desc (c : Score) x (l : list (string * Score)) :
  filter (fun y => tied y.2 c = true) (insert_desc x l)
  = filter (fun y => tied y.2 c = true) (x :: l).
Proof using score_ge_trans.
  induction l as [|y l IH]; [done |]. cbn [insert_desc].
  destruct (score_lt x.2 y.2) eqn:Hxy; [|done].
  rewrite (filter_cons _ y), IH, !filter_cons.
  destruct (decide (tied x.2 c = true)) as [Hx|Hx]; [|done].
  destruct (decide (tied y.2 c = true)) as [Hy|Hy]; [|done].
  pose proof (tied_not_below c _ _ Hx Hy). congruence.
Qed.

(** X3.  The sort of [extract_key_insights] is stable: sentences whose
    scores tie stand in the ranking in the order they have in the text. *)
Theorem ranking_is_stable text (c : Score) :
  filter (fun y => tied y.2 c = true) (sort_desc (score_sentences text))
  = filter (fun y => tied y.2 c = true) (score_sentences text).
Proof using score_ge_trans.
  induction (score_sentences text) as [|x l IH]; [done |].
  cbn [sort_desc foldr]. fold (sort_desc l).
  by rewrite filter_insert_desc, !filter_cons, IH.
Qed.

End Stability.

(** ** More on the literature stage *)

Lemma dict_get_set (d : dict) (k : string) (v : pyval) (k' : string) :
  dict_get (dict_set d k v) k'
  = if decide (k = k') then Some v else dict_get d k'.
Proof.
  induction d as [|[k0 v0] d IH]; cbn [dict_set dict_get].
  - destruct (String.eqb_spec k k') as [->|Hne].
    + by rewrite decide_True.
    + by rewrite decide_False.
  - destruct (String.eqb_spec k0 k) as [->|Hne]; cbn [dict_get].
    + destruct (String.eqb_spec k k') as [->|Hne'].
      * by rewrite decide_True.
      * by rewrite decide_False.
    + rewrite IH. destruct (String.eqb_spec k0 k') as [->|Hne'].
      * by rewrite decide_False.
      * done.
Qed.

(** What a key maps to after a run of stores: the value stored last under
    it. *)
Lemma dict_get_store_all (acc kvs : dict) (k : string) :
  dict_get (store_all acc kvs) k
  = match last (filter (fun kv => kv.1 = k) kvs) with
    | Some kv => Some kv.2
    | None => dict_get acc k
    end.
Proof.
  unfold store_all. revert acc.
  induction kvs as [|[k0 v0] kvs IH]; intros acc; [done |].
  cbn [foldl fst snd]. rewrite IH, filter_cons. cbn [fst].
  rewrite dict_get_set.
  destruct (decide (k0 = k)) as [->|Hne]; [|done].
  rewrite last_cons. by destruct (last _).
Qed.

Lemma NoDup_dict_set (d : dict) (k : string) (v : pyval) :
  NoDup (dict_keys d) → NoDup (dict_keys (dict_set d k v)).
Proof.
  intros Hd. rewrite dict_keys_set. case_bool_decide as Hin; [done |].
  apply NoDup_app. split_and!; [done | | apply NoDup_singleton].
  by intros x Hx ->%list_elem_of_singleton.
Qed.

Lemma NoDup_store_all (acc kvs : dict) :
  NoDup (dict_keys acc) → NoDup (dict_keys (store_all acc kvs)).
Proof.
  unfold store_all. revert acc.
  induction kvs as [|[k v] kvs IH]; intros acc Hacc; [done |].
  cbn [foldl]. by apply IH, NoDup_dict_set.
Qed.

(** Every report of a run is the outcome of a call on the content of one
    of the papers. *)
Lemma elem_of_paper_reports papers e (p : paper) (r : outcome pyval) :
  (p, r) ∈ (paper_reports papers e).1 →
  p ∈ papers ∧ ∃ e1 e2, insights_of (content p) e1 = (r, e2).
Proof.
  revert e. induction papers as [|p0 papers IH]; intros e.
  - by intros ?%elem_of_nil.
  - cbn [paper_reports].
    destruct (insights_of (content p0) e) as [r0 e1] eqn:Hcall.
    specialize (IH e1). destruct (paper_reports papers e1) as [reports e2].
    cbn [fst] in IH |- *. intros [[= -> ->]|Hin]%elem_of_cons.
    + split; [apply list_elem_of_here | by exists e, e1].
    + destruct (IH Hin) as [Hp Hcalls].
      split; [by apply list_elem_of_further | done].
Qed.

(** X4.  Titles are the keys: of several papers with one title that are
    analyzed successfully, the mapping of [analyze_papers] holds the
    payload of the last one only, and no key occurs twice in it. *)
Theorem last_paper_wins w papers e' :
  load_research_papers (ext w) = (Ok papers, e') →
  ∃ results,
    (analyze_papers w).1 = Ok results
    ∧ NoDup (dict_keys results)
    ∧ ∀ k, dict_get results k
           = snd <$> last (filter (fun kv => kv.1 = k)
                             (stored_entries papers e')).
Proof.
  intros Hload. destruct papers as [|p papers].
  - rewrite (analyze_papers_empty w e' Hload). exists [].
    split_and!; [done | apply NoDup_nil_2 | done].
  - rewrite (analyze_papers_run w _ e' Hload) by done. cbv zeta.
    eexists. split_and!; [done | apply NoDup_store_all, NoDup_nil_2 |].
    intros k. rewrite dict_get_store_all. unfold stored_entries.
    by destruct (last _).
Qed.

(** Where an entry of the literature mapping comes from. *)
Lemma stored_entry_source papers e (kv : string * pyval) :
  kv ∈ store_all [] (omap report_entry (paper_reports papers e).1) →
  ∃ p insights e1 e2 kp sc,
    p ∈ papers ∧ title p = kv.1
    ∧ insights_of (content p) e1 = (Ok insights, e2)
    ∧ py_getitem insights "key_points" = Ok kp
    ∧ py_getitem insights "importance_scores" = Ok sc
    ∧ kv.2 = PDict [("key_insights", kp); ("importance_scores", sc)].
Proof.
  intros [Hin|Hin]%elem_of_store_all_entry; [by apply elem_of_nil in Hin |].
  apply list_elem_of_omap in Hin as ([p r] & Hrep & Hentry).
  destruct (elem_of_paper_reports _ _ _ _ Hrep) as (Hp & e1 & e2 & Hcall).
  unfold report_entry, paper_payload in Hentry. cbn [fst snd] in Hentry.
  destruct r as [insights|err]; [|done].
  destruct (py_getitem insights "key_points") as [kp|err] eqn:Hkp; [|done].
  destruct (py_getitem insights "importance_scores") as [sc|err] eqn:Hsc;
    [|done].
  injection Hentry as <-. by exists p, insights, e1, e2, kp, sc.
Qed.

(** X5.  After a run of [analyze_papers] on papers that were found,
    [literature_analysis.json] holds the serialized mapping returned and
    every other file is as it was.  Each entry of the mapping is keyed by
    the title of a paper, and its payload has just the two fields
    [key_insights] and [importance_scores], which are the [key_points] and
    the [importance_scores] of what [extract_key_insights] returned on
    that paper's content. *)
Theorem literature_artifact w papers e' :
  load_research_papers (ext w) = (Ok papers, e') → papers ≠ [] →
  ∃ results,
    (analyze_papers w).1 = Ok results
    ∧ files (analyze_papers w).2
      = <[literature_path := json_dumps (PDict results)]> (files w)
    ∧ ∀ kv : string * pyval, kv ∈ results →
        ∃ p insights e1 e2 kp sc,
          p ∈ papers ∧ title p = kv.1
          ∧ insights_of (content p) e1 = (Ok insights, e2)
          ∧ py_getitem insights "key_points" = Ok kp
          ∧ py_getitem insights "importance_scores" = Ok sc
          ∧ kv.2 = PDict [("key_insights", kp); ("importance_scores", sc)].
Proof.
  intros Hload Hne. rewrite (analyze_papers_run w _ e' Hload Hne). cbv zeta.
  eexists. split_and!; [done | done |]. apply stored_entry_source.
Qed.

Lemma report_lines_papers papers e :
  Forall2
    (fun p line => line = success_line p ∨ ∃ err, line = failure_line p err)
    papers (map report_line (paper_reports papers e).1).
Proof.
  revert e. induction papers as [|p papers IH]; intros e; [constructor |].
  cbn [paper_reports]. destruct (insights_of (content p) e) as [r e1].
  specialize (IH e1). destruct (paper_reports papers e1) as [reports e2].
  cbn [fst map] in IH |- *. constructor; [|done].
  unfold report_line. cbn [fst snd].
  destruct (paper_payload r) as [payload|err]; [by left | right; by exists err].
Qed.

(** X6.  A run of [analyze_papers] on papers that were found adds to the
    log the starting line, then one line for each paper in the order of
    the papers, the line of its success or the line of its failure, then
    the line of the save; nothing else. *)
Theorem one_log_line_per_paper w papers e' :
  load_research_papers (ext w) = (Ok papers, e') → papers ≠ [] →
  ∃ lines,
    log (analyze_papers w).2
    = log w ++ [(INFO, "Starting paper analysis")] ++ lines
      ++ [(INFO, "Saved analysis results to " +:+ path_str literature_path)]
    ∧ Forall2
        (fun p line =>
           line = success_line p ∨ ∃ err, line = failure_line p err)
        papers lines.
Proof.
  intros Hload Hne. rewrite (analyze_papers_run w _ e' Hload Hne). cbv zeta.
  eexists. split; [done |]. apply report_lines_papers.
Qed.

Lemma analyze_papers_load_failed w err e' :
  load_research_papers (ext w) = (Raise err, e') →
  analyze_papers w
  = (Raise err, with_ext e' (add_log INFO "Starting paper analysis" w)).
Proof.
  intros Hload. unfold analyze_papers. unfold_M. cbn. by rewrite Hload.
Qed.

(** X7.  [load_research_papers] is called outside any [try]: an exception
    it raises is the exception [analyze_papers] ends with, after the
    starting line alone has been logged; no paper is analyzed and no file
    is written. *)
Theorem load_failure_propagates w err e' :
  load_research_papers (ext w) = (Raise err, e') →
  (analyze_papers w).1 = Raise err
  ∧ log (analyze_papers w).2 = log w ++ [(INFO, "Starting paper analysis")]
  ∧ files (analyze_papers w).2 = files w
  ∧ calls (analyze_papers w).2 = calls w.
Proof.
  intros Hload. by rewrite (analyze_papers_load_failed w err e' Hload).
Qed.

(** ** More on the hypothesis stage *)

(** X8.  The payload of an item is read outside any [try]: an item of
    [literature_analysis.json] without a usable [key_insights] makes
    [generate_hypotheses] end with the exception of that subscript or
    join.  The items before it have been sent to the service by then, and
    nothing is written: [generated_hypotheses.json], like every file, is as
    it was. *)
Theorem malformed_payload_aborts w (pre post : dict) (k : string)
    (analysis : pyval) err :
  (load_json literature_path w).1 = Ok (pre ++ (k, analysis) :: post) →
  well_formed pre →
  context_of analysis = Raise err →
  (generate_hypotheses w).1 = Raise err
  ∧ files (generate_hypotheses w).2 = files w
  ∧ calls (generate_hypotheses w).2
    = calls w ++ map (fun item => prompt_of (context_or_empty item.2)) pre.
Proof.
  intros Hload Hpre Hbad. rewrite (generate_hypotheses_loaded w _ Hload).
  unfold hypotheses_loop.
  rewrite (for_each_collect _ _ hypothesis_for_step), collect_app.
  rewrite (collect_hypotheses pre _ Hpre). cbn [collect]. unfold_M.
  rewrite (hypothesis_step_malformed (k, analysis) err _ Hbad). done.
Qed.

Lemma quiet_reports items e :
  (∀ x e0, ∃ v e1, deepseek_post x e0 = (Ok v, e1) ∧ truthy v = false) →
  omap hreport_entry (hypothesis_reports items e).1 = []
  ∧ flat_map hreport_lines (hypothesis_reports items e).1 = [].
Proof.
  intros Hquiet. revert e.
  induction items as [|[k a] items IH]; intros e; [done |].
  cbn [hypothesis_reports].
  destruct (Hquiet (prompt_of (context_or_empty a)) e) as (v & e1 & -> & Hv).
  specialize (IH e1). destruct (hypothesis_reports items e1) as [reports e2].
  cbn [fst] in IH |- *. destruct IH as [IH1 IH2].
  cbn [omap list_omap flat_map]. fold (omap hreport_entry reports).
  unfold hreport_entry at 1, hreport_lines at 1.
  cbn [fst snd reply_value reply_lines]. rewrite Hv. cbn. by rewrite IH1, IH2.
Qed.

(** X9.  A reply that is falsy without an exception ([{}], [0], an empty
    string) is dropped without a word: when the service answers every
    prompt so, [generate_hypotheses] sends every item, returns and saves
    the empty mapping, and logs its starting line and its saving line
    only. *)
Theorem empty_replies_leave_no_trace w items :
  (load_json literature_path w).1 = Ok items →
  well_formed items →
  (∀ x e, ∃ v e', deepseek_post x e = (Ok v, e') ∧ truthy v = false) →
  (generate_hypotheses w).1 = Ok []
  ∧ calls (generate_hypotheses w).2
    = calls w ++ map (fun item => prompt_of (context_or_empty item.2)) items
  ∧ files (generate_hypotheses w).2 !! hypotheses_path
    = Some (json_dumps (PDict []))
  ∧ log (generate_hypotheses w).2
    = log w ++ [(INFO, "Starting hypothesis generation");
                (INFO, "Saved generated hypotheses to "
                       +:+ path_str hypotheses_path)].
Proof.
  intros Hload Hwf Hquiet. rewrite (generate_hypotheses_loaded w _ Hload).
  rewrite (hypotheses_loop_spec _ _ _ Hwf).
  destruct (quiet_reports items (ext (starting w)) Hquiet) as [-> ->].
  cbn. split_and!; [done | done | by rewrite lookup_insert_eq |].
  by rewrite app_nil_r, <- app_assoc.
Qed.

Lemma string_length_app (a b : string) :
  String.length (a +:+ b) = String.length a + String.length b.
Proof.
  induction a as [|c a IH]; [done |]. rewrite string_app_cons. cbn.
  by rewrite IH.
Qed.

Lemma string_app_inj_l (a x y : string) : a +:+ x = a +:+ y → x = y.
Proof.
  induction a as [|c a IH]; [done |]. rewrite !string_app_cons.
  intros [= H]. by apply IH.
Qed.

Lemma string_app_inj_r (b x y : string) : x +:+ b = y +:+ b → x = y.
Proof.
  revert y. induction x as [|c x IH]; intros [|d y].
  - done.
  - intros H. apply (f_equal String.length) in H.
    rewrite string_app_nil, string_length_app in H. cbn in H. lia.
  - intros H. apply (f_equal String.length) in H.
    rewrite string_app_nil, string_length_app in H. cbn in H. lia.
  - rewrite !string_app_cons. intros [= -> H]. f_equal. by apply IH.
Qed.

Lemma prompt_of_inj (c1 c2 : string) : prompt_of c1 = prompt_of c2 → c1 = c2.
Proof.
  unfold prompt_of. intros H.
  do 10 (apply string_app_inj_l in H). by apply string_app_inj_r in H.
Qed.

(** X10.  [DeepSeekAPI.generate_hypothesis] never raises.  It makes one
    exchange with the service, on a prompt from which the context can be
    read back (two contexts never share a prompt), and returns the reply,
    or [None] when the exchange raised; in that case it logs one [ERROR]
    line.  It touches no file. *)
Theorem generate_hypothesis_total context w :
  let run := generate_hypothesis context w in
  let reply := (deepseek_post (prompt_of context) (ext w)).1 in
  run.1 = Ok (reply_value reply)
  ∧ calls run.2 = calls w ++ [prompt_of context]
  ∧ files run.2 = files w
  ∧ log run.2
    = log w ++ match reply with
               | Ok _ => []
               | Raise err =>
                   [(ERROR, "Error in DeepSeek API call: " +:+ exn_msg err)]
               end
  ∧ ∀ context', prompt_of context' = prompt_of context → context' = context.
Proof.
  cbv zeta. unfold generate_hypothesis. unfold_M.
  destruct (deepseek_post (prompt_of context) (ext w)) as [[v|err] e1];
    cbn [fst snd reply_value calls files log add_call add_log].
  - rewrite app_nil_r. do 4 (split; [reflexivity |]).
    intros c Hc. exact (prompt_of_inj _ _ Hc).
  - do 4 (split; [reflexivity |]).
    intros c Hc. exact (prompt_of_inj _ _ Hc).
Qed.

(** ** From the literature stage to the hypothesis stage *)

Lemma all_strs_fmap (ss : list string) : all_strs (PStr <$> ss) = Some ss.
Proof. induction ss as [|s ss IH]; [done |]. cbn. by rewrite IH. Qed.

(** X11.  The two stages fit together.  When [extract_key_insights]
    returns its key points as a list of strings, and the mapping that
    [analyze_papers] returned can be read back from its serialization,
    then that mapping is well formed for the hypothesis stage, and
    [generate_hypotheses] run next ends normally: it sends one prompt for
    each entry of the mapping, in order, after the calls of the first
    stage, and every key of its mapping is a key of that mapping. *)
Theorem literature_feeds_hypotheses w papers e' results :
  load_research_papers (ext w) = (Ok papers, e') → papers ≠ [] →
  (∀ x e v kp,
     (insights_of x e).1 = Ok v → py_getitem v "key_points" = Ok kp →
     ∃ ss : list string, kp = PList (PStr <$> ss)) →
  (analyze_papers w).1 = Ok results →
  json_loads (json_dumps (PDict results)) = Some (PDict results) →
  let w1 := (analyze_papers w).2 in
  well_formed results
  ∧ ∃ hypotheses,
      (generate_hypotheses w1).1 = Ok hypotheses
      ∧ (∀ k, k ∈ dict_keys hypotheses → k ∈ dict_keys results)
      ∧ calls (generate_hypotheses w1).2
        = calls w ++ map content papers
          ++ map (fun item => prompt_of (context_or_empty item.2)) results.
Proof.
  intros Hload Hne Hstrs. rewrite (analyze_papers_run w _ e' Hload Hne).
  cbv zeta. cbn [fst snd]. intros [= <-] Hjson.
  set (results := store_all [] _) in *.
  assert (Hwf : well_formed results).
  { apply Forall_forall. intros kv Hkv.
    destruct (stored_entry_source _ _ _ Hkv)
      as (p & ins & e1 & e2 & kp & sc & _ & _ & Hcall & Hkp & _ & ->).
    destruct (Hstrs (content p) e1 ins kp) as [ss ->];
      [by rewrite Hcall | done |].
    exists (str_join newline ss). unfold context_of. cbn.
    by rewrite all_strs_fmap. }
  split; [done |].
  set (w1 := {| files := _ |}).
  assert (Hread : (load_json literature_path w1).1 = Ok results).
  { unfold load_json. subst w1. cbn [files].
    by rewrite lookup_insert_eq, Hjson. }
  rewrite (generate_hypotheses_loaded w1 _ Hread).
  rewrite (hypotheses_loop_spec _ _ _ Hwf). cbn [fst snd calls].
  eexists. split_and!; [done | |].
  2:{ cbn [calls add_log with_dirs with_files starting]. subst w1.
      cbn [calls]. by rewrite <- app_assoc. }
  intros k [Hk|Hk]%elem_of_store_all; [by apply elem_of_nil in Hk |].
  apply elem_of_omap_keys in Hk as ([[k' c] r] & v & Hin & Hentry).
  unfold hreport_entry, hypothesis_entry in Hentry. cbn in Hentry.
  destruct (truthy (reply_value r)); [|done]. injection Hentry as -> _.
  rewrite <- (hypothesis_reports_keys results (ext (starting w1))).
  apply list_elem_of_fmap. exists (k, c). split; [done |].
  apply list_elem_of_fmap. by exists (k, c, r).
Qed.

(** ** More on the visualizer *)

(** [generate_visualization] by cases: the image is written and its path
    returned, or nothing is written and [None] returned. *)
Lemma generate_visualization_cases prompt p w :
  ∃ made w1,
    generate_visualization prompt p w = (Ok made, w1)
    ∧ dirs w1 = dirs w
    ∧ calls w1 = calls w ++ [prompt]
    ∧ ((made = Some p
        ∧ log w1 = log w
        ∧ ∃ image e1, render prompt (ext w) = (Ok image, e1)
                      ∧ files w1 = <[p := image]> (files w))
       ∨ (made = None
          ∧ files w1 = files w
          ∧ ∃ msg,
              log w1
              = log w ++ [(ERROR, "Error generating visualization: "
                                  +:+ msg)])).
Proof.
  rewrite generate_visualization_spec.
  destruct (render prompt (ext w)) as [[image|err] e1]; cbv zeta.
  - destruct (is_dir w p);
      [|destruct (is_dir w (parent p))].
    + do 2 eexists. split_and!; [done | done | done |].
      right. split_and!; [done | done | by eexists].
    + do 2 eexists. split_and!; [done | done | done |].
      left. split_and!; [done | done | by exists image, e1].
    + do 2 eexists. split_and!; [done | done | done |].
      right. split_and!; [done | done | by eexists].
  - do 2 eexists. split_and!; [done | done | done |].
    right. split_and!; [done | done | by eexists].
Qed.

(** What a loop of the visualizer leaves behind, however it ends: the
    directories as they were, no file touched but images of its items, no
    file removed; and each entry it yields names an image that is there. *)
Lemma collect_vis_trace prefix prompt_for (items : dict) w :
  let run := collect (vis_step prefix prompt_for) items w in
  dirs run.2 = dirs w
  ∧ (∀ q : path, (∀ name, q ≠ image_path prefix name) →
       files run.2 !! q = files w !! q)
  ∧ (∀ q : path, is_Some (files w !! q) → is_Some (files run.2 !! q))
  ∧ (∀ kvs, run.1 = Ok kvs → ∀ kv : string * pyval, kv ∈ kvs →
       ∃ name, name ∈ dict_keys items
               ∧ kv = (prefix +:+ name,
                       PStr (path_str (image_path prefix name)))
               ∧ is_Some (files run.2 !! image_path prefix name)).
Proof.
  revert w. induction items as [|[name payload] items IH]; intros w; cbv zeta.
  - cbn. split_and!; try done.
    intros kvs [= <-] kv Hkv. by apply elem_of_nil in Hkv.
  - destruct (collect _ (_ :: _) w) as [r w'] eqn:Hrun. cbn [fst snd].
    cbn [collect] in Hrun. unfold mbind, M_bind, bind, mret, M_ret, ret in Hrun.
    unfold vis_step at 1 in Hrun. cbn [fst snd] in Hrun.
    destruct (prompt_for payload) as [prompt|err].
    2:{ injection Hrun as <- <-. split_and!; done. }
    destruct (generate_visualization_cases prompt (image_path prefix name) w)
      as (made & w1 & Hgen & Hdirs & _ & Hcase).
    rewrite Hgen in Hrun. specialize (IH w1). cbv zeta in IH.
    destruct IH as (IHd & IHother & IHmono & IHkvs).
    assert (Hother1 : ∀ q : path, (∀ name, q ≠ image_path prefix name) →
                        files w1 !! q = files w !! q).
    { intros q Hq.
      destruct Hcase as [(_ & _ & image & e1 & _ & ->)|(_ & -> & _)]; [|done].
      by rewrite lookup_insert_ne. }
    assert (Hmono1 : ∀ q : path, is_Some (files w !! q) →
                       is_Some (files w1 !! q)).
    { intros q Hq.
      destruct Hcase as [(_ & _ & image & e1 & _ & ->)|(_ & -> & _)]; [|done].
      destruct (decide (image_path prefix name = q)) as [->|Hne].
      - rewrite lookup_insert_eq. by eexists.
      - by rewrite lookup_insert_ne. }
    destruct (collect (vis_step prefix prompt_for) items w1)
      as [[kvs'|err] w2]; cbn [fst snd] in IHd, IHother, IHmono, IHkvs;
      injection Hrun as <- <-.
    2:{ split_and!; [congruence | | by auto | done].
        intros q Hq. rewrite IHother by done. by apply Hother1. }
    split_and!; [congruence | | by auto |].
    { intros q Hq. rewrite IHother by done. by apply Hother1. }
    intros kvs [= <-] kv Hkv.
    assert (Htail : kv ∈ kvs' →
              ∃ name0, name0 ∈ dict_keys ((name, payload) :: items)
                ∧ kv = (prefix +:+ name0,
                        PStr (path_str (image_path prefix name0)))
                ∧ is_Some (files w2 !! image_path prefix name0)).
    { intros Hin. destruct (IHkvs kvs' eq_refl kv Hin) as (n0 & Hn0 & -> & Hf).
      exists n0. split_and!; [by apply list_elem_of_further | done | done]. }
    destruct Hcase as [(-> & _ & image & e1 & _ & Hfiles)|(-> & _ & _)].
    + rewrite bool_decide_eq_true_2 in Hkv by by eexists.
      apply elem_of_cons in Hkv as [->|Hkv]; [|by apply Htail].
      exists name. split_and!; [apply list_elem_of_here | done |].
      apply IHmono. rewrite Hfiles, lookup_insert_eq. by eexists.
    + rewrite bool_decide_eq_false_2 in Hkv by (by intros [? ?]).
      by apply Htail.
Qed.

(** With a prompt for every item, a loop of the visualizer ends normally
    and has called the model once for each item, in order. *)
Lemma collect_vis_calls prefix prompt_for (items : dict)
    (prompts : list string) w :
  Forall2 (fun item prompt => prompt_for item.2 = Ok prompt) items prompts →
  ∃ kvs,
    (collect (vis_step prefix prompt_for) items w).1 = Ok kvs
    ∧ calls (collect (vis_step prefix prompt_for) items w).2
      = calls w ++ prompts.
Proof.
  intros Hprompts. revert w.
  induction Hprompts as [|[name payload] prompt items prompts Hp _ IH];
    intros w.
  - exists []. cbn. by rewrite app_nil_r.
  - cbn [collect]. unfold mbind, M_bind, bind, mret, M_ret, ret.
    unfold vis_step at 1 3. cbn [fst snd] in Hp |- *. rewrite Hp.
    destruct (generate_visualization_cases prompt (image_path prefix name) w)
      as (made & w1 & -> & _ & Hcalls & _).
    destruct (IH w1) as (kvs & Hrun & Hcalls').
    destruct (collect (vis_step prefix prompt_for) items w1) as [[kvs'|err] w2];
      [|done].
    cbn [fst snd] in Hrun, Hcalls' |- *. eexists. split; [done |].
    by rewrite Hcalls', Hcalls, <- app_assoc.
Qed.

(** When the model fails on every prompt, a loop of the visualizer yields
    nothing and writes nothing. *)
Lemma collect_vis_none prefix prompt_for (items : dict) w :
  (∀ x e, ∃ err e', render x e = (Raise err, e')) →
  Forall (fun item => ∃ prompt, prompt_for item.2 = Ok prompt) items →
  (collect (vis_step prefix prompt_for) items w).1 = Ok []
  ∧ files (collect (vis_step prefix prompt_for) items w).2 = files w.
Proof.
  intros Hfail Hprompts. revert w.
  induction Hprompts as [|[name payload] items [prompt Hp] _ IH]; intros w;
    [done |].
  cbn [collect]. unfold mbind, M_bind, bind, mret, M_ret, ret.
  unfold vis_step at 1 3. cbn [fst snd] in Hp |- *. rewrite Hp.
  rewrite generate_visualization_spec.
  destruct (Hfail prompt (ext w)) as (err & e1 & ->). cbv beta iota zeta.
  set (w1 := add_log _ _ _). destruct (IH w1) as [Hrun Hfiles].
  destruct (collect (vis_step prefix prompt_for) items w1) as [[kvs'|err'] w2];
    [|done].
  cbn [fst snd] in Hrun, Hfiles |- *. injection Hrun as ->.
  rewrite bool_decide_eq_false_2 by (by intros [? ?]). done.
Qed.

(** The stage once its directory is made and its inputs are loaded. *)
Lemma generate_visualizations_loaded w hypotheses analysis :
  (mkdir_exist_ok vis_dir w).1 = Ok tt →
  (load_json hypotheses_path w).1 = Ok hypotheses →
  (load_json experimental_path w).1 = Ok analysis →
  generate_visualizations w =
  let w0 := add_log INFO "Starting visualization generation"
              (mkdir_exist_ok vis_dir w).2 in
  match run_ext load_pipeline w0 with
  | (Raise e, w1) => (Raise e, w1)
  | (Ok _, w1) =>
      match collect (vis_step "hypothesis_" hypothesis_prompt) hypotheses w1
      with
      | (Raise e, w2) => (Raise e, w2)
      | (Ok kvs1, w2) =>
          match collect (vis_step "results_" results_prompt) analysis w2 with
          | (Raise e, w3) => (Raise e, w3)
          | (Ok kvs2, w3) =>
              let results := store_all (store_all [] kvs1) kvs2 in
              match run_steps (json_dump_steps (PDict results) metadata_path)
                      w3 with
              | (Raise e, w4) => (Raise e, w4)
              | (Ok _, w4) =>
                  (Ok results,
                   add_log INFO
                     ("Saved visualization metadata to "
                      +:+ path_str metadata_path) w4)
              end
          end
      end
  end.
Proof.
  intros Hmk Hh Ha. rewrite generate_visualizations_start. cbv zeta.
  rewrite Hmk, Hh, Ha.
  destruct (run_ext load_pipeline _) as [[[]|e] w1]; [|done].
  rewrite (for_each_collect _ _ visualize_hypothesis_step).
  destruct (collect (vis_step "hypothesis_" hypothesis_prompt) hypotheses w1)
    as [[kvs1|e] w2]; [|done].
  rewrite (for_each_collect _ _ visualize_results_step).
  destruct (collect (vis_step "results_" results_prompt) analysis w2)
    as [[kvs2|e] w3]; done.
Qed.

(** The write of the metadata by cases: the file is replaced, or it cannot
    be opened and nothing changes. *)
Lemma dump_cases obj p w :
  (is_dir w p = false ∧ is_dir w (parent p) = true
   ∧ run_steps (json_dump_steps obj p) w
     = (Ok tt,
        with_files (<[p := concat_chunks (json_iterencode obj)]> (files w)) w))
  ∨ (∃ err, run_steps (json_dump_steps obj p) w = (Raise err, w)).
Proof.
  destruct (is_dir w p) eqn:Hp;
    [|destruct (is_dir w (parent p)) eqn:Hparent].
  - right. unfold json_dump_steps. cbn [run_steps].
    unfold mbind, M_bind, bind, open_w. rewrite Hp. by eexists.
  - left. split_and!; [done | done |]. by apply dump_complete.
  - right. unfold json_dump_steps. cbn [run_steps].
    unfold mbind, M_bind, bind, open_w. rewrite Hp, Hparent. by eexists.
Qed.

Lemma image_path_not_metadata prefix name :
  prefix = "hypothesis_" ∨ prefix = "results_" →
  metadata_path ≠ image_path prefix name.
Proof.
  intros Hprefix Heq. apply path_div_inj in Heq.
  destruct Hprefix as [-> | ->]; discriminate Heq.
Qed.

Lemma generate_visualizations_made w results :
  (generate_visualizations w).1 = Ok results →
  (mkdir_exist_ok vis_dir w).1 = Ok tt.
Proof.
  rewrite generate_visualizations_start. cbv zeta.
  by destruct (mkdir_exist_ok vis_dir w).1 as [[]|e].
Qed.

Lemma lookup_insert_is_Some_mono (f : gmap path string) (p q : path)
    (s : string) :
  is_Some (f !! q) → is_Some (<[p := s]> f !! q).
Proof.
  intros Hq. destruct (decide (p = q)) as [->|Hne].
  - rewrite lookup_insert_eq. by eexists.
  - by rewrite lookup_insert_ne.
Qed.

(** X12.  After a run of [generate_visualizations] that loaded its inputs
    and returned a mapping, [visualization_metadata.json] holds the
    encoding of just that mapping, and every entry of the mapping leads to
    its image: the value is the path [<key>.png] in the visualizations
    directory, as a string, and there is a file at that path.  (A key is
    one component of the path: titles and dataset names hold no
    separator.) *)
Theorem metadata_points_to_images w hypotheses analysis results :
  (load_json hypotheses_path w).1 = Ok hypotheses →
  (load_json experimental_path w).1 = Ok analysis →
  (generate_visualizations w).1 = Ok results →
  let after := (generate_visualizations w).2 in
  files after !! metadata_path
  = Some (concat_chunks (json_iterencode (PDict results)))
  ∧ ∀ kv : string * pyval, kv ∈ results →
      kv.2 = PStr (path_str (vis_dir // (kv.1 +:+ ".png")))
      ∧ is_Some (files after !! (vis_dir // (kv.1 +:+ ".png"))).
Proof.
  intros Hh Ha Hrun.
  pose proof (generate_visualizations_made w results Hrun) as Hmk.
  revert Hrun. rewrite (generate_visualizations_loaded w _ _ Hmk Hh Ha).
  cbv zeta. destruct (run_ext load_pipeline _) as [[[]|e] w1]; [|done].
  pose proof (collect_vis_trace "hypothesis_" hypothesis_prompt hypotheses w1)
    as (_ & _ & _ & Hk1).
  destruct (collect (vis_step "hypothesis_" hypothesis_prompt) hypotheses w1)
    as [[kvs1|e] w2]; [|done].
  pose proof (collect_vis_trace "results_" results_prompt analysis w2)
    as (_ & _ & Hm2 & Hk2).
  destruct (collect (vis_step "results_" results_prompt) analysis w2)
    as [[kvs2|e] w3]; [|done].
  cbn [fst snd] in Hk1, Hm2, Hk2.
  destruct (dump_cases (PDict (store_all (store_all [] kvs1) kvs2))
              metadata_path w3) as [(_ & _ & ->)|[err ->]]; [|done].
  cbn [fst snd]. intros [= <-]. cbn [files add_log with_files].
  split; [by rewrite lookup_insert_eq |].
  intros kv Hkv.
  assert (Hsrc : ∃ prefix name,
             kv = (prefix +:+ name, PStr (path_str (image_path prefix name)))
             ∧ is_Some (files w3 !! image_path prefix name)).
  { apply elem_of_store_all_entry in Hkv as [Hkv|Hkv].
    - apply elem_of_store_all_entry in Hkv as [Hkv|Hkv];
        [by apply elem_of_nil in Hkv |].
      destruct (Hk1 kvs1 eq_refl kv Hkv) as (name & _ & -> & Hf).
      exists "hypothesis_", name. split; [done | by apply Hm2].
    - destruct (Hk2 kvs2 eq_refl kv Hkv) as (name & _ & -> & Hf).
      by exists "results_", name. }
  destruct Hsrc as (prefix & name & -> & Hf). cbn [fst snd].
  unfold image_path in Hf |- *. rewrite string_app_assoc.
  split; [done |]. by apply lookup_insert_is_Some_mono.
Qed.

(** A directory that could be made is there, and no other directory has
    come or gone. *)
Lemma mkdir_ok_dirs p w :
  (mkdir_exist_ok p w).1 = Ok tt →
  is_dir (mkdir_exist_ok p w).2 p = true
  ∧ ∀ q, q ≠ p → is_dir (mkdir_exist_ok p w).2 q = is_dir w q.
Proof.
  unfold mkdir_exist_ok. destruct (is_dir w p) eqn:Hp; [done |].
  destruct (bool_decide (is_Some (files w !! p))); [done |].
  destruct (is_dir w (parent p)); [|done]. intros _. cbn [snd]. split.
  - unfold is_dir. cbn. apply orb_true_iff. right.
    apply bool_decide_eq_true. apply elem_of_union. left.
    by apply elem_of_singleton.
  - intros q Hq. unfold is_dir. cbn. f_equal. apply bool_decide_ext.
    rewrite elem_of_union, elem_of_singleton.
    split; [by intros [?|?] | by right].
Qed.

Lemma is_dir_dirs w w' q : dirs w' = dirs w → is_dir w' q = is_dir w q.
Proof. unfold is_dir. by intros ->. Qed.

Lemma Forall2_prompts (prompt_for : pyval → outcome string) (items : dict) :
  Forall (fun item => ∃ prompt, prompt_for item.2 = Ok prompt) items →
  ∃ prompts,
    Forall2 (fun item prompt => prompt_for item.2 = Ok prompt) items prompts.
Proof.
  induction 1 as [|item items [prompt Hp] _ [prompts IH]].
  - exists []. constructor.
  - exists (prompt :: prompts). by constructor.
Qed.

Lemma vis_step_malformed prefix prompt_for (item : string * pyval) err w :
  prompt_for item.2 = Raise err →
  vis_step prefix prompt_for item w = (Raise err, w).
Proof. intros Hbad. unfold vis_step. by rewrite Hbad. Qed.

(** X13.  One failed image does not stop the visualizer.  When a prompt
    can be built for every item of both inputs, the model is called once
    for each hypothesis and then once for each dataset, in the order of
    the inputs and on exactly these prompts, whatever the calls end with;
    and the stage ends normally if only the metadata file can be
    opened. *)
Theorem visualizer_attempts_every_item w hypotheses analysis
    (hprompts rprompts : list string) e' :
  (mkdir_exist_ok vis_dir w).1 = Ok tt →
  (load_json hypotheses_path w).1 = Ok hypotheses →
  (load_json experimental_path w).1 = Ok analysis →
  load_pipeline (ext w) = (Ok tt, e') →
  Forall2 (fun item prompt => hypothesis_prompt item.2 = Ok prompt)
    hypotheses hprompts →
  Forall2 (fun item prompt => results_prompt item.2 = Ok prompt)
    analysis rprompts →
  calls (generate_visualizations w).2 = calls w ++ hprompts ++ rprompts
  ∧ (is_dir w metadata_path = false →
     ∃ results, (generate_visualizations w).1 = Ok results).
Proof.
  intros Hmk Hh Ha Hpipe Hhp Hrp.
  rewrite (generate_visualizations_loaded w _ _ Hmk Hh Ha). cbv zeta.
  destruct (mkdir_ext_calls vis_dir w) as (Hext & Hcalls & _).
  destruct (mkdir_ok_dirs vis_dir w Hmk) as [Hdir Hothers].
  unfold run_ext. cbn [ext add_log]. rewrite Hext, Hpipe.
  set (w1 := with_ext e' _).
  destruct (collect_vis_calls "hypothesis_" hypothesis_prompt hypotheses
              hprompts w1 Hhp) as (kvs1 & Hrun1 & Hcalls1).
  pose proof (collect_vis_trace "hypothesis_" hypothesis_prompt hypotheses w1)
    as (Hd1 & _).
  destruct (collect (vis_step "hypothesis_" hypothesis_prompt) hypotheses w1)
    as [r1 w2]. cbn [fst snd] in Hrun1, Hcalls1, Hd1. subst r1.
  destruct (collect_vis_calls "results_" results_prompt analysis
              rprompts w2 Hrp) as (kvs2 & Hrun2 & Hcalls2).
  pose proof (collect_vis_trace "results_" results_prompt analysis w2)
    as (Hd2 & _).
  destruct (collect (vis_step "results_" results_prompt) analysis w2)
    as [r2 w3]. cbn [fst snd] in Hrun2, Hcalls2, Hd2. subst r2.
  assert (Hcalls3 : calls w3 = calls w ++ hprompts ++ rprompts).
  { rewrite Hcalls2, Hcalls1. subst w1. cbn. by rewrite Hcalls, <- app_assoc. }
  assert (Hdirs3 : ∀ q, is_dir w3 q = is_dir (mkdir_exist_ok vis_dir w).2 q).
  { intros q. apply is_dir_dirs. by rewrite Hd2, Hd1. }
  destruct (dump_cases (PDict (store_all (store_all [] kvs1) kvs2))
              metadata_path w3) as [(_ & _ & ->)|[err Hdump]].
  - split; [done |]. intros _. by eexists.
  - rewrite Hdump. split; [done |]. intros Hmeta. exfalso.
    rewrite dump_complete in Hdump; [done | |].
    + rewrite Hdirs3, Hothers by (unfold metadata_path; apply path_div_ne).
      done.
    + rewrite Hdirs3. unfold metadata_path. by rewrite parent_div.
Qed.

(** X14.  When the model fails on every prompt, the visualizer still ends
    normally: it returns the empty mapping and writes its encoding to
    [visualization_metadata.json], the only file it touches; no image is
    made. *)
Theorem failed_renders_leave_empty_metadata w hypotheses analysis e' :
  (mkdir_exist_ok vis_dir w).1 = Ok tt →
  (load_json hypotheses_path w).1 = Ok hypotheses →
  (load_json experimental_path w).1 = Ok analysis →
  load_pipeline (ext w) = (Ok tt, e') →
  Forall (fun item => ∃ prompt, hypothesis_prompt item.2 = Ok prompt)
    hypotheses →
  Forall (fun item => ∃ prompt, results_prompt item.2 = Ok prompt) analysis →
  (∀ x e, ∃ err e1, render x e = (Raise err, e1)) →
  is_dir w metadata_path = false →
  (generate_visualizations w).1 = Ok []
  ∧ files (generate_visualizations w).2
    = <[metadata_path := concat_chunks (json_iterencode (PDict []))]>
        (files w).
Proof.
  intros Hmk Hh Ha Hpipe Hhp Hrp Hfail Hmeta.
  rewrite (generate_visualizations_loaded w _ _ Hmk Hh Ha). cbv zeta.
  destruct (mkdir_ext_calls vis_dir w) as (Hext & _ & _).
  destruct (mkdir_ok_dirs vis_dir w Hmk) as [Hdir Hothers].
  unfold run_ext. cbn [ext add_log]. rewrite Hext, Hpipe.
  set (w1 := with_ext e' _).
  destruct (collect_vis_none "hypothesis_" hypothesis_prompt hypotheses w1
              Hfail Hhp) as [Hrun1 Hfiles1].
  pose proof (collect_vis_trace "hypothesis_" hypothesis_prompt hypotheses w1)
    as (Hd1 & _).
  destruct (collect (vis_step "hypothesis_" hypothesis_prompt) hypotheses w1)
    as [r1 w2]. cbn [fst snd] in Hrun1, Hfiles1, Hd1. subst r1.
  destruct (collect_vis_none "results_" results_prompt analysis w2
              Hfail Hrp) as [Hrun2 Hfiles2].
  pose proof (collect_vis_trace "results_" results_prompt analysis w2)
    as (Hd2 & _).
  destruct (collect (vis_step "results_" results_prompt) analysis w2)
    as [r2 w3]. cbn [fst snd] in Hrun2, Hfiles2, Hd2. subst r2.
  assert (Hdirs3 : ∀ q, is_dir w3 q = is_dir (mkdir_exist_ok vis_dir w).2 q).
  { intros q. apply is_dir_dirs. by rewrite Hd2, Hd1. }
  rewrite dump_complete.
  - cbn. split; [done |]. rewrite Hfiles2, Hfiles1. subst w1. cbn.
    by rewrite mkdir_files.
  - rewrite Hdirs3, Hothers by (unfold metadata_path; apply path_div_ne).
    done.
  - rewrite Hdirs3. unfold metadata_path. by rewrite parent_div.
Qed.

(** X15.  The payload of a hypothesis is read outside any [try]: an entry
    of [generated_hypotheses.json] without [generated_hypothesis] makes
    [generate_visualizations] end with the exception of that subscript.
    Images of earlier entries may have been written by then;
    [visualization_metadata.json] is not written, so it is as it was. *)
Theorem malformed_hypothesis_aborts_visualizer w (pre post : dict)
    (k : string) (data : pyval) analysis err e' :
  (mkdir_exist_ok vis_dir w).1 = Ok tt →
  (load_json hypotheses_path w).1 = Ok (pre ++ (k, data) :: post) →
  (load_json experimental_path w).1 = Ok analysis →
  load_pipeline (ext w) = (Ok tt, e') →
  Forall (fun item => ∃ prompt, hypothesis_prompt item.2 = Ok prompt) pre →
  hypothesis_prompt data = Raise err →
  (generate_visualizations w).1 = Raise err
  ∧ files (generate_visualizations w).2 !! metadata_path
    = files w !! metadata_path.
Proof.
  intros Hmk Hh Ha Hpipe Hpre Hbad.
  rewrite (generate_visualizations_loaded w _ _ Hmk Hh Ha). cbv zeta.
  destruct (mkdir_ext_calls vis_dir w) as (Hext & _ & _).
  unfold run_ext. cbn [ext add_log]. rewrite Hext, Hpipe.
  set (w1 := with_ext e' _).
  pose proof (collect_vis_trace "hypothesis_" hypothesis_prompt
                (pre ++ (k, data) :: post) w1) as (_ & Hother & _).
  specialize (Hother metadata_path
                (fun name => image_path_not_metadata _ name (or_introl eq_refl))).
  assert (Hraise : (collect (vis_step "hypothesis_" hypothesis_prompt)
                      (pre ++ (k, data) :: post) w1).1 = Raise err).
  { rewrite collect_app.
    destruct (Forall2_prompts _ _ Hpre) as [prompts Hprompts].
    destruct (collect_vis_calls "hypothesis_" hypothesis_prompt pre prompts
                w1 Hprompts) as (kvs & Hrun & _).
    destruct (collect (vis_step "hypothesis_" hypothesis_prompt) pre w1)
      as [r wa]. cbn [fst] in Hrun. subst r.
    cbn [collect]. unfold mbind, M_bind, bind.
    by rewrite (vis_step_malformed _ _ (k, data) err wa Hbad). }
  destruct (collect (vis_step "hypothesis_" hypothesis_prompt)
              (pre ++ (k, data) :: post) w1) as [r w2].
  cbn [fst snd] in Hraise, Hother |- *. subst r. cbn [fst snd].
  split; [done |]. rewrite Hother. subst w1. cbn. by rewrite mkdir_files.
Qed.

(** X25.  The payload of a dataset is read outside any [try] as well: an
    entry of [experimental_analysis.json] without a sized
    [feature_importance] makes [generate_visualizations] end with the
    exception of that subscript or [len].  By then the model has been
    called for every hypothesis and for the datasets before that entry,
    yet none of their images is recorded: [visualization_metadata.json] is
    as it was. *)
Theorem malformed_dataset_aborts_visualizer w hypotheses (pre post : dict)
    (k : string) (data : pyval) (hprompts rprompts : list string) err e' :
  (mkdir_exist_ok vis_dir w).1 = Ok tt →
  (load_json hypotheses_path w).1 = Ok hypotheses →
  (load_json experimental_path w).1 = Ok (pre ++ (k, data) :: post) →
  load_pipeline (ext w) = (Ok tt, e') →
  Forall2 (fun item prompt => hypothesis_prompt item.2 = Ok prompt)
    hypotheses hprompts →
  Forall2 (fun item prompt => results_prompt item.2 = Ok prompt)
    pre rprompts →
  results_prompt data = Raise err →
  (generate_visualizations w).1 = Raise err
  ∧ calls (generate_visualizations w).2 = calls w ++ hprompts ++ rprompts
  ∧ files (generate_visualizations w).2 !! metadata_path
    = files w !! metadata_path.
Proof.
  intros Hmk Hh Ha Hpipe Hhp Hrp Hbad.
  rewrite (generate_visualizations_loaded w _ _ Hmk Hh Ha). cbv zeta.
  destruct (mkdir_ext_calls vis_dir w) as (Hext & Hcalls & _).
  unfold run_ext. cbn [ext add_log]. rewrite Hext, Hpipe.
  set (w1 := with_ext e' _).
  assert (Hw1 : files w1 = files w ∧ calls w1 = calls w).
  { subst w1. cbn. by rewrite mkdir_files, Hcalls. }
  destruct Hw1 as [Hfiles1 Hcalls1].
  destruct (collect_vis_calls "hypothesis_" hypothesis_prompt hypotheses
              hprompts w1 Hhp) as (kvs1 & Hrun1 & Hc1).
  pose proof (collect_vis_trace "hypothesis_" hypothesis_prompt hypotheses w1)
    as (_ & Ho1 & _).
  specialize (Ho1 metadata_path
                (fun name => image_path_not_metadata _ name (or_introl eq_refl))).
  destruct (collect (vis_step "hypothesis_" hypothesis_prompt) hypotheses w1)
    as [r1 w2]. cbn [fst snd] in Hrun1, Hc1, Ho1. subst r1.
  pose proof (collect_vis_trace "results_" results_prompt
                (pre ++ (k, data) :: post) w2) as (_ & Ho2 & _).
  specialize (Ho2 metadata_path
                (fun name => image_path_not_metadata _ name (or_intror eq_refl))).
  assert (Hraise : ∃ w3,
            collect (vis_step "results_" results_prompt)
              (pre ++ (k, data) :: post) w2 = (Raise err, w3)
            ∧ calls w3 = calls w2 ++ rprompts).
  { rewrite collect_app.
    destruct (collect_vis_calls "results_" results_prompt pre rprompts
                w2 Hrp) as (kvs & Hrun & Hc).
    destruct (collect (vis_step "results_" results_prompt) pre w2)
      as [r wa]. cbn [fst snd] in Hrun, Hc. subst r.
    cbn [collect]. unfold mbind, M_bind, bind.
    rewrite (vis_step_malformed _ _ (k, data) err wa Hbad). by exists wa. }
  destruct Hraise as (w3 & Hrun2 & Hc2). rewrite Hrun2 in Ho2 |- *.
  cbn [fst snd] in Ho2 |- *.
  split_and!; [done | by rewrite Hc2, Hc1, Hcalls1, <- app_assoc |].
  by rewrite Ho2, Ho1, Hfiles1.
Qed.

(** X16.  The visualizations directory is made before the inputs are
    looked at, and without [parents=True].  So where the outputs directory
    is missing (and no regular file stands in its place or above it) the
    stage ends with [FileNotFoundError], whether or not its inputs are
    there; and where the inputs are missing, the stage that returns the
    empty mapping has still made the directory. *)
Theorem directory_is_made_first w :
  is_dir w vis_dir = false → files w !! vis_dir = None →
  (is_dir w OUTPUTS_DIR = false →
   (∀ q : path, q ∈ ancestors vis_dir → files w !! q = None) →
   (∃ err, (generate_visualizations w).1 = Raise err
           ∧ exn_class err = "FileNotFoundError")
   ∧ files (generate_visualizations w).2 = files w
   ∧ dirs (generate_visualizations w).2 = dirs w)
  ∧ (is_dir w OUTPUTS_DIR = true →
     files w !! hypotheses_path = None
     ∨ files w !! experimental_path = None →
     (generate_visualizations w).1 = Ok []
     ∧ files (generate_visualizations w).2 = files w
     ∧ dirs (generate_visualizations w).2 = {[vis_dir]} ∪ dirs w).
Proof.
  intros Hvis Hfile.
  assert (Hmk : ∀ b, is_dir w OUTPUTS_DIR = b →
            mkdir_exist_ok vis_dir w =
            if b then (Ok tt, with_dirs ({[vis_dir]} ∪ dirs w) w)
            else (Raise (file_not_found vis_dir), w)).
  { intros b Hb. unfold mkdir_exist_ok. rewrite Hvis, Hfile.
    rewrite bool_decide_eq_false_2 by (by intros [? ?]).
    unfold vis_dir at 1. by rewrite parent_div, Hb. }
  split.
  - intros Hout _. rewrite generate_visualizations_start. cbv zeta.
    rewrite (Hmk false Hout). cbn [fst snd files dirs add_log].
    split; [by eexists | done].
  - intros Hout Habsent. rewrite generate_visualizations_start. cbv zeta.
    rewrite (Hmk true Hout). cbn [fst snd].
    destruct Habsent as [Hno|Hno].
    + rewrite (load_json_absent _ _ Hno). done.
    + rewrite (load_json_absent experimental_path _ Hno). cbn [fst].
      by destruct (load_json hypotheses_path w).1.
Qed.

(** X17.  [VisualizationGenerator] is constructed outside any [try]: when
    the model cannot be loaded, [generate_visualizations] ends with that
    exception although both inputs were read; the model is never called
    and no file is written. *)
Theorem constructor_failure_propagates w hypotheses analysis err e' :
  (mkdir_exist_ok vis_dir w).1 = Ok tt →
  (load_json hypotheses_path w).1 = Ok hypotheses →
  (load_json experimental_path w).1 = Ok analysis →
  load_pipeline (ext w) = (Raise err, e') →
  (generate_visualizations w).1 = Raise err
  ∧ files (generate_visualizations w).2 = files w
  ∧ calls (generate_visualizations w).2 = calls w.
Proof.
  intros Hmk Hh Ha Hpipe.
  rewrite (generate_visualizations_loaded w _ _ Hmk Hh Ha). cbv zeta.
  destruct (mkdir_ext_calls vis_dir w) as (Hext & Hcalls & _).
  unfold run_ext. cbn [ext add_log]. rewrite Hext, Hpipe. cbn.
  by rewrite mkdir_files, Hcalls.
Qed.

(** X18.  [VisualizationGenerator.generate_visualization] never raises and
    calls the model once.  Either it returns the path it was given, having
    written the image there and logged nothing, or it returns [None],
    having written nothing and logged one [ERROR] line. *)
Theorem generate_visualization_total prompt p w :
  let run := generate_visualization prompt p w in
  calls run.2 = calls w ++ [prompt]
  ∧ dirs run.2 = dirs w
  ∧ ((run.1 = Ok (Some p)
      ∧ log run.2 = log w
      ∧ ∃ image e1, render prompt (ext w) = (Ok image, e1)
                    ∧ files run.2 = <[p := image]> (files w))
     ∨ (run.1 = Ok None
        ∧ files run.2 = files w
        ∧ ∃ msg,
            log run.2
            = log w ++ [(ERROR, "Error generating visualization: "
                                +:+ msg)])).
Proof.
  cbv zeta.
  destruct (generate_visualization_cases prompt p w)
    as (made & w1 & -> & Hdirs & Hcalls & Hcase).
  cbn [fst snd]. split; [done |]. split; [done |].
  destruct Hcase as [(-> & Hlog & Himage)|(-> & Hfiles & Hlog)].
  - left. by split_and!.
  - right. by split_and!.
Qed.

Lemma path_under_vis_dir_other (q : path) (name : string) :
  length q ≠ length vis_dir + 1 → q ≠ vis_dir // name.
Proof.
  intros Hlen ->. apply Hlen. unfold path_div. rewrite length_app. done.
Qed.

(** The files of the visualizer: whatever way it ends, a file that is not
    directly in the visualizations directory is as it was. *)
Lemma generate_visualizations_frame w (q : path) :
  (∀ name, q ≠ vis_dir // name) →
  files (generate_visualizations w).2 !! q = files w !! q.
Proof.
  intros Hq.
  destruct (mkdir_exist_ok vis_dir w).1 as [[]|err] eqn:Hmk.
  2:{ rewrite generate_visualizations_start. cbv zeta. rewrite Hmk.
      cbn [snd files add_log]. by rewrite mkdir_files. }
  destruct (load_json hypotheses_path w).1 as [hypotheses|err] eqn:Hh.
  2:{ rewrite generate_visualizations_start. cbv zeta. rewrite Hmk, Hh.
      cbn [snd files add_log]. by rewrite mkdir_files. }
  destruct (load_json experimental_path w).1 as [analysis|err] eqn:Ha.
  2:{ rewrite generate_visualizations_start. cbv zeta. rewrite Hmk, Hh, Ha.
      cbn [snd files add_log]. by rewrite mkdir_files. }
  rewrite (generate_visualizations_loaded w _ _ Hmk Hh Ha). cbv zeta.
  unfold run_ext. destruct (load_pipeline _) as [[[]|err] e1];
    [|cbn [snd files with_ext add_log]; by rewrite mkdir_files].
  set (w1 := with_ext e1 _).
  assert (Hw1 : files w1 = files w) by (subst w1; cbn; apply mkdir_files).
  pose proof (collect_vis_trace "hypothesis_" hypothesis_prompt hypotheses w1)
    as (_ & Ho1 & _).
  destruct (collect (vis_step "hypothesis_" hypothesis_prompt) hypotheses w1)
    as [[kvs1|err] w2]; cbn [fst snd] in Ho1 |- *;
    [|by rewrite Ho1, Hw1 by (intros name; apply Hq)].
  pose proof (collect_vis_trace "results_" results_prompt analysis w2)
    as (_ & Ho2 & _).
  destruct (collect (vis_step "results_" results_prompt) analysis w2)
    as [[kvs2|err] w3]; cbn [fst snd] in Ho2 |- *;
    [|by rewrite Ho2, Ho1, Hw1 by (intros name; apply Hq)].
  destruct (dump_cases (PDict (store_all (store_all [] kvs1) kvs2))
              metadata_path w3) as [(_ & _ & ->)|[err ->]];
    cbn [fst snd files add_log with_files].
  - rewrite lookup_insert_ne by (intros Heq; by apply (Hq _ (eq_sym Heq))).
    by rewrite Ho2, Ho1, Hw1 by (intros name; apply Hq).
  - by rewrite Ho2, Ho1, Hw1 by (intros name; apply Hq).
Qed.

(** X19.  Each stage writes its own output and nothing else.  Whatever way
    it ends, [analyze_papers] leaves every file but
    [literature_analysis.json] as it was, [generate_hypotheses] every file
    but [generated_hypotheses.json], and [generate_visualizations] every
    file that is not directly in the visualizations directory (titles and
    dataset names holding no path separator).  So no stage ever changes an
    artifact it reads. *)
Theorem stages_write_their_output_only w (q : path) :
  (q ≠ literature_path → files (analyze_papers w).2 !! q = files w !! q)
  ∧ (q ≠ hypotheses_path →
     files (generate_hypotheses w).2 !! q = files w !! q)
  ∧ ((∀ name, q ≠ vis_dir // name) →
     files (generate_visualizations w).2 !! q = files w !! q)
  ∧ files (generate_hypotheses w).2 !! literature_path
    = files w !! literature_path
  ∧ files (generate_visualizations w).2 !! hypotheses_path
    = files w !! hypotheses_path
  ∧ files (generate_visualizations w).2 !! experimental_path
    = files w !! experimental_path.
Proof.
  assert (Hhyp : ∀ q0, q0 ≠ hypotheses_path →
            files (generate_hypotheses w).2 !! q0 = files w !! q0).
  { intros q0 Hq0.
    destruct (load_json literature_path w).1 as [items|err] eqn:Hload.
    - rewrite (generate_hypotheses_loaded w _ Hload).
      pose proof (hypotheses_loop_files items [] (starting w)) as Hf.
      destruct (hypotheses_loop items [] (starting w)) as [[h|err] w1];
        cbn [fst snd files add_log with_dirs with_files] in Hf |- *.
      + rewrite lookup_insert_ne by done. by rewrite Hf.
      + by rewrite Hf.
    - by rewrite (generate_hypotheses_failed_load w _ Hload). }
  split_and!.
  - intros Hq.
    destruct (load_research_papers (ext w)) as [[[|p papers]|err] e'] eqn:Hload.
    + by rewrite (analyze_papers_empty w e' Hload).
    + rewrite (analyze_papers_run w _ e' Hload) by done. cbv zeta.
      cbn [snd files]. by rewrite lookup_insert_ne.
    + by rewrite (analyze_papers_load_failed w err e' Hload).
  - apply Hhyp.
  - apply generate_visualizations_frame.
  - apply Hhyp, literature_not_hypotheses.
  - apply generate_visualizations_frame. intros name.
    apply path_under_vis_dir_other. unfold hypotheses_path, vis_dir, path_div.
    rewrite !length_app. cbn. lia.
  - apply generate_visualizations_frame. intros name.
    apply path_under_vis_dir_other. unfold experimental_path, vis_dir, path_div.
    rewrite !length_app. cbn. lia.
Qed.

(** ** From the hypothesis stage to the visualizer *)

(** Every entry that [generate_hypotheses] returns has a
    [generated_hypothesis]. *)
Lemma hypotheses_have_reply w results :
  (generate_hypotheses w).1 = Ok results →
  ∀ kv : string * pyval, kv ∈ results →
    ∃ hypothesis, py_getitem kv.2 "generated_hypothesis" = Ok hypothesis.
Proof.
  destruct (load_json literature_path w).1 as [items|err] eqn:Hload.
  - intros Hrun kv Hkv.
    destruct (generate_hypotheses_output w items results Hload Hrun)
      as [Hloop _].
    unfold hypotheses_loop in Hloop.
    rewrite (for_each_collect _ _ hypothesis_for_step) in Hloop.
    pose proof (collect_hypotheses_entries items (starting w)) as Hentries.
    destruct (collect hypothesis_step items (starting w)) as [[kvs|err] w1];
      [|done].
    cbn [fst] in Hloop, Hentries. injection Hloop as <-.
    apply elem_of_store_all_entry in Hkv as [Hkv|Hkv];
      [by apply elem_of_nil in Hkv |].
    destruct (Hentries kvs eq_refl kv Hkv)
      as (a & ki & c & reply & e & e1 & _ & _ & _ & _ & _ & ->).
    by exists reply.
  - rewrite (generate_hypotheses_failed_load w _ Hload). cbn [fst].
    intros [= <-] kv Hkv. by apply elem_of_nil in Hkv.
Qed.

Lemma hypothesis_prompts_exist (hypotheses : dict) :
  (∀ kv : string * pyval, kv ∈ hypotheses →
     ∃ hypothesis, py_getitem kv.2 "generated_hypothesis" = Ok hypothesis) →
  Forall (fun item => ∃ prompt, hypothesis_prompt item.2 = Ok prompt)
    hypotheses.
Proof.
  intros Hall. apply Forall_forall. intros kv Hkv.
  destruct (Hall kv Hkv) as [h Hh]. unfold hypothesis_prompt. rewrite Hh.
  by eexists.
Qed.

(** X26.  The hypothesis stage and the visualizer fit together.  Every
    entry that [generate_hypotheses] returns has a [generated_hypothesis],
    so when the mapping it saved is read back unchanged from its
    serialization, the first loop of [generate_visualizations] cannot
    abort on it: with a well-formed [experimental_analysis.json], a model
    that loads and a metadata path that is free, the visualizer run next
    reads that mapping, ends normally, and has called the model once for
    each hypothesis and each dataset. *)
Theorem hypotheses_feed_visualizer w items hypotheses analysis e' :
  (load_json literature_path w).1 = Ok items →
  (generate_hypotheses w).1 = Ok hypotheses →
  json_loads (json_dumps (PDict hypotheses)) = Some (PDict hypotheses) →
  let w1 := (generate_hypotheses w).2 in
  (mkdir_exist_ok vis_dir w1).1 = Ok tt →
  (load_json experimental_path w1).1 = Ok analysis →
  load_pipeline (ext w1) = (Ok tt, e') →
  Forall (fun item => ∃ prompt, results_prompt item.2 = Ok prompt) analysis →
  is_dir w1 metadata_path = false →
  (load_json hypotheses_path w1).1 = Ok hypotheses
  ∧ ∃ results,
      (generate_visualizations w1).1 = Ok results
      ∧ length (calls (generate_visualizations w1).2)
        = length (calls w1) + length hypotheses + length analysis.
Proof.
  intros Hload Hrun Hjson w1 Hmk Ha Hpipe Hrp Hmeta.
  assert (Hh : (load_json hypotheses_path w1).1 = Ok hypotheses).
  { destruct (generate_hypotheses_output w items hypotheses Hload Hrun)
      as [_ Hfiles].
    unfold load_json. subst w1. rewrite Hfiles, lookup_insert_eq.
    by rewrite Hjson. }
  split; [exact Hh |].
  pose proof (hypothesis_prompts_exist _ (hypotheses_have_reply w _ Hrun))
    as Hhp.
  destruct (Forall2_prompts _ _ Hhp) as [hprompts Hhp2].
  destruct (Forall2_prompts _ _ Hrp) as [rprompts Hrp2].
  rewrite (generate_visualizations_loaded w1 _ _ Hmk Hh Ha). cbv zeta.
  destruct (mkdir_ext_calls vis_dir w1) as (Hext & Hcalls & _).
  destruct (mkdir_ok_dirs vis_dir w1 Hmk) as [Hdir Hothers].
  unfold run_ext. cbn [ext add_log]. rewrite Hext, Hpipe.
  set (w2 := with_ext e' _).
  destruct (collect_vis_calls "hypothesis_" hypothesis_prompt hypotheses
              hprompts w2 Hhp2) as (kvs1 & Hrun1 & Hcalls1).
  pose proof (collect_vis_trace "hypothesis_" hypothesis_prompt hypotheses w2)
    as (Hd1 & _).
  destruct (collect (vis_step "hypothesis_" hypothesis_prompt) hypotheses w2)
    as [r1 w3]. cbn [fst snd] in Hrun1, Hcalls1, Hd1. subst r1.
  destruct (collect_vis_calls "results_" results_prompt analysis
              rprompts w3 Hrp2) as (kvs2 & Hrun2 & Hcalls2).
  pose proof (collect_vis_trace "results_" results_prompt analysis w3)
    as (Hd2 & _).
  destruct (collect (vis_step "results_" results_prompt) analysis w3)
    as [r2 w4]. cbn [fst snd] in Hrun2, Hcalls2, Hd2. subst r2.
  assert (Hdirs4 : ∀ q, is_dir w4 q = is_dir (mkdir_exist_ok vis_dir w1).2 q).
  { intros q. apply is_dir_dirs. by rewrite Hd2, Hd1. }
  rewrite dump_complete.
  - eexists. split; [done |]. cbn [snd calls add_log with_files].
    rewrite Hcalls2, Hcalls1. subst w2. cbn [calls with_ext add_log].
    rewrite Hcalls, !length_app.
    by rewrite (Forall2_length _ _ _ Hhp2), (Forall2_length _ _ _ Hrp2).
  - rewrite Hdirs4, Hothers by (unfold metadata_path; apply path_div_ne).
    done.
  - rewrite Hdirs4. unfold metadata_path. by rewrite parent_div.
Qed.

(** ** The summaries *)

Lemma flat_map_ext_elem {A B} (f g : A → list B) (l : list A) :
  (∀ x, x ∈ l → f x = g x) → flat_map f l = flat_map g l.
Proof.
  induction l as [|x l IH]; intros Hfg; [done |]. cbn [flat_map].
  rewrite (Hfg x) by apply list_elem_of_here.
  rewrite IH; [done |]. intros y Hy. by apply Hfg, list_elem_of_further.
Qed.

Lemma print_hypotheses_complete (results : dict) :
  (∀ kv : string * pyval, kv ∈ results →
     ∃ hypothesis, py_getitem kv.2 "generated_hypothesis" = Ok hypothesis) →
  print_hypotheses results = (flat_map hypothesis_lines results, Ok tt)
  ∧ length (flat_map hypothesis_lines results) = 3 * length results.
Proof.
  induction results as [|[k data] results IH]; intros Hall; [done |].
  destruct (Hall (k, data)) as [h Hh]; [apply list_elem_of_here |].
  destruct IH as [IH1 IH2];
    [intros kv Hkv; by apply Hall, list_elem_of_further |].
  cbn [print_hypotheses flat_map]. unfold hypothesis_lines at 1 3.
  cbn [fst snd] in Hh |- *. rewrite Hh, IH1. split; [done |].
  rewrite length_app, IH2. cbn [length]. lia.
Qed.

(** X20.  The closing cell of the hypothesis notebook ends normally
    whenever [generate_hypotheses] does: the subscript
    [data['generated_hypothesis']] of its loop cannot fail on what the
    stage returns.  It prints the number of entries of the mapping and then
    three lines for each entry, in the order of the mapping: the title, a
    heading, and the reply as [str] renders it. *)
Theorem hypothesis_summary w results :
  (generate_hypotheses w).1 = Ok results →
  (hypothesis_generator_main w).1
  = (("Generated hypotheses for " +:+ pretty (length results) +:+ " papers")
     :: flat_map hypothesis_lines results, Ok tt)
  ∧ length (flat_map hypothesis_lines results) = 3 * length results.
Proof.
  intros Hrun.
  destruct (print_hypotheses_complete results (hypotheses_have_reply w _ Hrun))
    as [Hprint Hlen].
  split; [|done]. unfold hypothesis_generator_main.
  destruct (generate_hypotheses w) as [r w']. cbn [fst] in Hrun. subst r.
  by rewrite Hprint.
Qed.

(** Every entry that [generate_visualizations] returns maps its key to
    the path of the image with that name. *)
Lemma visualization_entries_shape w results :
  (generate_visualizations w).1 = Ok results →
  ∀ kv : string * pyval, kv ∈ results →
    kv.2 = PStr (path_str (vis_dir // (kv.1 +:+ ".png"))).
Proof.
  rewrite generate_visualizations_start. cbv zeta.
  destruct (mkdir_exist_ok vis_dir w).1 as [[]|err]; [|done].
  destruct (load_json hypotheses_path w).1 as [hypotheses|err].
  2:{ intros [= <-] kv Hkv. by apply elem_of_nil in Hkv. }
  destruct (load_json experimental_path w).1 as [analysis|err].
  2:{ intros [= <-] kv Hkv. by apply elem_of_nil in Hkv. }
  destruct (run_ext load_pipeline _) as [[[]|err] w1]; [|done].
  rewrite (for_each_collect _ _ visualize_hypothesis_step).
  pose proof (collect_vis_trace "hypothesis_" hypothesis_prompt hypotheses w1)
    as (_ & _ & _ & Hk1).
  destruct (collect (vis_step "hypothesis_" hypothesis_prompt) hypotheses w1)
    as [[kvs1|err] w2]; [|done].
  rewrite (for_each_collect _ _ visualize_results_step).
  pose proof (collect_vis_trace "results_" results_prompt analysis w2)
    as (_ & _ & _ & Hk2).
  destruct (collect (vis_step "results_" results_prompt) analysis w2)
    as [[kvs2|err] w3]; [|done].
  cbn [fst snd] in Hk1, Hk2.
  destruct (run_steps _ w3) as [[[]|err] w4]; [|done].
  cbn [fst]. intros [= <-] kv Hkv.
  assert (Hsrc : ∃ prefix name,
             kv = (prefix +:+ name,
                   PStr (path_str (image_path prefix name)))).
  { apply elem_of_store_all_entry in Hkv as [Hkv|Hkv].
    - apply elem_of_store_all_entry in Hkv as [Hkv|Hkv];
        [by apply elem_of_nil in Hkv |].
      destruct (Hk1 kvs1 eq_refl kv Hkv) as (name & _ & -> & _).
      by exists "hypothesis_", name.
    - destruct (Hk2 kvs2 eq_refl kv Hkv) as (name & _ & -> & _).
      by exists "results_", name. }
  destruct Hsrc as (prefix & name & ->). cbn [fst snd].
  unfold image_path. by rewrite string_app_assoc.
Qed.

(** X21.  The closing cell of the visualizer notebook ends normally
    whenever [generate_visualizations] does.  It prints the number of
    entries of the mapping and then two lines for each entry, in the order
    of the mapping: the key, and the path [<key>.png] in the
    visualizations directory ([str] of a string being the string). *)
Theorem visualizer_summary w results :
  (∀ s, py_format (PStr s) = s) →
  (generate_visualizations w).1 = Ok results →
  (visualizer_main w).1
  = (("Generated " +:+ pretty (length results) +:+ " visualizations")
     :: flat_map
          (fun item : string * pyval =>
             [newline +:+ item.1 +:+ ":";
              "Saved to: " +:+ path_str (vis_dir // (item.1 +:+ ".png"))])
          results,
     Ok tt).
Proof.
  intros Hstr Hrun.
  pose proof (visualization_entries_shape w results Hrun) as Hshape.
  unfold visualizer_main.
  destruct (generate_visualizations w) as [r w']. cbn [fst] in Hrun. subst r.
  cbn [fst]. unfold print_visualizations. do 2 f_equal.
  apply flat_map_ext_elem. intros kv Hkv.
  by rewrite (Hshape kv Hkv), Hstr.
Qed.

(** ** Order of the keys, and the extractor in its place *)

Lemma omap_keys_sublist {A} (f : A → option (string * pyval))
    (g : A → string) (l : list A) :
  (∀ x kv, f x = Some kv → kv.1 = g x) →
  (omap f l).*1 `sublist_of` (g <$> l).
Proof.
  intros Hfg. induction l as [|x l IH]; [constructor |].
  cbn [omap list_omap]. fold (omap f l).
  destruct (f x) as [kv|] eqn:Hx.
  - rewrite !fmap_cons, (Hfg x kv Hx). by apply sublist_skip.
  - rewrite fmap_cons. by apply sublist_cons.
Qed.

Lemma store_all_sublist (kvs : dict) (keys : list string) :
  NoDup keys → kvs.*1 `sublist_of` keys →
  store_all [] kvs = kvs.
Proof.
  intros Hnd Hsub. rewrite store_all_fresh; [done |].
  cbn. by apply (sublist_NoDup _ keys).
Qed.

(** X22.  With pairwise distinct keys in the input, the keys of the
    mapping a stage returns follow the order of the input: the titles of
    the papers that succeeded, in the order of the papers, for
    [analyze_papers]; the keys of the items with a truthy reply, in the
    order of [literature_analysis.json], for [generate_hypotheses].
    Failing items drop out and nothing else moves. *)
Theorem output_keys_follow_input_order w :
  (∀ papers e' results,
     load_research_papers (ext w) = (Ok papers, e') →
     NoDup (title <$> papers) →
     (analyze_papers w).1 = Ok results →
     dict_keys results `sublist_of` (title <$> papers))
  ∧ (∀ items hypotheses,
       (load_json literature_path w).1 = Ok items →
       NoDup (dict_keys items) →
       (generate_hypotheses w).1 = Ok hypotheses →
       dict_keys hypotheses `sublist_of` dict_keys items).
Proof.
  split.
  - intros papers e' results Hload Hnd.
    destruct (decide (papers = [])) as [->|Hne].
    { rewrite (analyze_papers_empty w e' Hload). intros [= <-]. constructor. }
    rewrite (analyze_papers_run w _ e' Hload Hne). cbv zeta.
    cbn [fst]. intros [= <-].
    assert (Hsub : (omap report_entry (paper_reports papers e').1).*1
                   `sublist_of` (title <$> papers)).
    { rewrite <- (paper_reports_fst papers e') at 2.
      rewrite <- list_fmap_compose.
      apply omap_keys_sublist. intros [p0 r] kv. unfold report_entry.
      cbn [fst snd]. destruct (paper_payload r); [|done].
      by intros [= <-]. }
    by rewrite (store_all_sublist _ _ Hnd Hsub).
  - intros items hypotheses Hload Hnd Hrun.
    destruct (generate_hypotheses_output w items hypotheses Hload Hrun)
      as [Hloop _].
    unfold hypotheses_loop in Hloop.
    rewrite (for_each_collect _ _ hypothesis_for_step) in Hloop.
    assert (Hkeys : ∀ (l : dict) w0 kvs,
              (collect hypothesis_step l w0).1 = Ok kvs →
              kvs.*1 `sublist_of` dict_keys l).
    { clear. induction l as [|[k a] l IH]; intros w0 kvs.
      - cbn. intros [= <-]. constructor.
      - cbn [collect]. unfold_M. unfold hypothesis_step at 1. cbn [fst snd].
        destruct (context_of a) as [c|err]; [|done].
        destruct (deepseek_post (prompt_of c) (ext w0)) as [r e1].
        match goal with |- context [collect hypothesis_step l ?w1] =>
          specialize (IH w1);
          destruct (collect hypothesis_step l w1) as [[kvs'|err] w2]
        end; [|done].
        cbn [fst] in IH |- *. intros [= <-]. specialize (IH kvs' eq_refl).
        unfold dict_keys. rewrite fmap_cons. cbn [fst].
        destruct (truthy (reply_value r)).
        + rewrite fmap_cons. by apply sublist_skip.
        + by apply sublist_cons. }
    destruct (collect hypothesis_step items (starting w)) as [[kvs|err] w1]
      eqn:Hcollect; [|done].
    cbn [fst] in Hloop. injection Hloop as <-.
    specialize (Hkeys items (starting w) kvs). rewrite Hcollect in Hkeys.
    specialize (Hkeys eq_refl).
    by rewrite (store_all_sublist _ _ Hnd Hkeys).
Qed.

Lemma paper_payload_extracted score_value text :
  paper_payload (Ok (insights_value score_value (extract_key_insights text)))
  = Ok (PDict
          [("key_insights",
            PList (PStr <$> key_points (extract_key_insights text)));
           ("importance_scores",
            PList (score_value
                     <$> importance_scores (extract_key_insights text)))]).
Proof. done. Qed.

Lemma stored_entries_extracted score_value papers e :
  (∀ x e0, ∃ e1,
     insights_of x e0
     = (Ok (insights_value score_value (extract_key_insights x)), e1)) →
  omap report_entry (paper_reports papers e).1
  = analysis_entry score_value <$> papers.
Proof.
  intros Hextract. revert e.
  induction papers as [|p papers IH]; intros e; [done |].
  cbn [paper_reports]. destruct (Hextract (content p) e) as [e1 ->].
  specialize (IH e1). destruct (paper_reports papers e1) as [reports e2].
  cbn [fst] in IH |- *. cbn [omap list_omap]. fold (omap report_entry reports).
  unfold report_entry at 1. cbn [fst snd].
  rewrite paper_payload_extracted, IH. done.
Qed.

Lemma blank_text_insights text :
  sentences text = [] →
  key_points (extract_key_insights text) = []
  ∧ importance_scores (extract_key_insights text) = [].
Proof.
  intros Hblank. unfold extract_key_insights.
  cbn [key_points importance_scores].
  assert (Hnil : score_sentences text = []).
  { apply length_zero_iff_nil. by rewrite score_sentences_length, Hblank. }
  by rewrite Hnil.
Qed.

(** X23.  With [extract_key_insights] in the place of the transform,
    returning its dictionary on every paper, [analyze_papers] skips
    nothing: for papers of pairwise distinct titles the mapping has one
    entry for each paper, in the order of the papers, holding the key
    points and the scores of that paper's content.  Even a paper without
    a sentence is stored, with two empty lists: its payload is a dictionary
    with two keys, so it is not empty. *)
Theorem every_extracted_paper_is_stored w papers e'
    (score_value : Score → pyval) :
  load_research_papers (ext w) = (Ok papers, e') →
  papers ≠ [] →
  NoDup (title <$> papers) →
  (∀ x e, ∃ e1,
     insights_of x e
     = (Ok (insights_value score_value (extract_key_insights x)), e1)) →
  (analyze_papers w).1 = Ok (analysis_entry score_value <$> papers)
  ∧ ∀ p, p ∈ papers → sentences (content p) = [] →
      (title p,
       PDict [("key_insights", PList []); ("importance_scores", PList [])])
      ∈ analysis_entry score_value <$> papers.
Proof.
  intros Hload Hne Hnd Hextract. split.
  - rewrite (analyze_papers_run w _ e' Hload Hne). cbv zeta. cbn [fst].
    rewrite (stored_entries_extracted score_value papers e' Hextract).
    rewrite store_all_fresh; [done |]. cbn [dict_keys fmap list_fmap app].
    rewrite <- list_fmap_compose. exact Hnd.
  - intros p Hp Hblank. apply list_elem_of_fmap. exists p. split; [|done].
    unfold analysis_entry. cbv zeta.
    destruct (blank_text_insights _ Hblank) as [-> ->]. done.
Qed.

Lemma collect_vis_keys_sublist prefix prompt_for (items : dict) w kvs :
  (collect (vis_step prefix prompt_for) items w).1 = Ok kvs →
  kvs.*1 `sublist_of` (String.append prefix <$> dict_keys items).
Proof.
  revert w kvs. induction items as [|[name payload] items IH]; intros w kvs.
  - cbn. intros [= <-]. constructor.
  - cbn [collect]. unfold mbind, M_bind, bind, mret, M_ret, ret.
    unfold vis_step at 1. cbn [fst snd].
    destruct (prompt_for payload) as [prompt|err]; [|done].
    destruct (generate_visualization _ _ w) as [[made|err] w1]; [|done].
    specialize (IH w1).
    destruct (collect (vis_step prefix prompt_for) items w1)
      as [[kvs'|err] w2]; [|done].
    cbn [fst] in IH |- *. intros [= <-]. specialize (IH kvs' eq_refl).
    unfold dict_keys. rewrite !fmap_cons. cbn [fst].
    destruct (bool_decide (is_Some made)).
    + rewrite fmap_cons. by apply sublist_skip.
    + by apply sublist_cons.
Qed.

(** X24.  With pairwise distinct keys in both inputs, the keys of the
    mapping [generate_visualizations] returns follow the inputs: first the
    hypotheses whose image was made, in the order of
    [generated_hypotheses.json] and prefixed by [hypothesis_], then the
    datasets whose image was made, in the order of
    [experimental_analysis.json] and prefixed by [results_]. *)
Theorem visualization_keys_follow_inputs w hypotheses analysis results :
  (load_json hypotheses_path w).1 = Ok hypotheses →
  (load_json experimental_path w).1 = Ok analysis →
  NoDup (dict_keys hypotheses) → NoDup (dict_keys analysis) →
  (generate_visualizations w).1 = Ok results →
  dict_keys results
  `sublist_of` (String.append "hypothesis_" <$> dict_keys hypotheses)
               ++ (String.append "results_" <$> dict_keys analysis).
Proof.
  intros Hh Ha Hndh Hnda. rewrite generate_visualizations_start. cbv zeta.
  destruct (mkdir_exist_ok vis_dir w).1 as [[]|err]; [|done].
  rewrite Hh, Ha.
  destruct (run_ext load_pipeline _) as [[[]|err] w1]; [|done].
  rewrite (for_each_collect _ _ visualize_hypothesis_step).
  pose proof (collect_vis_keys_sublist "hypothesis_" hypothesis_prompt
                hypotheses w1) as Hk1.
  destruct (collect (vis_step "hypothesis_" hypothesis_prompt) hypotheses w1)
    as [[kvs1|err] w2]; [|done].
  rewrite (for_each_collect _ _ visualize_results_step).
  pose proof (collect_vis_keys_sublist "results_" results_prompt analysis w2)
    as Hk2.
  destruct (collect (vis_step "results_" results_prompt) analysis w2)
    as [[kvs2|err] w3]; [|done].
  cbn [fst] in Hk1, Hk2. specialize (Hk1 kvs1 eq_refl).
  specialize (Hk2 kvs2 eq_refl).
  destruct (run_steps _ w3) as [[[]|err] w4]; [|done].
  cbn [fst]. intros [= <-].
  pose proof (vis_keys_NoDup hypotheses analysis Hndh Hnda) as Hnd.
  rewrite !vis_entry_keys in Hnd.
  assert (Hsub : kvs1.*1 ++ kvs2.*1
                 `sublist_of`
                 (String.append "hypothesis_" <$> dict_keys hypotheses)
                 ++ (String.append "results_" <$> dict_keys analysis))
    by (by apply sublist_app).
  pose proof (sublist_NoDup _ _ Hnd Hsub) as Hnd'.
  rewrite (store_all_fresh [] kvs1)
    by (cbn; by apply NoDup_app in Hnd' as (? & _ & _)).
  cbn [app]. rewrite store_all_fresh by done.
  unfold dict_keys. by rewrite fmap_app.
Qed.

End Properties.

(** * The claims on the sample installation *)

(** ** Failure isolation and conservation *)

Lemma sample_analysis_well_formed : well_formed sample_analysis.
Proof. repeat (constructor; [eexists; reflexivity |]). constructor. Defined.

Lemma late_analysis_well_formed : well_formed late_analysis.
Proof. repeat (constructor; [eexists; reflexivity |]). constructor. Defined.

(** The loop of [generate_hypotheses] on an analysis whose first payload
    has no [key_insights]: the [KeyError] of that item leaves the loop,
    and the item after it is never sent to the service. *)
Lemma item_error_leaves_the_loop :
  (hypotheses_loop (services := sample_services) unusable_analysis []
     empty_world).1
  = Raise (Exn "KeyError" "'key_insights'")
  ∧ calls
      (hypotheses_loop (services := sample_services) unusable_analysis []
         empty_world).2
    = []
  ∧ ¬ ∃ results,
        (hypotheses_loop (services := sample_services) unusable_analysis []
           empty_world).1 = Ok results.
Proof.
  split; [vm_compute; reflexivity |]. split; [vm_compute; reflexivity |].
  intros [results H]. vm_compute in H. discriminate H.
Defined.

(** The failing item comes first in both loops, and the item after it is
    still transformed and stored. *)
Lemma failure_isolation_witness :
  (analyze_loop (services := sample_services) late_paper_list []
     empty_world).1
  = Ok [("PaperA",
         PDict [("key_insights", PList [PStr "Alpha"; PStr "Beta"]);
                ("importance_scores", PList [PFloat float_one; PFloat float_half])])]
  ∧ calls
      (analyze_loop (services := sample_services) late_paper_list []
         empty_world).2
    = ["bad"; "Alpha. Beta"]
  ∧ well_formed late_analysis
  ∧ (hypotheses_loop (services := sample_services) late_analysis []
       empty_world).1
    = Ok [hypothesis_entry "PaperA" (str_join newline ["Alpha"; "Beta"])
            sample_reply]
  ∧ calls
      (hypotheses_loop (services := sample_services) late_analysis []
         empty_world).2
    = [prompt_of "Gamma"; prompt_of (str_join newline ["Alpha"; "Beta"])]
  ∧ unusable_analysis = [] ++ ("Bad", PDict []) :: tail unusable_analysis
  ∧ context_of (PDict []) = Raise (Exn "KeyError" "'key_insights'")
  ∧ (hypotheses_loop (services := sample_services) unusable_analysis []
       empty_world).1
    = Raise (Exn "KeyError" "'key_insights'").
Proof.
  pose proof (failure_isolation (services := sample_services)
                late_paper_list late_analysis empty_world)
    as (Hlit & Hhyp & _).
  specialize (Hhyp late_analysis_well_formed).
  cbv zeta in Hlit, Hhyp.
  destruct Hlit as (Hrun & Hcalls & _).
  destruct Hhyp as (Hrun' & Hcalls' & _).
  pose proof (failure_isolation (services := sample_services)
                late_paper_list unusable_analysis empty_world)
    as (_ & _ & Habort).
  specialize (Habort [] (tail unusable_analysis) "Bad" (PDict []) _
                eq_refl (Forall_nil_2 _) eq_refl).
  cbv zeta in Habort. destruct Habort as [Hraise _].
  split; [rewrite Hrun; vm_compute; reflexivity |].
  split; [rewrite Hcalls; vm_compute; reflexivity |].
  split; [exact late_analysis_well_formed |].
  split; [rewrite Hrun'; vm_compute; reflexivity |].
  split; [rewrite Hcalls'; vm_compute; reflexivity |].
  split; [reflexivity |]. split; [reflexivity |].
  exact Hraise.
Defined.

Lemma conservation_law_witness :
  sample_papers (ext empty_world) = (Ok sample_paper_list, 0)
  ∧ ∃ results,
      (analyze_papers (services := sample_services) empty_world).1
      = Ok results
      ∧ (∀ p, p ∈ sample_paper_list →
           processed results p
           = negb (skipped
                     (log (analyze_papers (services := sample_services)
                             empty_world).2)
                     results p))
      ∧ processed_count results sample_paper_list
        + skipped_count
            (log (analyze_papers (services := sample_services)
                    empty_world).2)
            results sample_paper_list
        = length sample_paper_list
      ∧ (NoDup (title <$> sample_paper_list) →
         processed_count results sample_paper_list = length results).
Proof.
  split; [reflexivity |].
  apply (conservation_law (services := sample_services) empty_world
           sample_paper_list 0).
  reflexivity.
Defined.

(** ** Missing inputs *)

(** The hypothesis stage with no [literature_analysis.json]: it returns
    the empty mapping; no [MissingInputError], nor any other exception,
    reaches the caller. *)
Lemma missing_input_returns_normally :
  files empty_world !! literature_path (services := sample_services) = None
  ∧ (generate_hypotheses (services := sample_services) empty_world).1 = Ok []
  ∧ ¬ ∃ e, (generate_hypotheses (services := sample_services)
              empty_world).1 = Raise e.
Proof.
  split; [reflexivity |]. split; [vm_compute; reflexivity |].
  intros [e He]. vm_compute in He. discriminate He.
Defined.

(** The hypothesis stage without [literature_analysis.json], and the
    visualization stage with [generated_hypotheses.json] in place but
    without [experimental_analysis.json], over metadata of an earlier
    run. *)
Lemma missing_input_witness :
  let services := sample_services in
  (files empty_world !! literature_path = None
   ∧ (generate_hypotheses empty_world).1 = Ok []
   ∧ files (generate_hypotheses empty_world).2 = files empty_world
   ∧ calls (generate_hypotheses empty_world).2 = calls empty_world
   ∧ ∃ msg,
       log (generate_hypotheses empty_world).2
       = log empty_world
         ++ [(INFO, "Starting hypothesis generation");
             (ERROR, "Error loading literature analysis: " +:+ msg)])
  ∧ (is_Some (files no_experiments_world !! hypotheses_path)
     ∧ files no_experiments_world !! experimental_path = None
     ∧ (mkdir_exist_ok vis_dir no_experiments_world).1 = Ok tt
     ∧ files (generate_visualizations no_experiments_world).2
       = files no_experiments_world
     ∧ files (generate_visualizations no_experiments_world).2
       !! metadata_path = Some "previous metadata"
     ∧ calls (generate_visualizations no_experiments_world).2 = []
     ∧ (generate_visualizations no_experiments_world).1 = Ok []
     ∧ ∃ msg,
         log (generate_visualizations no_experiments_world).2
         = log no_experiments_world
           ++ [(INFO, "Starting visualization generation");
               (ERROR, "Error loading results: " +:+ msg)]).
Proof.
  intros services. split.
  - assert (Habsent : files empty_world
                        !! literature_path (services := sample_services)
                      = None)
      by reflexivity.
    split; [exact Habsent |].
    exact (proj1 (proj2 (missing_input_writes_nothing
                           (services := sample_services) empty_world))
             Habsent).
  - assert (Habsent : files no_experiments_world
                        !! experimental_path (services := sample_services)
                      = None)
      by reflexivity.
    assert (Hmk : (mkdir_exist_ok (vis_dir (services := sample_services))
                     no_experiments_world).1 = Ok tt)
      by (vm_compute; reflexivity).
    destruct (proj2 (proj2 (missing_input_writes_nothing
                              (services := sample_services)
                              no_experiments_world))
                (or_intror Habsent))
      as (Hfiles & Hmeta & Hcalls & Hrun).
    destruct (Hrun Hmk) as [Hempty Hlog].
    split; [by eexists |]. split; [exact Habsent |]. split; [exact Hmk |].
    split; [exact Hfiles |].
    split; [etransitivity; [exact Hmeta | reflexivity] |].
    split; [exact Hcalls |]. split; [exact Hempty | exact Hlog].
Defined.
(** ** Keys *)





(** ** Falsy results and empty artifacts *)

Lemma falsy_result_witness :
  let services := sample_services_with sample_post_empty in
  sample_post_empty (prompt_of "Gamma") (ext empty_world)
  = (Ok (PDict []), 1)
  ∧ fails_or_empty (Ok (PDict []))
  ∧ (hypothesis_for []
       ("PaperB", PDict [("key_insights", PList [PStr "Gamma"])])
       empty_world).1 = Ok [].
Proof.
  intros services.
  assert (Hcall : sample_post_empty (prompt_of "Gamma") (ext empty_world)
                  = (Ok (PDict []), 1)) by reflexivity.
  assert (Hempty : fails_or_empty (Ok (PDict []))) by reflexivity.
  split; [exact Hcall |]. split; [exact Hempty |].
  exact (proj1 (proj2 (falsy_result_is_skipped [] empty_world))
           "PaperB" (PDict [("key_insights", PList [PStr "Gamma"])])
           "Gamma" (Ok (PDict [])) 1 eq_refl Hcall Hempty).
Defined.

Lemma empty_artifact_witness :
  let services := sample_services_with sample_post_empty in
  (load_json literature_path literature_world).1 = Ok sample_analysis
  ∧ well_formed sample_analysis
  ∧ (∀ x e, fails_or_empty (sample_post_empty x e).1)
  ∧ (generate_hypotheses literature_world).1 = Ok []
  ∧ files (generate_hypotheses literature_world).2 !! hypotheses_path
    = Some "{}".
Proof.
  intros services.
  assert (Hload : (load_json literature_path literature_world).1
                  = Ok sample_analysis)
    by (vm_compute; reflexivity).
  assert (Hfail : ∀ x e, fails_or_empty (sample_post_empty x e).1)
    by (intros x e; reflexivity).
  split; [exact Hload |]. split; [exact sample_analysis_well_formed |].
  split; [exact Hfail |].
  exact (proj2 (empty_output_artifact literature_world)
           sample_analysis Hload sample_analysis_well_formed Hfail).
Defined.

(** ** The metadata write *)

(** A write of the empty mapping over earlier metadata, cut short once the
    file is open: the file is there and empty, neither the earlier
    document nor the new one. *)
Lemma interrupted_write_truncates :
  files visualization_world !! sample_metadata_path
  = Some "previous metadata"
  ∧ files
      (interrupted_dump (services := sample_services) 1 (PDict [])
         sample_metadata_path visualization_world).2
    !! sample_metadata_path = Some ""
  ∧ files
      (run_steps
         (json_dump_steps (services := sample_services) (PDict [])
            sample_metadata_path)
         visualization_world).2
    !! sample_metadata_path = Some "{}".
Proof. repeat split; vm_compute; reflexivity. Defined.

Lemma write_witness :
  is_dir visualization_world sample_metadata_path = false
  ∧ is_dir visualization_world (parent sample_metadata_path) = true
  ∧ files
      (run_steps
         (json_dump_steps (services := sample_services) (PDict [])
            sample_metadata_path)
         visualization_world).2
    !! sample_metadata_path = Some "{}".
Proof.
  assert (Hfile : is_dir visualization_world sample_metadata_path = false)
    by (vm_compute; reflexivity).
  assert (Hparent : is_dir visualization_world (parent sample_metadata_path)
                    = true)
    by (vm_compute; reflexivity).
  split; [exact Hfile |]. split; [exact Hparent |].
  exact (proj1 (proj2 (write_replaces_in_place (services := sample_services)
                         (PDict []) sample_metadata_path
                         visualization_world Hfile Hparent))).
Defined.

(** ** Reruns, key insights and contexts *)

Lemma sample_post_deterministic x e1 e2 :
  (sample_post x e1).1 = (sample_post x e2).1.
Proof. unfold sample_post. destruct (String.eqb _ _); reflexivity. Defined.

Lemma sample_insights_deterministic x e1 e2 :
  (sample_insights x e1).1 = (sample_insights x e2).1.
Proof. unfold sample_insights. destruct (String.eqb _ _); reflexivity. Defined.

Lemma rerun_witness :
  let services := sample_services in
  (∀ x e1 e2, (deepseek_post x e1).1 = (deepseek_post x e2).1)
  ∧ (∀ x e1 e2, (insights_of x e1).1 = (insights_of x e2).1)
  ∧ (∀ e1 e2, (load_research_papers e1).1 = (load_research_papers e2).1)
  ∧ (∀ x e1 e2, (render x e1).1 = (render x e2).1)
  ∧ (∀ e1 e2, (load_pipeline e1).1 = (load_pipeline e2).1)
  ∧ (generate_hypotheses (generate_hypotheses literature_world).2).1
    = (generate_hypotheses literature_world).1
  ∧ files (generate_hypotheses (generate_hypotheses literature_world).2).2
    = files (generate_hypotheses literature_world).2.
Proof.
  intros services.
  split; [exact sample_post_deterministic |].
  split; [exact sample_insights_deterministic |].
  split; [intros e1 e2; reflexivity |].
  split; [intros x e1 e2; reflexivity |].
  split; [intros e1 e2; reflexivity |].
  exact (proj1 (rerun_is_idempotent (services := sample_services)
                  sample_post_deterministic sample_insights_deterministic
                  (fun e1 e2 => eq_refl) (fun x e1 e2 => eq_refl)
                  (fun e1 e2 => eq_refl) literature_world)).
Defined.

Lemma sample_lt_asym (a b : nat) : Nat.ltb a b = true → Nat.ltb b a = false.
Proof.
  intros H. apply Nat.ltb_lt in H. apply Nat.ltb_ge. lia.
Defined.

Lemma sample_ge_trans (a b c : nat) :
  Nat.ltb a b = false → Nat.ltb b c = false → Nat.ltb a c = false.
Proof.
  intros H1 H2. apply Nat.ltb_ge in H1, H2. apply Nat.ltb_ge. lia.
Defined.

Lemma key_insights_witness :
  let ranker := sample_ranker in
  (∀ a b, Nat.ltb a b = true → Nat.ltb b a = false)
  ∧ (∀ a b c, Nat.ltb a b = false → Nat.ltb b c = false → Nat.ltb a c = false)
  ∧ extract_key_insights "aa.b.cccc. .dd.e"
    = {| key_points := ["cccc"; "aa"; "dd"]; importance_scores := [4; 2; 2] |}
  ∧ length (key_points (extract_key_insights "aa.b.cccc. .dd.e")) = 3
  ∧ non_increasing
      (importance_scores (extract_key_insights "aa.b.cccc. .dd.e")).
Proof.
  intros ranker.
  split; [exact sample_lt_asym |]. split; [exact sample_ge_trans |].
  split; [vm_compute; reflexivity |].
  pose proof (key_insights_selection (ranker := sample_ranker)
                sample_lt_asym sample_ge_trans "aa.b.cccc. .dd.e") as H.
  cbv zeta in H. destruct H as (_ & _ & _ & Hthree & Hsorted & _).
  split; [apply Hthree; vm_compute; lia | exact Hsorted].
Defined.

Lemma context_witness :
  let services := sample_services in
  (load_json literature_path literature_world).1 = Ok sample_analysis
  ∧ (generate_hypotheses literature_world).1
    = Ok [hypothesis_entry "PaperA" (str_join newline ["Alpha"; "Beta"])
            sample_reply]
  ∧ files (generate_hypotheses literature_world).2 !! hypotheses_path
    = Some (sample_dumps
              (PDict [hypothesis_entry "PaperA"
                        (str_join newline ["Alpha"; "Beta"]) sample_reply]))
  ∧ ∀ kv,
      kv ∈ [hypothesis_entry "PaperA" (str_join newline ["Alpha"; "Beta"])
              sample_reply] →
      entry_source sample_analysis kv.
Proof.
  intros services.
  assert (Hload : (load_json literature_path literature_world).1
                  = Ok sample_analysis)
    by (vm_compute; reflexivity).
  assert (Hrun : (generate_hypotheses literature_world).1
                 = Ok [hypothesis_entry "PaperA"
                         (str_join newline ["Alpha"; "Beta"]) sample_reply])
    by (vm_compute; reflexivity).
  pose proof (context_and_reply_persisted (services := sample_services)
                literature_world sample_analysis _ Hload Hrun)
    as (Hfile & Hentries & _).
  split; [exact Hload |]. split; [exact Hrun |].
  split; [exact Hfile | exact Hentries].
Defined.

(** * Further properties on the sample installation *)

(** ** Key points *)

Lemma key_points_witness :
  let ranker := sample_ranker in
  ("Alpha", 5)
    ∈ zip (key_points (extract_key_insights "Alpha. Be"))
        (importance_scores (extract_key_insights "Alpha. Be"))
  ∧ str_join "." (split_char full_stop "Alpha. Be") = "Alpha. Be"
  ∧ ∃ piece : string,
      piece ∈ split_char full_stop "Alpha. Be"
      ∧ "Alpha" = strip piece
      ∧ 5 = cosine (embed 512 "Alpha. Be") (embed 128 piece)
      ∧ "Alpha" ≠ ""
      ∧ (full_stop ∉ String.list_ascii_of_string "Alpha")
      ∧ lstrip "Alpha" = "Alpha" ∧ rstrip "Alpha" = "Alpha".
Proof.
  intros ranker.
  assert (Hin : ("Alpha", 5)
                  ∈ zip (key_points (extract_key_insights "Alpha. Be"))
                      (importance_scores (extract_key_insights "Alpha. Be")))
    by (vm_compute; apply list_elem_of_here).
  split; [exact Hin |].
  exact (key_points_from_text (ranker := sample_ranker) "Alpha. Be" "Alpha" 5
           Hin).
Defined.

Lemma sorted_text_witness :
  let ranker := sample_ranker in
  non_increasing (score_sentences "Alpha. Be").*2
  ∧ key_points (extract_key_insights "Alpha. Be")
    = take 3 (strip <$> sentences "Alpha. Be")
  ∧ importance_scores (extract_key_insights "Alpha. Be")
    = take 3 (score_sentences "Alpha. Be").*2.
Proof.
  intros ranker.
  assert (Hsorted : non_increasing (score_sentences "Alpha. Be").*2).
  { unfold non_increasing.
    change ((score_sentences "Alpha. Be").*2) with [5; 3].
    repeat (constructor; [| repeat constructor; reflexivity]). constructor. }
  split; [exact Hsorted |].
  exact (sorted_text_keeps_order (ranker := sample_ranker) "Alpha. Be"
           Hsorted).
Defined.

Lemma stable_ranking_witness :
  let ranker := sample_ranker in
  (∀ a b c, Nat.ltb a b = false → Nat.ltb b c = false → Nat.ltb a c = false)
  ∧ sort_desc (score_sentences "bb.a.cc")
    = [("bb", 2); ("cc", 2); ("a", 1)]
  ∧ filter (fun y => tied y.2 2 = true) (sort_desc (score_sentences "bb.a.cc"))
    = filter (fun y => tied y.2 2 = true) (score_sentences "bb.a.cc").
Proof.
  intros ranker. split; [exact sample_ge_trans |].
  split; [vm_compute; reflexivity |].
  exact (ranking_is_stable (ranker := sample_ranker) sample_ge_trans
           "bb.a.cc" 2).
Defined.

(** ** The literature stage *)

Lemma sample_papers_found : sample_paper_list ≠ [].
Proof. discriminate. Defined.

Lemma last_paper_witness :
  let services := twin_services in
  load_research_papers (ext outputs_world) = (Ok twin_paper_list, 0)
  ∧ stored_entries twin_paper_list 0
    = [("T", PDict [("key_insights", PList [PStr "Alpha"; PStr "Be"]);
                    ("importance_scores", PList [PInt 5; PInt 3])]);
       ("T", PDict [("key_insights", PList [PStr "Gamma"]);
                    ("importance_scores", PList [PInt 5])])]
  ∧ (analyze_papers outputs_world).1
    = Ok [("T", PDict [("key_insights", PList [PStr "Gamma"]);
                       ("importance_scores", PList [PInt 5])])]
  ∧ ∃ results,
      (analyze_papers outputs_world).1 = Ok results
      ∧ NoDup (dict_keys results)
      ∧ ∀ k, dict_get results k
             = snd <$> last (filter (fun kv => kv.1 = k)
                               (stored_entries twin_paper_list 0)).
Proof.
  intros services. split; [reflexivity |].
  split; [vm_compute; reflexivity |]. split; [vm_compute; reflexivity |].
  exact (last_paper_wins (services := twin_services) outputs_world
           twin_paper_list 0 eq_refl).
Defined.

Lemma literature_artifact_witness :
  let services := working_services in
  load_research_papers (ext outputs_world) = (Ok sample_paper_list, 0)
  ∧ sample_paper_list ≠ []
  ∧ (analyze_papers outputs_world).1 = Ok sample_literature
  ∧ ∃ results,
      (analyze_papers outputs_world).1 = Ok results
      ∧ files (analyze_papers outputs_world).2
        = <[literature_path := json_dumps (PDict results)]>
            (files outputs_world)
      ∧ ∀ kv : string * pyval, kv ∈ results →
          ∃ p insights e1 e2 kp sc,
            p ∈ sample_paper_list ∧ title p = kv.1
            ∧ insights_of (content p) e1 = (Ok insights, e2)
            ∧ py_getitem insights "key_points" = Ok kp
            ∧ py_getitem insights "importance_scores" = Ok sc
            ∧ kv.2 = PDict [("key_insights", kp); ("importance_scores", sc)].
Proof.
  intros services. split; [reflexivity |].
  split; [exact sample_papers_found |].
  split; [vm_compute; reflexivity |].
  exact (literature_artifact (services := working_services) outputs_world
           sample_paper_list 0 eq_refl sample_papers_found).
Defined.

Lemma log_lines_witness :
  let services := working_services in
  load_research_papers (ext outputs_world) = (Ok sample_paper_list, 0)
  ∧ sample_paper_list ≠ []
  ∧ log (analyze_papers outputs_world).2
    = [(INFO, "Starting paper analysis");
       (INFO, "Successfully analyzed paper: PaperA");
       (ERROR, "Error analyzing paper PaperB: model failed");
       (INFO, "Saved analysis results to data/outputs/literature_analysis.json")]
  ∧ ∃ lines,
      log (analyze_papers outputs_world).2
      = log outputs_world ++ [(INFO, "Starting paper analysis")] ++ lines
        ++ [(INFO, "Saved analysis results to "
                   +:+ path_str literature_path)]
      ∧ Forall2
          (fun p line =>
             line = success_line p ∨ ∃ err, line = failure_line p err)
          sample_paper_list lines.
Proof.
  intros services. split; [reflexivity |].
  split; [exact sample_papers_found |].
  split; [vm_compute; reflexivity |].
  exact (one_log_line_per_paper (services := working_services) outputs_world
           sample_paper_list 0 eq_refl sample_papers_found).
Defined.

Lemma load_failure_witness :
  let services := no_papers_services in
  load_research_papers (ext outputs_world)
  = (Raise (Exn "PermissionError" "research_papers"), 0)
  ∧ (analyze_papers outputs_world).1
    = Raise (Exn "PermissionError" "research_papers")
  ∧ log (analyze_papers outputs_world).2
    = log outputs_world ++ [(INFO, "Starting paper analysis")]
  ∧ files (analyze_papers outputs_world).2 = files outputs_world
  ∧ calls (analyze_papers outputs_world).2 = calls outputs_world.
Proof.
  intros services. split; [reflexivity |].
  exact (load_failure_propagates (services := no_papers_services)
           outputs_world _ 0 eq_refl).
Defined.

Lemma sample_extracts x e :
  ∃ e1,
    insights_of (Services := extracting_services) x e
    = (Ok (insights_value (ranker := sample_ranker) sample_score_value
             (extract_key_insights (ranker := sample_ranker) x)), e1).
Proof. exists (S e). reflexivity. Defined.

Lemma blank_paper_witness :
  let services := extracting_services in
  let ranker := sample_ranker in
  load_research_papers (ext outputs_world) = (Ok blank_paper_list, 0)
  ∧ blank_paper_list ≠ []
  ∧ NoDup (title <$> blank_paper_list)
  ∧ sentences " . " = []
  ∧ (analyze_papers outputs_world).1
    = Ok [("PaperA",
           PDict [("key_insights", PList [PStr "Alpha"; PStr "Be"]);
                  ("importance_scores", PList [PInt 5; PInt 3])]);
          ("Blank",
           PDict [("key_insights", PList []);
                  ("importance_scores", PList [])])].
Proof.
  intros services ranker.
  assert (Hne : blank_paper_list ≠ []) by discriminate.
  assert (Hnd : NoDup (title <$> blank_paper_list))
    by (apply (bool_decide_unpack _); vm_compute; exact I).
  split; [reflexivity |]. split; [exact Hne |]. split; [exact Hnd |].
  split; [vm_compute; reflexivity |].
  pose proof (every_extracted_paper_is_stored
                (services := extracting_services) (ranker := sample_ranker)
                outputs_world blank_paper_list 0 sample_score_value
                eq_refl Hne Hnd sample_extracts) as [Hrun _].
  etransitivity; [exact Hrun | vm_compute; reflexivity].
Defined.

(** ** The hypothesis stage *)

Lemma malformed_payload_witness :
  let services := working_services in
  (load_json literature_path malformed_literature_world).1
  = Ok ([("PaperA", PDict [("key_insights", PList [PStr "Alpha"])])]
        ++ ("PaperC", PDict []) :: [])
  ∧ well_formed [("PaperA", PDict [("key_insights", PList [PStr "Alpha"])])]
  ∧ context_of (PDict []) = Raise (Exn "KeyError" "'key_insights'")
  ∧ (generate_hypotheses malformed_literature_world).1
    = Raise (Exn "KeyError" "'key_insights'")
  ∧ files (generate_hypotheses malformed_literature_world).2
    = files malformed_literature_world
  ∧ calls (generate_hypotheses malformed_literature_world).2
    = calls malformed_literature_world
      ++ map (fun item => prompt_of (context_or_empty item.2))
           [("PaperA", PDict [("key_insights", PList [PStr "Alpha"])])].
Proof.
  intros services.
  assert (Hload : (load_json literature_path malformed_literature_world).1
                  = Ok ([("PaperA",
                          PDict [("key_insights", PList [PStr "Alpha"])])]
                        ++ ("PaperC", PDict []) :: []))
    by (vm_compute; reflexivity).
  assert (Hpre : well_formed
                   [("PaperA", PDict [("key_insights", PList [PStr "Alpha"])])])
    by (constructor; [eexists; reflexivity | constructor]).
  split; [exact Hload |]. split; [exact Hpre |]. split; [reflexivity |].
  exact (malformed_payload_aborts (services := working_services)
           malformed_literature_world _ [] "PaperC" (PDict []) _
           Hload Hpre eq_refl).
Defined.

Lemma sample_post_empty_quiet x e :
  ∃ v e', sample_post_empty x e = (Ok v, e') ∧ truthy v = false.
Proof. exists (PDict []), (S e). split; reflexivity. Defined.

Lemma empty_replies_witness :
  let services := sample_services_with sample_post_empty in
  (load_json literature_path literature_world).1 = Ok sample_analysis
  ∧ well_formed sample_analysis
  ∧ (∀ x e, ∃ v e', deepseek_post x e = (Ok v, e') ∧ truthy v = false)
  ∧ (generate_hypotheses literature_world).1 = Ok []
  ∧ calls (generate_hypotheses literature_world).2
    = calls literature_world
      ++ map (fun item => prompt_of (context_or_empty item.2)) sample_analysis
  ∧ files (generate_hypotheses literature_world).2 !! hypotheses_path
    = Some (json_dumps (PDict []))
  ∧ log (generate_hypotheses literature_world).2
    = log literature_world
      ++ [(INFO, "Starting hypothesis generation");
          (INFO, "Saved generated hypotheses to "
                 +:+ path_str hypotheses_path)].
Proof.
  intros services.
  assert (Hload : (load_json literature_path literature_world).1
                  = Ok sample_analysis)
    by (vm_compute; reflexivity).
  split; [exact Hload |]. split; [exact sample_analysis_well_formed |].
  split; [exact sample_post_empty_quiet |].
  exact (empty_replies_leave_no_trace
           (services := sample_services_with sample_post_empty)
           literature_world sample_analysis Hload sample_analysis_well_formed
           sample_post_empty_quiet).
Defined.

Lemma sample_key_points_are_strings x e v kp :
  (sample_insights x e).1 = Ok v → py_getitem v "key_points" = Ok kp →
  ∃ ss : list string, kp = PList (PStr <$> ss).
Proof.
  unfold sample_insights. destruct (String.eqb x "bad"); [discriminate |].
  intros [= <-] [= <-]. exists ["Alpha"; "Beta"]. reflexivity.
Defined.

Lemma stages_fit_witness :
  let services := working_services in
  load_research_papers (ext outputs_world) = (Ok sample_paper_list, 0)
  ∧ sample_paper_list ≠ []
  ∧ (analyze_papers outputs_world).1 = Ok sample_literature
  ∧ json_loads (json_dumps (PDict sample_literature))
    = Some (PDict sample_literature)
  ∧ well_formed sample_literature
  ∧ ∃ hypotheses,
      (generate_hypotheses (analyze_papers outputs_world).2).1 = Ok hypotheses
      ∧ (∀ k, k ∈ dict_keys hypotheses → k ∈ dict_keys sample_literature)
      ∧ calls (generate_hypotheses (analyze_papers outputs_world).2).2
        = calls outputs_world ++ map content sample_paper_list
          ++ map (fun item => prompt_of (context_or_empty item.2))
               sample_literature.
Proof.
  intros services.
  assert (Hrun : (analyze_papers outputs_world).1 = Ok sample_literature)
    by (vm_compute; reflexivity).
  split; [reflexivity |]. split; [exact sample_papers_found |].
  split; [exact Hrun |]. split; [reflexivity |].
  exact (literature_feeds_hypotheses (services := working_services)
           outputs_world sample_paper_list 0 sample_literature eq_refl
           sample_papers_found sample_key_points_are_strings Hrun eq_refl).
Defined.

Lemma hypothesis_summary_witness :
  let services := sample_services in
  (generate_hypotheses literature_world).1
  = Ok [hypothesis_entry "PaperA" (str_join newline ["Alpha"; "Beta"])
          sample_reply]
  ∧ (hypothesis_generator_main literature_world).1
    = (["Generated hypotheses for 1 papers";
        newline +:+ "Paper: PaperA"; "Generated Hypothesis:"; "reply"],
       Ok tt).
Proof.
  intros services.
  assert (Hrun : (generate_hypotheses literature_world).1
                 = Ok [hypothesis_entry "PaperA"
                         (str_join newline ["Alpha"; "Beta"]) sample_reply])
    by (vm_compute; reflexivity).
  split; [exact Hrun |].
  pose proof (hypothesis_summary (services := sample_services)
                literature_world _ Hrun) as [Hmain _].
  etransitivity; [exact Hmain | vm_compute; reflexivity].
Defined.

(** ** The visualizer *)

Lemma datasets_loaded :
  let services := working_services in
  (mkdir_exist_ok vis_dir datasets_world).1 = Ok tt
  ∧ (load_json hypotheses_path datasets_world).1 = Ok sample_hypotheses
  ∧ (load_json experimental_path datasets_world).1 = Ok sample_datasets.
Proof. intros services. repeat split; vm_compute; reflexivity. Defined.

Lemma metadata_witness :
  let services := working_services in
  (load_json hypotheses_path datasets_world).1 = Ok sample_hypotheses
  ∧ (load_json experimental_path datasets_world).1 = Ok sample_datasets
  ∧ (generate_visualizations datasets_world).1
    = Ok [("hypothesis_P",
           PStr "data/outputs/visualizations/hypothesis_P.png");
          ("results_D", PStr "data/outputs/visualizations/results_D.png")]
  ∧ files (generate_visualizations datasets_world).2 !! metadata_path
    = Some "{...}"
  ∧ is_Some (files (generate_visualizations datasets_world).2
               !! (vis_dir // ("results_D" +:+ ".png"))).
Proof.
  intros services.
  destruct datasets_loaded as (_ & Hh & Ha).
  assert (Hrun : (generate_visualizations (services := working_services)
                    datasets_world).1
                 = Ok [("hypothesis_P",
                        PStr "data/outputs/visualizations/hypothesis_P.png");
                       ("results_D",
                        PStr "data/outputs/visualizations/results_D.png")])
    by (vm_compute; reflexivity).
  pose proof (metadata_points_to_images (services := working_services)
                datasets_world _ _ _ Hh Ha Hrun) as [Hmeta Hentries].
  split; [exact Hh |]. split; [exact Ha |]. split; [exact Hrun |].
  split; [exact Hmeta |].
  exact (proj2 (Hentries ("results_D", _)
                  (list_elem_of_further _ _ _ (list_elem_of_here _ _)))).
Defined.

Lemma every_item_witness :
  let services := no_image_services in
  (mkdir_exist_ok vis_dir datasets_world).1 = Ok tt
  ∧ (load_json hypotheses_path datasets_world).1 = Ok sample_hypotheses
  ∧ (load_json experimental_path datasets_world).1 = Ok sample_datasets
  ∧ load_pipeline (ext datasets_world) = (Ok tt, 0)
  ∧ Forall2 (fun item prompt => hypothesis_prompt item.2 = Ok prompt)
      sample_hypotheses ["Scientific visualization of hypothesis: reply"]
  ∧ Forall2 (fun item prompt => results_prompt item.2 = Ok prompt)
      sample_datasets
      ["Scientific data visualization showing relationship between 2 features"]
  ∧ calls (generate_visualizations datasets_world).2
    = calls datasets_world
      ++ ["Scientific visualization of hypothesis: reply"]
      ++ ["Scientific data visualization showing relationship between 2 features"]
  ∧ (is_dir datasets_world metadata_path = false →
     ∃ results, (generate_visualizations datasets_world).1 = Ok results).
Proof.
  intros services.
  assert (Hmk : (mkdir_exist_ok (vis_dir (services := no_image_services))
                   datasets_world).1 = Ok tt)
    by (vm_compute; reflexivity).
  assert (Hh : (load_json (services := no_image_services) hypotheses_path
                  datasets_world).1 = Ok sample_hypotheses)
    by (vm_compute; reflexivity).
  assert (Ha : (load_json (services := no_image_services) experimental_path
                  datasets_world).1 = Ok sample_datasets)
    by (vm_compute; reflexivity).
  assert (Hhp : Forall2
                  (fun item prompt =>
                     hypothesis_prompt (services := no_image_services) item.2
                     = Ok prompt)
                  sample_hypotheses
                  ["Scientific visualization of hypothesis: reply"])
    by (repeat constructor).
  assert (Hrp : Forall2
                  (fun item prompt => results_prompt item.2 = Ok prompt)
                  sample_datasets
                  ["Scientific data visualization showing relationship between 2 features"])
    by (repeat constructor).
  split; [exact Hmk |]. split; [exact Hh |]. split; [exact Ha |].
  split; [reflexivity |]. split; [exact Hhp |]. split; [exact Hrp |].
  exact (visualizer_attempts_every_item (services := no_image_services)
           datasets_world _ _ _ _ 0 Hmk Hh Ha eq_refl Hhp Hrp).
Defined.

Lemma no_render_fails x e : ∃ err e1, no_render x e = (Raise err, e1).
Proof. do 2 eexists. reflexivity. Defined.

Lemma failed_renders_witness :
  let services := no_image_services in
  (mkdir_exist_ok vis_dir datasets_world).1 = Ok tt
  ∧ (load_json hypotheses_path datasets_world).1 = Ok sample_hypotheses
  ∧ (load_json experimental_path datasets_world).1 = Ok sample_datasets
  ∧ is_dir datasets_world metadata_path = false
  ∧ (generate_visualizations datasets_world).1 = Ok []
  ∧ files (generate_visualizations datasets_world).2
    = <[metadata_path := "{}"]> (files datasets_world).
Proof.
  intros services.
  assert (Hmk : (mkdir_exist_ok (vis_dir (services := no_image_services))
                   datasets_world).1 = Ok tt)
    by (vm_compute; reflexivity).
  assert (Hh : (load_json (services := no_image_services) hypotheses_path
                  datasets_world).1 = Ok sample_hypotheses)
    by (vm_compute; reflexivity).
  assert (Ha : (load_json (services := no_image_services) experimental_path
                  datasets_world).1 = Ok sample_datasets)
    by (vm_compute; reflexivity).
  assert (Hmeta : is_dir datasets_world
                    (metadata_path (services := no_image_services)) = false)
    by (vm_compute; reflexivity).
  split; [exact Hmk |]. split; [exact Hh |]. split; [exact Ha |].
  split; [exact Hmeta |].
  refine (failed_renders_leave_empty_metadata (services := no_image_services)
            datasets_world _ _ 0 Hmk Hh Ha eq_refl _ _ no_render_fails Hmeta).
  - repeat (constructor; [eexists; reflexivity |]). constructor.
  - repeat (constructor; [eexists; reflexivity |]). constructor.
Defined.

Lemma malformed_hypothesis_witness :
  let services := working_services in
  (mkdir_exist_ok vis_dir malformed_visualization_world).1 = Ok tt
  ∧ (load_json hypotheses_path malformed_visualization_world).1
    = Ok ([("P", PDict [("generated_hypothesis", sample_reply)])]
          ++ ("Q", PDict []) :: [])
  ∧ hypothesis_prompt (PDict [])
    = Raise (Exn "KeyError" "'generated_hypothesis'")
  ∧ (generate_visualizations malformed_visualization_world).1
    = Raise (Exn "KeyError" "'generated_hypothesis'")
  ∧ files (generate_visualizations malformed_visualization_world).2
    !! metadata_path
    = Some "previous metadata".
Proof.
  intros services.
  assert (Hmk : (mkdir_exist_ok (vis_dir (services := working_services))
                   malformed_visualization_world).1 = Ok tt)
    by (vm_compute; reflexivity).
  assert (Hh : (load_json (services := working_services) hypotheses_path
                  malformed_visualization_world).1
               = Ok ([("P", PDict [("generated_hypothesis", sample_reply)])]
                     ++ ("Q", PDict []) :: []))
    by (vm_compute; reflexivity).
  assert (Ha : (load_json (services := working_services) experimental_path
                  malformed_visualization_world).1 = Ok sample_datasets)
    by (vm_compute; reflexivity).
  assert (Hpre : Forall
                   (fun item =>
                      ∃ prompt,
                        hypothesis_prompt (services := working_services)
                          item.2 = Ok prompt)
                   [("P", PDict [("generated_hypothesis", sample_reply)])])
    by (constructor; [eexists; reflexivity | constructor]).
  pose proof (malformed_hypothesis_aborts_visualizer
                (services := working_services)
                malformed_visualization_world _ [] "Q" (PDict []) _ _ 0
                Hmk Hh Ha eq_refl Hpre eq_refl) as [Hrun Hmeta].
  split; [exact Hmk |]. split; [exact Hh |]. split; [reflexivity |].
  split; [exact Hrun |].
  etransitivity; [exact Hmeta | vm_compute; reflexivity].
Defined.

Lemma directory_witness :
  let services := working_services in
  (is_dir empty_world vis_dir = false
   ∧ files empty_world !! vis_dir = None
   ∧ is_dir empty_world OUTPUTS_DIR = false
   ∧ (∀ q : path, q ∈ ancestors vis_dir → files empty_world !! q = None)
   ∧ (generate_visualizations empty_world).1
     = Raise (Exn "FileNotFoundError"
                "[Errno 2] No such file or directory: 'data/outputs/visualizations'")
   ∧ ∃ err, (generate_visualizations empty_world).1 = Raise err
            ∧ exn_class err = "FileNotFoundError")
  ∧ (is_dir outputs_world vis_dir = false
     ∧ files outputs_world !! vis_dir = None
     ∧ is_dir outputs_world OUTPUTS_DIR = true
     ∧ files outputs_world !! hypotheses_path = None
     ∧ (generate_visualizations outputs_world).1 = Ok []
     ∧ files (generate_visualizations outputs_world).2 = files outputs_world
     ∧ dirs (generate_visualizations outputs_world).2
       = {[vis_dir]} ∪ dirs outputs_world).
Proof.
  intros services. split.
  - assert (Hvis : is_dir empty_world
                     (vis_dir (services := working_services)) = false)
      by (vm_compute; reflexivity).
    assert (Hfile : files empty_world
                      !! vis_dir (services := working_services) = None)
      by reflexivity.
    assert (Hout : is_dir empty_world
                     (OUTPUTS_DIR (Services := working_services)) = false)
      by (vm_compute; reflexivity).
    assert (Hclear : ∀ q : path,
              q ∈ ancestors (vis_dir (services := working_services)) →
              files empty_world !! q = None)
      by (intros q _; reflexivity).
    split; [exact Hvis |]. split; [exact Hfile |]. split; [exact Hout |].
    split; [exact Hclear |]. split; [vm_compute; reflexivity |].
    exact (proj1 (proj1 (directory_is_made_first
                           (services := working_services)
                           empty_world Hvis Hfile) Hout Hclear)).
  - assert (Hvis : is_dir outputs_world
                     (vis_dir (services := working_services)) = false)
      by (vm_compute; reflexivity).
    assert (Hfile : files outputs_world
                      !! vis_dir (services := working_services) = None)
      by reflexivity.
    assert (Hout : is_dir outputs_world
                     (OUTPUTS_DIR (Services := working_services)) = true)
      by (vm_compute; reflexivity).
    assert (Hno : files outputs_world
                    !! hypotheses_path (services := working_services) = None)
      by reflexivity.
    split; [exact Hvis |]. split; [exact Hfile |]. split; [exact Hout |].
    split; [exact Hno |].
    exact (proj2 (directory_is_made_first (services := working_services)
                    outputs_world Hvis Hfile) Hout (or_introl Hno)).
Defined.

Lemma constructor_failure_witness :
  let services := no_model_services in
  (mkdir_exist_ok vis_dir datasets_world).1 = Ok tt
  ∧ (load_json hypotheses_path datasets_world).1 = Ok sample_hypotheses
  ∧ (load_json experimental_path datasets_world).1 = Ok sample_datasets
  ∧ load_pipeline (ext datasets_world)
    = (Raise (Exn "OSError" "model not found"), 0)
  ∧ (generate_visualizations datasets_world).1
    = Raise (Exn "OSError" "model not found")
  ∧ files (generate_visualizations datasets_world).2 = files datasets_world
  ∧ calls (generate_visualizations datasets_world).2 = calls datasets_world.
Proof.
  intros services.
  assert (Hmk : (mkdir_exist_ok (vis_dir (services := no_model_services))
                   datasets_world).1 = Ok tt)
    by (vm_compute; reflexivity).
  assert (Hh : (load_json (services := no_model_services) hypotheses_path
                  datasets_world).1 = Ok sample_hypotheses)
    by (vm_compute; reflexivity).
  assert (Ha : (load_json (services := no_model_services) experimental_path
                  datasets_world).1 = Ok sample_datasets)
    by (vm_compute; reflexivity).
  split; [exact Hmk |]. split; [exact Hh |]. split; [exact Ha |].
  split; [reflexivity |].
  exact (constructor_failure_propagates (services := no_model_services)
           datasets_world _ _ _ 0 Hmk Hh Ha eq_refl).
Defined.

Lemma visualizer_summary_witness :
  let services := working_services in
  (∀ s, py_format (PStr s) = s)
  ∧ (generate_visualizations datasets_world).1
    = Ok [("hypothesis_P",
           PStr "data/outputs/visualizations/hypothesis_P.png");
          ("results_D", PStr "data/outputs/visualizations/results_D.png")]
  ∧ (visualizer_main datasets_world).1
    = (["Generated 2 visualizations";
        newline +:+ "hypothesis_P:";
        "Saved to: data/outputs/visualizations/hypothesis_P.png";
        newline +:+ "results_D:";
        "Saved to: data/outputs/visualizations/results_D.png"],
       Ok tt).
Proof.
  intros services.
  assert (Hstr : ∀ s, py_format (Services := working_services) (PStr s) = s)
    by reflexivity.
  assert (Hrun : (generate_visualizations (services := working_services)
                    datasets_world).1
                 = Ok [("hypothesis_P",
                        PStr "data/outputs/visualizations/hypothesis_P.png");
                       ("results_D",
                        PStr "data/outputs/visualizations/results_D.png")])
    by (vm_compute; reflexivity).
  split; [exact Hstr |]. split; [exact Hrun |].
  etransitivity;
    [exact (visualizer_summary (services := working_services) datasets_world
              _ Hstr Hrun)
    | vm_compute; reflexivity].
Defined.

Lemma visualization_order_witness :
  let services := working_services in
  (load_json hypotheses_path datasets_world).1 = Ok sample_hypotheses
  ∧ (load_json experimental_path datasets_world).1 = Ok sample_datasets
  ∧ NoDup (dict_keys sample_hypotheses) ∧ NoDup (dict_keys sample_datasets)
  ∧ (generate_visualizations datasets_world).1
    = Ok [("hypothesis_P",
           PStr "data/outputs/visualizations/hypothesis_P.png");
          ("results_D", PStr "data/outputs/visualizations/results_D.png")]
  ∧ ["hypothesis_P"; "results_D"]
    `sublist_of` (String.append "hypothesis_" <$> dict_keys sample_hypotheses)
                 ++ (String.append "results_" <$> dict_keys sample_datasets).
Proof.
  intros services.
  destruct datasets_loaded as (_ & Hh & Ha).
  assert (Hndh : NoDup (dict_keys sample_hypotheses))
    by (apply (bool_decide_unpack _); vm_compute; exact I).
  assert (Hnda : NoDup (dict_keys sample_datasets))
    by (apply (bool_decide_unpack _); vm_compute; exact I).
  assert (Hrun : (generate_visualizations (services := working_services)
                    datasets_world).1
                 = Ok [("hypothesis_P",
                        PStr "data/outputs/visualizations/hypothesis_P.png");
                       ("results_D",
                        PStr "data/outputs/visualizations/results_D.png")])
    by (vm_compute; reflexivity).
  split; [exact Hh |]. split; [exact Ha |]. split; [exact Hndh |].
  split; [exact Hnda |]. split; [exact Hrun |].
  exact (visualization_keys_follow_inputs (services := working_services)
           datasets_world _ _ _ Hh Ha Hndh Hnda Hrun).
Defined.

Lemma key_order_witness :
  let services := sample_services in
  (load_json literature_path literature_world).1 = Ok sample_analysis
  ∧ NoDup (dict_keys sample_analysis)
  ∧ (generate_hypotheses literature_world).1
    = Ok [hypothesis_entry "PaperA" (str_join newline ["Alpha"; "Beta"])
            sample_reply]
  ∧ ["PaperA"] `sublist_of` dict_keys sample_analysis.
Proof.
  intros services.
  assert (Hload : (load_json literature_path literature_world).1
                  = Ok sample_analysis)
    by (vm_compute; reflexivity).
  assert (Hnd : NoDup (dict_keys sample_analysis))
    by (apply (bool_decide_unpack _); vm_compute; exact I).
  assert (Hrun : (generate_hypotheses literature_world).1
                 = Ok [hypothesis_entry "PaperA"
                         (str_join newline ["Alpha"; "Beta"]) sample_reply])
    by (vm_compute; reflexivity).
  split; [exact Hload |]. split; [exact Hnd |]. split; [exact Hrun |].
  exact (proj2 (output_keys_follow_input_order (services := sample_services)
                  literature_world)
           sample_analysis _ Hload Hnd Hrun).
Defined.

Lemma malformed_dataset_witness :
  let services := working_services in
  (mkdir_exist_ok vis_dir malformed_datasets_world).1 = Ok tt
  ∧ (load_json hypotheses_path malformed_datasets_world).1
    = Ok sample_hypotheses
  ∧ (load_json experimental_path malformed_datasets_world).1
    = Ok (sample_datasets ++ ("E", PDict []) :: [])
  ∧ results_prompt (PDict [])
    = Raise (Exn "KeyError" "'feature_importance'")
  ∧ (generate_visualizations malformed_datasets_world).1
    = Raise (Exn "KeyError" "'feature_importance'")
  ∧ calls (generate_visualizations malformed_datasets_world).2
    = ["Scientific visualization of hypothesis: reply";
       "Scientific data visualization showing relationship between 2 features"]
  ∧ files (generate_visualizations malformed_datasets_world).2
    !! metadata_path
    = Some "previous metadata".
Proof.
  intros services.
  assert (Hmk : (mkdir_exist_ok (vis_dir (services := working_services))
                   malformed_datasets_world).1 = Ok tt)
    by (vm_compute; reflexivity).
  assert (Hh : (load_json (services := working_services) hypotheses_path
                  malformed_datasets_world).1 = Ok sample_hypotheses)
    by (vm_compute; reflexivity).
  assert (Ha : (load_json (services := working_services) experimental_path
                  malformed_datasets_world).1
               = Ok (sample_datasets ++ ("E", PDict []) :: []))
    by (vm_compute; reflexivity).
  assert (Hhp : Forall2
                  (fun item prompt =>
                     hypothesis_prompt (services := working_services) item.2
                     = Ok prompt)
                  sample_hypotheses
                  ["Scientific visualization of hypothesis: reply"])
    by (repeat constructor).
  assert (Hrp : Forall2
                  (fun item prompt => results_prompt item.2 = Ok prompt)
                  sample_datasets
                  ["Scientific data visualization showing relationship between 2 features"])
    by (repeat constructor).
  pose proof (malformed_dataset_aborts_visualizer
                (services := working_services)
                malformed_datasets_world _ _ [] "E" (PDict []) _ _ _ 0
                Hmk Hh Ha eq_refl Hhp Hrp eq_refl) as (Hrun & Hcalls & Hmeta).
  split; [exact Hmk |]. split; [exact Hh |]. split; [exact Ha |].
  split; [reflexivity |]. split; [exact Hrun |].
  split; [exact Hcalls |].
  etransitivity; [exact Hmeta | vm_compute; reflexivity].
Defined.

Lemma chained_stages_witness :
  let services := chained_services in
  (load_json literature_path chained_world).1 = Ok sample_analysis
  ∧ (generate_hypotheses chained_world).1 = Ok sample_generated
  ∧ json_loads (json_dumps (PDict sample_generated))
    = Some (PDict sample_generated)
  ∧ (mkdir_exist_ok vis_dir (generate_hypotheses chained_world).2).1 = Ok tt
  ∧ (load_json experimental_path (generate_hypotheses chained_world).2).1
    = Ok sample_datasets
  ∧ is_dir (generate_hypotheses chained_world).2 metadata_path = false
  ∧ (load_json hypotheses_path (generate_hypotheses chained_world).2).1
    = Ok sample_generated
  ∧ ∃ results,
      (generate_visualizations (generate_hypotheses chained_world).2).1
      = Ok results
      ∧ length
          (calls
             (generate_visualizations (generate_hypotheses chained_world).2).2)
        = length (calls (generate_hypotheses chained_world).2)
          + length sample_generated + length sample_datasets.
Proof.
  intros services.
  assert (Hload : (load_json (services := chained_services) literature_path
                     chained_world).1 = Ok sample_analysis)
    by (vm_compute; reflexivity).
  assert (Hrun : (generate_hypotheses (services := chained_services)
                    chained_world).1 = Ok sample_generated)
    by (vm_compute; reflexivity).
  assert (Hmk : (mkdir_exist_ok (vis_dir (services := chained_services))
                   (generate_hypotheses (services := chained_services)
                      chained_world).2).1 = Ok tt)
    by (vm_compute; reflexivity).
  assert (Ha : (load_json (services := chained_services) experimental_path
                  (generate_hypotheses (services := chained_services)
                     chained_world).2).1 = Ok sample_datasets)
    by (vm_compute; reflexivity).
  assert (Hmeta : is_dir (generate_hypotheses (services := chained_services)
                            chained_world).2
                    (metadata_path (services := chained_services)) = false)
    by (vm_compute; reflexivity).
  assert (Hrp : Forall
                  (fun item =>
                     ∃ prompt, results_prompt item.2 = Ok prompt)
                  sample_datasets)
    by (constructor; [eexists; reflexivity | constructor]).
  split; [exact Hload |]. split; [exact Hrun |]. split; [reflexivity |].
  split; [exact Hmk |]. split; [exact Ha |]. split; [exact Hmeta |].
  assert (Hpipe : load_pipeline (Services := chained_services)
                    (ext (generate_hypotheses (services := chained_services)
                            chained_world).2) = (Ok tt, 2))
    by (vm_compute; reflexivity).
  exact (hypotheses_feed_visualizer (services := chained_services)
           chained_world _ _ _ 2 Hload Hrun eq_refl Hmk Ha Hpipe Hrp Hmeta).
Defined.

